(** * restaurant-backend-api: cart, order, review, menu and restaurant handlers

    A shallow embedding of the Express route handlers of the cart, order,
    review, menu, restaurant and agent routers over an explicit document
    store.  In the sources the modules sit in these files:
    - [routes/orders.js] (lines 1-284 of [src/routes/orders.js]);
    - [routes/cart.js] (lines 284-503 of [src/routes/orders.js]);
    - [routes/restaurants.js] (lines 503-698 of [src/routes/orders.js]);
    - [routes/reviews.js] and [models/Review.js] ([src/routes/reviews.js]);
    - [routes/menu.js] ([src/unnamed/part_000]);
    - [routes/agents.js] ([src/routes/agents.js]);
    - [models/MenuItem.js] and [models/Restaurant.js] ([src/models/MenuItem.js]).

    The model:
    - a Mongo collection is the list of its documents in insertion order;
      [findOne] and [findById] return the first match;
    - a JavaScript [Number] is an IEEE 754 double, Rocq's primitive [float]:
      [+], [*], [/] and [<=] are the operations of the processor, and
      [Math.round] rounds to the nearest integer, halves towards +infinity;
    - a stored [ObjectId] is the string [toString()] prints; an id that
      arrives with a request (a path parameter or a body field) is a string
      that Mongoose casts before it queries, and a string it cannot cast
      raises a [CastError];
    - a handler is a function from the store to a store and a response:
      [return res.status(..).json(..)] ends it early, an exception ends it
      in the [catch] block, which answers 500, and writes made before
      either of them stay in the store. *)

From Stdlib Require Import String Ascii List Bool ZArith QArith Qround Lia.
From Stdlib Require Import Floats Uint63 DecimalString.
Import ListNotations.
Set Warnings "-inexact-float".
Local Open Scope string_scope.
Local Open Scope list_scope.
Local Open Scope float_scope.

Definition ObjectId : Type := string.
Definition Number : Type := float.
Definition Date : Type := Z.

(** [Math.round]: the integer nearest to [x], a half rounded towards
    +infinity, that is the floor of [x + 1/2] taken exactly.  A finite
    double is [m * 2^e] for integers [m] and [e]; with [0 <= e] it is a
    whole number already.  Infinities, NaN and zeros are returned as they
    are, and a negative [x] that rounds to zero gives [-0]. *)
Definition Math_round (x : Number) : Number :=
  match Prim2SF x with
  | S754_finite s m e =>
    if (0 <=? e)%Z then x
    else
      let v := if s then Zneg m else Zpos m in
      match ((2 * v + 2 ^ (- e)) / 2 ^ (1 - e))%Z with
      | Z0 => if s then (- 0) else 0
      | Zpos n => of_uint63 (Uint63.of_Z (Zpos n))
      | Zneg n => - of_uint63 (Uint63.of_Z (Zpos n))
      end
  | _ => x
  end.

(** [array.length] as a Number (a length is far below 2^53). *)
Definition Number_ofNat (n : nat) : Number := of_uint63 (Uint63.of_Z (Z.of_nat n)).

(** A value of a JSON body.  An array or an object is kept as the string
    JavaScript's [ToPrimitive] gives for it, which is all [+] and [<=]
    look at. *)
Inductive JSON : Type :=
| JNull
| JBool (b : bool)
| JNum (x : Number)
| JStr (s : string)
| JObj (printed : string).

(** What the handlers take from the platform they run on:
    - [castObjectId]: Mongoose's cast of a string to an ObjectId, as the
      string [toString()] prints for the result; [None] when the string is
      not an ObjectId and the query raises a [CastError];
    - [Number_toString]: how JavaScript prints a Number ([String(x)]);
    - [String_toNumber]: how JavaScript reads a string as a Number
      ([Number(s)]), NaN for a string that is not a number.
    The theorems hold whatever these three functions are. *)
Class Runtime : Type := {
  castObjectId : string -> option ObjectId;
  Number_toString : Number -> string;
  String_toNumber : string -> Number
}.

Definition sameId (a b : ObjectId) : bool := String.eqb a b.

Definition optId_eqb (a : option ObjectId) (b : ObjectId) : bool :=
  match a with
  | Some x => sameId x b
  | None => false
  end.

(** ** Documents *)

(** [models/User.js]: the [role] enum. *)
Inductive Role : Type :=
| customer
| restaurant_owner
| delivery_agent
| admin.

Definition Role_eqb (a b : Role) : bool :=
  match a, b with
  | customer, customer => true
  | restaurant_owner, restaurant_owner => true
  | delivery_agent, delivery_agent => true
  | admin, admin => true
  | _, _ => false
  end.

(** [req.user], as the [auth] middleware attaches it. *)
Module User.
Record t : Type := mk { _id : ObjectId; role : Role }.
End User.

(** [models/Restaurant.js]: the fields the handlers read or write. *)
Module Restaurant.
Record t : Type := mk {
  _id : ObjectId;
  owner : ObjectId;
  rating_average : Number;
  rating_count : nat
}.
End Restaurant.

(** [models/MenuItem.js]. *)
Module MenuItem.
Record t : Type := mk {
  _id : ObjectId;
  restaurant : ObjectId;
  name : string;
  price : Number;
  isAvailable : bool
}.
End MenuItem.

(** A line of a cart: [{ menuItem, quantity, price }]. *)
Module CartItem.
Record t : Type := mk {
  menuItem : ObjectId;
  quantity : Number;
  price : Number
}.
End CartItem.

Module Cart.
Record t : Type := mk {
  user : ObjectId;
  restaurant : option ObjectId;
  items : list CartItem.t;
  totalAmount : Number
}.
End Cart.

Module OrderItem.
Record t : Type := mk {
  menuItem : ObjectId;
  name : string;
  quantity : Number;
  price : Number
}.
End OrderItem.

Module Order.
Record t : Type := mk {
  _id : ObjectId;
  customer : ObjectId;
  restaurant : option ObjectId;
  items : list OrderItem.t;
  deliveryAddress : string;
  totalAmount : Number;
  deliveryFee : Number;
  tax : Number;
  finalAmount : Number;
  paymentMethod : string;
  notes : string;
  status : string;
  paymentStatus : string;
  deliveryAgent : option ObjectId;
  estimatedDeliveryTime : Date;
  actualDeliveryTime : option Date
}.
End Order.

(** [models/Review.js]. *)
Module Review.
Record t : Type := mk {
  customer : ObjectId;
  restaurant : option ObjectId;
  order : ObjectId;
  restaurantRating : Number;
  deliveryRating : option Number;
  restaurantComment : string;
  deliveryComment : string;
  isVisible : bool
}.
End Review.

(** ** The store *)

Module DB.
Record t : Type := mk {
  restaurants : list Restaurant.t;
  menuItems : list MenuItem.t;
  carts : list Cart.t;
  orders : list Order.t;
  reviews : list Review.t
}.

Definition with_carts (cs : list Cart.t) (db : t) : t :=
  mk (restaurants db) (menuItems db) cs (orders db) (reviews db).
Definition with_orders (os : list Order.t) (db : t) : t :=
  mk (restaurants db) (menuItems db) (carts db) os (reviews db).
Definition with_reviews (rs : list Review.t) (db : t) : t :=
  mk (restaurants db) (menuItems db) (carts db) (orders db) rs.
Definition with_restaurants (rs : list Restaurant.t) (db : t) : t :=
  mk rs (menuItems db) (carts db) (orders db) (reviews db).
Definition with_menuItems (ms : list MenuItem.t) (db : t) : t :=
  mk (restaurants db) ms (carts db) (orders db) (reviews db).
End DB.

(** ** Responses *)

Inductive Payload : Type :=
| NoData
| ItemsTotal (items : list CartItem.t) (totalAmount : Number)
| CartDoc (cart : Cart.t)
| OrderDoc (order : Order.t)
| ReviewDoc (review : Review.t)
| MenuItemDoc (menuItem : MenuItem.t).

Module Res.
Record t : Type := mk { status : nat; message : string; data : Payload }.
End Res.

(** ** Handlers: state with early exit *)

Definition Handler (A : Type) : Type := DB.t -> DB.t * (Res.t + A).

Definition ret {A : Type} (a : A) : Handler A := fun db => (db, inr a).

Definition bind {A B : Type} (m : Handler A) (k : A -> Handler B) : Handler B :=
  fun db =>
    match m db with
    | (db', inl r) => (db', inl r)
    | (db', inr a) => k a db'
    end.

Notation "x <- m ;; k" := (bind m (fun x => k))
  (at level 61, m at next level, right associativity).
Notation "m ;;; k" := (bind m (fun _ => k))
  (at level 61, right associativity).

(** [return res.status(s).json({ message })]. *)
Definition send {A : Type} (s : nat) (msg : string) : Handler A :=
  fun db => (db, inl (Res.mk s msg NoData)).

(** An exception: the handler's [catch] answers
    [res.status(500).json({ message: error.message })]. *)
Definition throw {A : Type} (msg : string) : Handler A := send 500 msg.

Definition read : Handler DB.t := fun db => (db, inr db).
Definition write (f : DB.t -> DB.t) : Handler unit := fun db => (f db, inr tt).

Definition run (h : Handler Res.t) (db : DB.t) : DB.t * Res.t :=
  match h db with
  | (db', inl r) => (db', r)
  | (db', inr r) => (db', r)
  end.

(** ** Collections *)

Fixpoint replaceFirst {A : Type} (p : A -> bool) (y : A) (l : list A) : list A :=
  match l with
  | [] => []
  | x :: l' => if p x then y :: l' else x :: replaceFirst p y l'
  end.

Fixpoint removeFirst {A : Type} (p : A -> bool) (l : list A) : list A :=
  match l with
  | [] => []
  | x :: l' => if p x then l' else x :: removeFirst p l'
  end.

(** A populated path is [null] when the referenced document is gone; reading
    a field of it raises a [TypeError]. *)
Definition deref {A : Type} (o : option A) : Handler A :=
  match o with
  | Some a => ret a
  | None => throw "Cannot read properties of null"
  end.

(** [Restaurant.findById(ref)] for a reference a stored document holds, and
    [populate('restaurant')]. *)
Definition Restaurant_findById (id : option ObjectId) : Handler (option Restaurant.t) :=
  db <- read ;;
  ret (find (fun r => optId_eqb id (Restaurant._id r)) (DB.restaurants db)).

(** [populate('items.menuItem')]: the menu item a cart line refers to. *)
Definition MenuItem_populate (ref : ObjectId) : Handler (option MenuItem.t) :=
  db <- read ;;
  ret (find (fun m => sameId (MenuItem._id m) ref) (DB.menuItems db)).

Definition Cart_findOne (user : ObjectId) : Handler (option Cart.t) :=
  db <- read ;;
  ret (find (fun c => sameId (Cart.user c) user) (DB.carts db)).

Definition Cart_findOneAndDelete (user : ObjectId) : Handler unit :=
  write (fun db =>
    DB.with_carts (removeFirst (fun c => sameId (Cart.user c) user) (DB.carts db)) db).

Definition Review_find (restaurant : option ObjectId) : Handler (list Review.t) :=
  db <- read ;;
  ret (filter (fun r => match restaurant, Review.restaurant r with
                        | Some a, Some b => sameId a b
                        | None, None => true
                        | _, _ => false
                        end) (DB.reviews db)).

(** ** Middleware *)

(** Modelled from the spec: [middleware/auth.js] is not among the sources.
    The spec (4.5, 7) has every gated endpoint declare the set of roles it
    allows and answer 403 to a caller whose role is not in it. *)
Definition authorize (roles : list Role) (user : User.t) : Handler unit :=
  if existsb (Role_eqb (User.role user)) roles then ret tt
  else send 403 "Access denied".

(** ** The Express router *)

Inductive Method : Type := GET | POST | PUT | DELETE.

Definition Method_eqb (a b : Method) : bool :=
  match a, b with
  | GET, GET | POST, POST | PUT, PUT | DELETE, DELETE => true
  | _, _ => false
  end.

(** A segment of a route path: a literal, or a [:name] parameter. *)
Inductive Segment : Type :=
| Lit (s : string)
| Param (name : string).

(** A request to the cart router: [req.body.menuItemId] is a string (the
    empty one where a request carries none) and [req.body.quantity] any
    JSON value, or absent. *)
Module Req.
Record t : Type := mk {
  method : Method;
  path : list string;
  user : User.t;
  menuItemId : string;
  quantity : option JSON
}.
End Req.

Definition Params : Type := list (string * string).

Fixpoint param (ps : Params) (name : string) : string :=
  match ps with
  | [] => ""
  | (n, v) :: ps' => if String.eqb n name then v else param ps' name
  end.

Fixpoint matchPath (pattern : list Segment) (path : list string) : option Params :=
  match pattern, path with
  | [], [] => Some []
  | Lit s :: pattern', x :: path' =>
    if String.eqb s x then matchPath pattern' path' else None
  | Param n :: pattern', x :: path' =>
    match matchPath pattern' path' with
    | Some ps => Some ((n, x) :: ps)
    | None => None
    end
  | _, _ => None
  end.

Record Route : Type := mkRoute {
  route_method : Method;
  route_path : list Segment;
  route_handler : Params -> Req.t -> Handler Res.t
}.

(** Express tries the routes of a router in the order they were registered;
    the first whose method and path match handles the request (none of the
    handlers here calls [next]).  A request no route takes reaches the 404
    handler of [server.js]. *)
Fixpoint dispatch (routes : list Route) (req : Req.t) : Handler Res.t :=
  match routes with
  | [] => send 404 "Route not found"
  | r :: routes' =>
    if Method_eqb (route_method r) (Req.method req) then
      match matchPath (route_path r) (Req.path req) with
      | Some ps => route_handler r ps req
      | None => dispatch routes' req
      end
    else dispatch routes' req
  end.

(** ** Schemas and bodies the handlers hand on *)

(** [models/Order.js] is not among the sources: what its schema gives a new
    order by default and which new orders its validator lets [save] store
    are parameters of the placement handler. *)
Module OrderSchema.
Record t : Type := mk {
  default_status : string;
  default_paymentStatus : string;
  validate : Order.t -> bool
}.
End OrderSchema.

(** The body of [PUT /api/menu/:id].  The handler hands [req.body] whole to
    [findByIdAndUpdate] with [runValidators]: which paths it sets, how
    Mongoose casts their values and what the schema's validators say is
    not the handler's doing.  The body is taken as what that makes of the
    stored document: the updated document, or [None] when a cast or a
    validator fails. *)
Module MenuBody.
Record t : Type := mk { update : MenuItem.t -> option MenuItem.t }.
End MenuBody.

(** The body of [PUT /api/restaurants/:id], in the same way. *)
Module RestaurantBody.
Record t : Type := mk { update : Restaurant.t -> option Restaurant.t }.
End RestaurantBody.

(** A page of a list endpoint: [{ orders | reviews, pagination: { current,
    pages, total } }]. *)
Module Listing.
Record t (A : Type) : Type := mk {
  items : list A;
  current : positive;
  pages : Z;
  total : nat
}.
Arguments mk {A}.
Arguments items {A}.
Arguments current {A}.
Arguments pages {A}.
Arguments total {A}.
End Listing.

Section Handlers.
Context {rt : Runtime}.

(** ** Ids and values that arrive with a request *)

(** The cast of an id before a query: a [CastError] ends the handler in its
    [catch]. *)
Definition castId (id : string) : Handler ObjectId :=
  match castObjectId id with
  | Some oid => ret oid
  | None => throw "Cast to ObjectId failed"
  end.

(** [MenuItem.findById(id)] for an id of the request. *)
Definition MenuItem_findById (id : string) : Handler (option MenuItem.t) :=
  oid <- castId id ;;
  db <- read ;;
  ret (find (fun m => sameId (MenuItem._id m) oid) (DB.menuItems db)).

(** [Order.findById(id)] for an id of the request. *)
Definition Order_findById (id : string) : Handler (option Order.t) :=
  oid <- castId id ;;
  db <- read ;;
  ret (find (fun o => sameId (Order._id o) oid) (DB.orders db)).

(** [Restaurant.findById(req.params.id)]. *)
Definition Restaurant_findByParam (id : string) : Handler (option Restaurant.t) :=
  oid <- castId id ;;
  Restaurant_findById (Some oid).

(** JavaScript's [ToNumber], as [v <= 0] applies it. *)
Definition ToNumber (v : JSON) : Number :=
  match v with
  | JNull => 0
  | JBool b => if b then 1 else 0
  | JNum x => x
  | JStr s => String_toNumber s
  | JObj printed => String_toNumber printed
  end.

(** JavaScript's [x + v] for a Number [x]: a sum, unless [v] is (or
    prints as) a string, and then the concatenation of [x] printed and
    that string. *)
Definition js_add (x : Number) (v : JSON) : JSON :=
  match v with
  | JNull | JBool _ | JNum _ => JNum (x + ToNumber v)
  | JStr s => JStr (Number_toString x ++ s)
  | JObj printed => JStr (Number_toString x ++ printed)
  end.

(** Mongoose's cast of a value assigned to a path of type Number: a
    number stays (NaN is refused), a boolean becomes 0 or 1, a string is
    read as a number and refused when it is not one; [null] and the
    empty string give [null].  [None] stands for both a [CastError] and
    [null]. *)
Definition castNumber (v : JSON) : option Number :=
  match v with
  | JNull => None
  | JBool b => Some (if b then 1 else 0)
  | JNum x => if is_nan x then None else Some x
  | JStr s =>
    if String.eqb s "" then None
    else if is_nan (String_toNumber s) then None else Some (String_toNumber s)
  | JObj _ => None
  end.

(** ** The Cart schema *)

(** Modelled from the spec: [models/Cart.js] is not among the sources.
    The spec's data model (3) gives every line item a quantity of at least 1;
    [save] refuses a document that breaks it. *)
Definition cartSchema_validate (c : Cart.t) : bool :=
  forallb (fun item => 1 <=? CartItem.quantity item) (Cart.items c).

(** Modelled from the spec: [models/Cart.js] is not among the sources.
    The spec (3, 8) has the total amount derived from the lines as the sum of
    price times quantity, cached on the document when it is saved. *)
Definition cartSchema_total (items : list CartItem.t) : Number :=
  fold_left (fun total item => total + CartItem.price item * CartItem.quantity item)
            items 0.

(** Modelled from the spec: [models/Cart.js] is not among the sources.
    The spec's data model (3) makes a line's [quantity] a number and its
    [menuItem] a reference; the values a handler assigns to them are cast
    as Mongoose casts to [Number] and to [ObjectId].  A value that cannot
    be cast, or a quantity left [null], makes [save] fail, which [None]
    stands for. *)
Definition castLine (menuItem : string) (quantity : JSON) (price : Number)
  : option CartItem.t :=
  match castObjectId menuItem, castNumber quantity with
  | Some oid, Some q => Some (CartItem.mk oid q price)
  | _, _ => None
  end.

(** [save()] of a document holding a value that could not be cast. *)
Definition checked {A : Type} (o : option A) : Handler A :=
  match o with
  | Some a => ret a
  | None => throw "Cart validation failed"
  end.

(** [cart.save()].  A new document is inserted; a document that [findOne]
    loaded is written back where it was read, the first document of its
    user (no handler changes [user]). *)
Definition Cart_save (isNew : bool) (c : Cart.t) : Handler Cart.t :=
  if cartSchema_validate c then
    let saved := Cart.mk (Cart.user c) (Cart.restaurant c) (Cart.items c)
                         (cartSchema_total (Cart.items c)) in
    write (fun db =>
      DB.with_carts
        (if isNew then DB.carts db ++ [saved]
         else replaceFirst (fun d => sameId (Cart.user d) (Cart.user c)) saved (DB.carts db))
        db) ;;;
    ret saved
  else throw "Cart validation failed".

(** ** routes/cart.js (src/routes/orders.js, lines 284-503) *)

(** [item.menuItem.toString() === id]: the line's reference, printed,
    against the string of the request as it came. *)
Definition sameLine (id : string) (item : CartItem.t) : bool :=
  String.eqb (CartItem.menuItem item) id.

(** [router.get('/', auth, authorize('customer'), ...)] *)
Definition cart_get (user : User.t) : Handler Res.t :=
  authorize [customer] user ;;;
  cart <- Cart_findOne (User._id user) ;;
  match cart with
  | None => ret (Res.mk 200 "" (ItemsTotal [] 0))
  | Some cart => ret (Res.mk 200 "" (CartDoc cart))
  end.

(** The lines of a cart after [cart_post] has added [quantity] of a menu
    item: [existingItem.quantity += quantity] on the first line whose
    reference prints as [menuItemId], or a new line pushed at the end.
    [None] when the result cannot be cast. *)
Definition addLine (menuItemId : string) (quantity : JSON) (price : Number)
    (items : list CartItem.t) : option (list CartItem.t) :=
  match find (sameLine menuItemId) items with
  | Some existingItem =>
    match castNumber (js_add (CartItem.quantity existingItem) quantity) with
    | Some q =>
      Some (replaceFirst (sameLine menuItemId)
              (CartItem.mk (CartItem.menuItem existingItem) q (CartItem.price existingItem))
              items)
    | None => None
    end
  | None =>
    match castLine menuItemId quantity price with
    | Some line => Some (items ++ [line])
    | None => None
    end
  end.

(** [router.post('/', auth, authorize('customer'), ...)];
    [quantity = 1] when the body has none. *)
Definition cart_post (user : User.t) (menuItemId : string) (quantity0 : option JSON)
  : Handler Res.t :=
  authorize [customer] user ;;;
  let quantity := match quantity0 with Some v => v | None => JNum 1 end in
  menuItem <- MenuItem_findById menuItemId ;;
  match menuItem with
  | None => send 400 "Menu item not available"
  | Some menuItem =>
    if negb (MenuItem.isAvailable menuItem) then send 400 "Menu item not available"
    else
      (* .populate('restaurant', '_id name') *)
      menuItem_restaurant <- Restaurant_findById (Some (MenuItem.restaurant menuItem)) ;;
      cart <- Cart_findOne (User._id user) ;;
      match cart with
      | None =>
        r <- deref menuItem_restaurant ;;
        line <- checked (castLine menuItemId quantity (MenuItem.price menuItem)) ;;
        saved <- Cart_save true
          (Cart.mk (User._id user) (Some (Restaurant._id r)) [line] 0) ;;
        ret (Res.mk 200 "Item added to cart" (CartDoc saved))
      | Some cart =>
        (match Cart.restaurant cart with
         | Some cr =>
           r <- deref menuItem_restaurant ;;
           if negb (sameId cr (Restaurant._id r)) then
             send 400 "You can only add items from one restaurant at a time. Clear cart to add from different restaurant."
           else ret tt
         | None => ret tt
         end) ;;;
        restaurant <-
          (match Cart.restaurant cart with
           | Some cr => ret (Some cr)
           | None => r <- deref menuItem_restaurant ;; ret (Some (Restaurant._id r))
           end) ;;
        items <- checked (addLine menuItemId quantity (MenuItem.price menuItem)
                            (Cart.items cart)) ;;
        saved <- Cart_save false
          (Cart.mk (Cart.user cart) restaurant items (Cart.totalAmount cart)) ;;
        ret (Res.mk 200 "Item added to cart" (CartDoc saved))
      end
  end.

(** [router.put('/:itemId', auth, authorize('customer'), ...)].
    A body without [quantity] passes the guard ([undefined <= 0] is false)
    and is refused when the line is saved. *)
Definition cart_put (user : User.t) (itemId : string) (quantity : option JSON)
  : Handler Res.t :=
  authorize [customer] user ;;;
  if match quantity with Some v => ToNumber v <=? 0 | None => false end
  then send 400 "Quantity must be greater than 0"
  else
    cart <- Cart_findOne (User._id user) ;;
    match cart with
    | None => send 404 "Cart not found"
    | Some cart =>
      match find (sameLine itemId) (Cart.items cart) with
      | None => send 404 "Item not found in cart"
      | Some item =>
        q <- checked (match quantity with Some v => castNumber v | None => None end) ;;
        saved <- Cart_save false
          (Cart.mk (Cart.user cart) (Cart.restaurant cart)
             (replaceFirst (sameLine itemId)
                (CartItem.mk (CartItem.menuItem item) q (CartItem.price item))
                (Cart.items cart))
             (Cart.totalAmount cart)) ;;
        ret (Res.mk 200 "Cart updated successfully" (CartDoc saved))
      end
    end.

(** [router.delete('/:itemId', auth, authorize('customer'), ...)] *)
Definition cart_delete_item (user : User.t) (itemId : string) : Handler Res.t :=
  authorize [customer] user ;;;
  cart <- Cart_findOne (User._id user) ;;
  match cart with
  | None => send 404 "Cart not found"
  | Some cart =>
    let items := filter (fun item => negb (sameLine itemId item)) (Cart.items cart) in
    let restaurant :=
      if Nat.eqb (length items) 0 then None else Cart.restaurant cart in
    saved <- Cart_save false (Cart.mk (Cart.user cart) restaurant items (Cart.totalAmount cart)) ;;
    ret (Res.mk 200 "Item removed from cart" (CartDoc saved))
  end.

(** [router.delete('/clear', auth, authorize('customer'), ...)] *)
Definition cart_delete_clear (user : User.t) : Handler Res.t :=
  authorize [customer] user ;;;
  Cart_findOneAndDelete (User._id user) ;;;
  ret (Res.mk 200 "Cart cleared successfully" NoData).

(** The routes of [routes/cart.js], in the order of the file. *)
Definition cartRouter : list Route :=
  [ mkRoute GET [] (fun _ req => cart_get (Req.user req));
    mkRoute POST [] (fun _ req =>
      cart_post (Req.user req) (Req.menuItemId req) (Req.quantity req));
    mkRoute PUT [Param "itemId"] (fun ps req =>
      cart_put (Req.user req) (param ps "itemId") (Req.quantity req));
    mkRoute DELETE [Param "itemId"] (fun ps req =>
      cart_delete_item (Req.user req) (param ps "itemId"));
    mkRoute DELETE [Lit "clear"] (fun _ req => cart_delete_clear (Req.user req)) ].

(** [app.use('/api/cart', cartRoutes)]: one request against the store. *)
Definition cartApi (req : Req.t) (db : DB.t) : DB.t * Res.t :=
  run (dispatch cartRouter req) db.

(** ** routes/orders.js (src/routes/orders.js, lines 1-284) *)

(** [order.save()] of a new document. *)
Definition Order_save_new (schema : OrderSchema.t) (o : Order.t) : Handler unit :=
  if OrderSchema.validate schema o then
    write (fun db => DB.with_orders (DB.orders db ++ [o]) db)
  else throw "Order validation failed".

(** [order.save()] of a document [findById] loaded: it is written back
    where it was read.  The handler only stores a status it has checked
    against its own lists, a date and ['paid']. *)
Definition Order_save (o : Order.t) : Handler unit :=
  write (fun db =>
    DB.with_orders
      (replaceFirst (fun d => sameId (Order._id d) (Order._id o)) o (DB.orders db)) db).

Fixpoint mapM {A B : Type} (f : A -> Handler B) (l : list A) : Handler (list B) :=
  match l with
  | [] => ret []
  | x :: l' => y <- f x ;; ys <- mapM f l' ;; ret (y :: ys)
  end.

(** One cart line as the order keeps it; [item.menuItem] is the populated
    menu item. *)
Definition snapshotLine (item : CartItem.t) : Handler OrderItem.t :=
  populated <- MenuItem_populate (CartItem.menuItem item) ;;
  menuItem <- deref populated ;;
  ret (OrderItem.mk (MenuItem._id menuItem) (MenuItem.name menuItem)
                    (CartItem.quantity item) (CartItem.price item)).

(** [router.post('/', auth, authorize('customer'), ...)].  [now] is
    [Date.now()] in milliseconds and [newId] the [_id] of [new Order]. *)
Definition order_post (schema : OrderSchema.t) (now : Date) (newId : ObjectId)
    (user : User.t) (deliveryAddress paymentMethod notes : string) : Handler Res.t :=
  authorize [customer] user ;;;
  cart <- Cart_findOne (User._id user) ;;
  match cart with
  | None => send 400 "Cart is empty"
  | Some cart =>
    if Nat.eqb (length (Cart.items cart)) 0 then send 400 "Cart is empty"
    else
      let deliveryFee : Number := 50 in
      let tax : Number := Math_round (Cart.totalAmount cart * 0.05) in
      let finalAmount : Number := Cart.totalAmount cart + deliveryFee + tax in
      items <- mapM snapshotLine (Cart.items cart) ;;
      let order :=
        Order.mk newId (User._id user) (Cart.restaurant cart) items deliveryAddress
          (Cart.totalAmount cart) deliveryFee tax finalAmount paymentMethod notes
          (OrderSchema.default_status schema)
          (OrderSchema.default_paymentStatus schema)
          None
          (now + 45 * 60 * 1000)%Z
          None in
      Order_save_new schema order ;;;
      Cart_findOneAndDelete (User._id user) ;;;
      ret (Res.mk 201 "Order placed successfully" (OrderDoc order))
  end.

(** [router.get('/:id', auth, ...)].  Users are never deleted, so the
    populated [customer] and [deliveryAgent] carry the ids the order holds;
    the populated [restaurant] is [null] when its document is gone. *)
Definition order_get (user : User.t) (id : string) : Handler Res.t :=
  order <- Order_findById id ;;
  match order with
  | None => send 404 "Order not found"
  | Some order =>
    let hasAccess :=
      sameId (Order.customer order) (User._id user)
      || optId_eqb (Order.deliveryAgent order) (User._id user)
      || Role_eqb (User.role user) admin in
    (if Role_eqb (User.role user) restaurant_owner then
       populated <- Restaurant_findById (Order.restaurant order) ;;
       order_restaurant <- deref populated ;;
       found <- Restaurant_findById (Some (Restaurant._id order_restaurant)) ;;
       restaurant <- deref found ;;
       if negb (sameId (Restaurant.owner restaurant) (User._id user))
       then send 403 "Access denied"
       else ret tt
     else if negb hasAccess then send 403 "Access denied"
     else ret tt) ;;;
    ret (Res.mk 200 "" (OrderDoc order))
  end.

Definition restaurantStatuses : list string := ["accepted"; "preparing"; "ready"].
Definition agentStatuses : list string := ["picked_up"; "delivered"].

(** [Array.prototype.includes] on a list of strings. *)
Definition includes (l : list string) (s : string) : bool := existsb (String.eqb s) l.

(** [order.status = status] *)
Definition withStatus (status : string) (o : Order.t) : Order.t :=
  Order.mk (Order._id o) (Order.customer o) (Order.restaurant o) (Order.items o)
    (Order.deliveryAddress o) (Order.totalAmount o) (Order.deliveryFee o) (Order.tax o)
    (Order.finalAmount o) (Order.paymentMethod o) (Order.notes o)
    status
    (Order.paymentStatus o) (Order.deliveryAgent o)
    (Order.estimatedDeliveryTime o) (Order.actualDeliveryTime o).

(** [order.actualDeliveryTime = new Date(); order.paymentStatus = 'paid'] *)
Definition markDelivered (now : Date) (o : Order.t) : Order.t :=
  Order.mk (Order._id o) (Order.customer o) (Order.restaurant o) (Order.items o)
    (Order.deliveryAddress o) (Order.totalAmount o) (Order.deliveryFee o) (Order.tax o)
    (Order.finalAmount o) (Order.paymentMethod o) (Order.notes o)
    (Order.status o)
    "paid" (Order.deliveryAgent o)
    (Order.estimatedDeliveryTime o) (Some now).

(** What the handler writes on the loaded order before saving it. *)
Definition setStatus (now : Date) (status : string) (o : Order.t) : Order.t :=
  let o := withStatus status o in
  if String.eqb status "delivered" then markDelivered now o else o.

(** [router.put('/:id/status', auth, ...)]; [now] is [new Date()]. *)
Definition order_put_status (now : Date) (user : User.t) (id : string) (status : string)
  : Handler Res.t :=
  order <- Order_findById id ;;
  match order with
  | None => send 404 "Order not found"
  | Some order =>
    (match User.role user with
     | restaurant_owner =>
       if negb (includes restaurantStatuses status)
       then send 400 "Invalid status for restaurant owner"
       else
         found <- Restaurant_findById (Order.restaurant order) ;;
         restaurant <- deref found ;;
         if negb (sameId (Restaurant.owner restaurant) (User._id user))
         then send 403 "Access denied"
         else ret tt
     | delivery_agent =>
       if negb (includes agentStatuses status)
       then send 400 "Invalid status for delivery agent"
       else if negb (optId_eqb (Order.deliveryAgent order) (User._id user))
       then send 403 "Access denied"
       else ret tt
     | _ => send 403 "Access denied"
     end) ;;;
    let order := setStatus now status order in
    Order_save order ;;;
    ret (Res.mk 200 "Order status updated successfully" (OrderDoc order))
  end.

(** [User.findById(id)]: the handler reads the accounts and never writes
    them, so they are its argument [users]. *)
Definition User_findById (users : list User.t) (id : string) : Handler (option User.t) :=
  oid <- castId id ;;
  ret (find (fun u => sameId (User._id u) oid) users).

(** [order.deliveryAgent = deliveryAgentId] *)
Definition withAgent (deliveryAgent : ObjectId) (o : Order.t) : Order.t :=
  Order.mk (Order._id o) (Order.customer o) (Order.restaurant o) (Order.items o)
    (Order.deliveryAddress o) (Order.totalAmount o) (Order.deliveryFee o) (Order.tax o)
    (Order.finalAmount o) (Order.paymentMethod o) (Order.notes o)
    (Order.status o) (Order.paymentStatus o)
    (Some deliveryAgent)
    (Order.estimatedDeliveryTime o) (Order.actualDeliveryTime o).

(** [router.put('/:id/assign', auth, ...)] of [routes/orders.js]
    (lines 251-282).  The agent's id is stored as the [findById] before
    has cast it. *)
Definition order_put_assign (users : list User.t) (user : User.t) (id : string)
    (deliveryAgentId : string) : Handler Res.t :=
  if negb (Role_eqb (User.role user) restaurant_owner)
     && negb (Role_eqb (User.role user) admin)
  then send 403 "Access denied"
  else
    order <- Order_findById id ;;
    match order with
    | None => send 404 "Order not found"
    | Some order =>
      agent <- User_findById users deliveryAgentId ;;
      match agent with
      | None => send 400 "Invalid delivery agent"
      | Some agent =>
        if negb (Role_eqb (User.role agent) delivery_agent)
        then send 400 "Invalid delivery agent"
        else
          deliveryAgent <- castId deliveryAgentId ;;
          let order := withAgent deliveryAgent order in
          Order_save order ;;;
          ret (Res.mk 200 "Delivery agent assigned successfully" (OrderDoc order))
      end
    end.

(** ** Lists: sort, skip and limit *)

(** [Math.ceil] of the quotient of two counts. *)
Definition Math_ceil (x : Q) : Z := Qceiling x.

Fixpoint insertDesc {A : Type} (key : A -> Date) (x : A) (l : list A) : list A :=
  match l with
  | [] => [x]
  | y :: l' => if (key y <? key x)%Z then x :: y :: l' else y :: insertDesc key x l'
  end.

(** [.sort({ createdAt: -1 })]: the latest first.  The schemas set
    [timestamps: true]; the documents of the model do not carry the stamp,
    so the listing handlers take it as the function [createdAt]. *)
Definition sortDesc {A : Type} (key : A -> Date) (l : list A) : list A :=
  fold_right (insertDesc key) [] l.

(** [.limit(limit * 1).skip((page - 1) * limit)], for the positive integers
    a client pages with (the defaults are [page = 1] and [limit = 10]). *)
Definition pageOf {A : Type} (page limit : positive) (l : list A) : list A :=
  firstn (Pos.to_nat limit) (skipn ((Pos.to_nat page - 1) * Pos.to_nat limit) l).

(** What a list handler answers for the documents matching its filters:
    the page of the sorted matches, with
    [pagination: { current: page, pages: Math.ceil(total / limit), total }]. *)
Definition listing {A : Type} (createdAt : A -> Date) (page limit : positive)
    (matching : list A) : Listing.t A :=
  Listing.mk (pageOf page limit (sortDesc createdAt matching))
    page
    (Math_ceil (inject_Z (Z.of_nat (length matching)) / inject_Z (Zpos limit))%Q)
    (length matching).

(** [if (status) filters.status = status]: an absent or empty [status]
    filters nothing. *)
Definition statusFilter (status : string) (o : Order.t) : bool :=
  if String.eqb status "" then true else String.eqb (Order.status o) status.

(** [Order.find(filters)] and [Order.countDocuments(filters)] *)
Definition Order_find (filters : Order.t -> bool) : Handler (list Order.t) :=
  db <- read ;;
  ret (filter filters (DB.orders db)).

(** [Restaurant.find({ owner })] *)
Definition Restaurant_find_owner (owner : ObjectId) : Handler (list Restaurant.t) :=
  db <- read ;;
  ret (filter (fun r => sameId (Restaurant.owner r) owner) (DB.restaurants db)).

(** [{ restaurant: { $in: restaurantIds } }] *)
Definition restaurantIn (restaurantIds : list ObjectId) (o : Order.t) : bool :=
  match Order.restaurant o with
  | Some id => existsb (sameId id) restaurantIds
  | None => false
  end.

(** [router.get('/', auth, ...)] of [routes/orders.js] (lines 85-126):
    the orders the caller's role lets them see. *)
Definition order_list (createdAt : Order.t -> Date) (user : User.t) (status : string)
    (page limit : positive) : Handler (Listing.t Order.t) :=
  roleFilter <-
    (match User.role user with
     | customer => ret (fun o => sameId (Order.customer o) (User._id user))
     | restaurant_owner =>
       userRestaurants <- Restaurant_find_owner (User._id user) ;;
       ret (restaurantIn (map Restaurant._id userRestaurants))
     | delivery_agent => ret (fun o => optId_eqb (Order.deliveryAgent o) (User._id user))
     | admin => ret (fun _ : Order.t => true)
     end) ;;
  let filters := fun o => roleFilter o && statusFilter status o in
  orders <- Order_find filters ;;
  ret (listing createdAt page limit orders).

(** [router.get('/me/orders', auth, authorize('delivery_agent'), ...)] of
    [routes/agents.js] (lines 20-47). *)
Definition agent_orders (createdAt : Order.t -> Date) (user : User.t) (status : string)
    (page limit : positive) : Handler (Listing.t Order.t) :=
  authorize [delivery_agent] user ;;;
  let filters := fun o =>
    optId_eqb (Order.deliveryAgent o) (User._id user) && statusFilter status o in
  orders <- Order_find filters ;;
  ret (listing createdAt page limit orders).

(** ** routes/reviews.js and models/Review.js *)

Definition inRange1to5 (x : Number) : bool := (1 <=? x) && (x <=? 5).

(** The validators of [reviewSchema]: [restaurant] is required, the
    ratings lie between 1 and 5 ([restaurantRating] is required too: see
    [review_post]). *)
Definition reviewSchema_validate (r : Review.t) : bool :=
  match Review.restaurant r with Some _ => true | None => false end
  && inRange1to5 (Review.restaurantRating r)
  && match Review.deliveryRating r with Some d => inRange1to5 d | None => true end.

Definition samePair (customer order : ObjectId) (r : Review.t) : bool :=
  sameId (Review.customer r) customer && sameId (Review.order r) order.

(** [review.save()] of a new document: the validators, then the insert,
    which the unique index on [{ customer, order }] refuses for a pair the
    collection already holds. *)
Definition Review_save_new (r : Review.t) : Handler unit :=
  if reviewSchema_validate r then
    db <- read ;;
    if existsb (samePair (Review.customer r) (Review.order r)) (DB.reviews db)
    then throw "E11000 duplicate key error"
    else write (fun db => DB.with_reviews (DB.reviews db ++ [r]) db)
  else throw "Review validation failed".

(** [Review.findOne({ customer, order: orderId })]. *)
Definition Review_findOne (customer : ObjectId) (orderId : string)
  : Handler (option Review.t) :=
  order <- castId orderId ;;
  db <- read ;;
  ret (find (samePair customer order) (DB.reviews db)).

Definition setRating (average : Number) (count : nat) (r : Restaurant.t) : Restaurant.t :=
  Restaurant.mk (Restaurant._id r) (Restaurant.owner r) average count.

(** [Restaurant.findByIdAndUpdate(id, { 'rating.average', 'rating.count' })]:
    nothing happens when no restaurant has the id. *)
Definition Restaurant_findByIdAndUpdate (id : option ObjectId) (average : Number) (count : nat)
  : Handler unit :=
  write (fun db =>
    DB.with_restaurants
      (match find (fun r => optId_eqb id (Restaurant._id r)) (DB.restaurants db) with
       | Some r =>
         replaceFirst (fun r => optId_eqb id (Restaurant._id r)) (setRating average count r)
                      (DB.restaurants db)
       | None => DB.restaurants db
       end) db).

(** [reviews.reduce((sum, r) => sum + r.restaurantRating, 0) / reviews.length] *)
Definition avgRating (reviews : list Review.t) : Number :=
  fold_left (fun sum r => sum + Review.restaurantRating r) reviews 0
  / Number_ofNat (length reviews).

(** [Math.round(avgRating * 10) / 10] *)
Definition roundedAverage (reviews : list Review.t) : Number :=
  Math_round (avgRating reviews * 10) / 10.

(** [router.post('/', auth, authorize('customer'), ...)].  The ratings
    are the body's values as Mongoose casts them to [Number]; a body
    without [restaurantRating], or with one that does not cast, fails the
    schema when the review is saved ([None]). *)
Definition review_post (user : User.t) (orderId : string)
    (restaurantRating : option Number) (deliveryRating : option Number)
    (restaurantComment deliveryComment : string) : Handler Res.t :=
  authorize [customer] user ;;;
  order <- Order_findById orderId ;;
  match order with
  | None => send 404 "Order not found"
  | Some order =>
    if negb (sameId (Order.customer order) (User._id user))
    then send 403 "Access denied"
    else if negb (String.eqb (Order.status order) "delivered")
    then send 400 "Can only review delivered orders"
    else
      existingReview <- Review_findOne (User._id user) orderId ;;
      match existingReview with
      | Some _ => send 400 "Review already exists for this order"
      | None =>
        match restaurantRating with
        | None => throw "Review validation failed"
        | Some rating =>
          review_order <- castId orderId ;;
          let review :=
            Review.mk (User._id user) (Order.restaurant order) review_order rating
                      deliveryRating restaurantComment deliveryComment true in
          Review_save_new review ;;;
          reviews <- Review_find (Order.restaurant order) ;;
          Restaurant_findByIdAndUpdate (Order.restaurant order)
            (roundedAverage reviews) (length reviews) ;;;
          ret (Res.mk 201 "Review created successfully" (ReviewDoc review))
        end
      end
  end.

(** [router.get('/restaurant/:restaurantId', ...)] of [routes/reviews.js]
    (lines 102-131): public, and only the visible reviews. *)
Definition review_list (createdAt : Review.t -> Date) (restaurantId : string)
    (page limit : positive) : Handler (Listing.t Review.t) :=
  restaurant <- castId restaurantId ;;
  db <- read ;;
  let reviews :=
    filter (fun r => optId_eqb (Review.restaurant r) restaurant && Review.isVisible r)
           (DB.reviews db) in
  ret (listing createdAt page limit reviews).

(** ** routes/menu.js (src/unnamed/part_000) *)

(** [router.put('/:id', auth, authorize('restaurant_owner'), ...)].
    MongoDB refuses an update that would change [_id]. *)
Definition menu_put (user : User.t) (id : string) (body : MenuBody.t) : Handler Res.t :=
  authorize [restaurant_owner] user ;;;
  menuItem <- MenuItem_findById id ;;
  match menuItem with
  | None => send 404 "Menu item not found"
  | Some menuItem =>
    populated <- Restaurant_findById (Some (MenuItem.restaurant menuItem)) ;;
    restaurant <- deref populated ;;
    if negb (sameId (Restaurant.owner restaurant) (User._id user))
    then send 403 "Access denied"
    else
      match MenuBody.update body menuItem with
      | None => throw "Validation failed"
      | Some updatedItem =>
        if negb (sameId (MenuItem._id updatedItem) (MenuItem._id menuItem))
        then throw "Performing an update on the path '_id' would modify the immutable field '_id'"
        else
          write (fun db =>
            DB.with_menuItems
              (replaceFirst (fun m => sameId (MenuItem._id m) (MenuItem._id menuItem))
                            updatedItem (DB.menuItems db))
              db) ;;;
          ret (Res.mk 200 "Menu item updated successfully" (MenuItemDoc updatedItem))
      end
  end.

(** [router.delete('/:id', auth, authorize('restaurant_owner'), ...)]
    (lines 100-119). *)
Definition menu_delete (user : User.t) (id : string) : Handler Res.t :=
  authorize [restaurant_owner] user ;;;
  menuItem <- MenuItem_findById id ;;
  match menuItem with
  | None => send 404 "Menu item not found"
  | Some menuItem =>
    populated <- Restaurant_findById (Some (MenuItem.restaurant menuItem)) ;;
    restaurant <- deref populated ;;
    if negb (sameId (Restaurant.owner restaurant) (User._id user))
    then send 403 "Access denied"
    else
      write (fun db =>
        DB.with_menuItems
          (removeFirst (fun m => sameId (MenuItem._id m) (MenuItem._id menuItem))
                       (DB.menuItems db)) db) ;;;
      ret (Res.mk 200 "Menu item deleted successfully" NoData)
  end.

(** ** routes/restaurants.js (src/routes/orders.js, lines 503-698) *)

(** [router.put('/:id', auth, authorize('restaurant_owner'), ...)]
    (lines 638-663); the value returned is the [restaurant] of the 200
    answer. *)
Definition restaurant_put (user : User.t) (id : string) (body : RestaurantBody.t)
  : Handler Restaurant.t :=
  authorize [restaurant_owner] user ;;;
  restaurant <- Restaurant_findByParam id ;;
  match restaurant with
  | None => send 404 "Restaurant not found"
  | Some restaurant =>
    if negb (sameId (Restaurant.owner restaurant) (User._id user))
    then send 403 "Access denied"
    else
      match RestaurantBody.update body restaurant with
      | None => throw "Validation failed"
      | Some updatedRestaurant =>
        if negb (sameId (Restaurant._id updatedRestaurant) (Restaurant._id restaurant))
        then throw "Performing an update on the path '_id' would modify the immutable field '_id'"
        else
          write (fun db =>
            DB.with_restaurants
              (replaceFirst
                 (fun r => sameId (Restaurant._id restaurant) (Restaurant._id r))
                 updatedRestaurant (DB.restaurants db)) db) ;;;
          ret updatedRestaurant
      end
  end.

(** ** Stores the API can reach *)

Definition byUser (user : ObjectId) (c : Cart.t) : bool := sameId (Cart.user c) user.

(** The cart of a user, as every handler looks it up. *)
Definition cartOf (user : ObjectId) (db : DB.t) : option Cart.t :=
  find (byUser user) (DB.carts db).

(** At most one cart per user. *)
Definition cartsUnique (db : DB.t) : Prop := NoDup (map Cart.user (DB.carts db)).

(** Every line of every cart has a quantity of at least 1. *)
Definition quantitiesOk (db : DB.t) : Prop :=
  forall c item, In c (DB.carts db) -> In item (Cart.items c) ->
    (1 <=? CartItem.quantity item) = true.

(** The cached total of every cart is the sum over its lines. *)
Definition totalsOk (db : DB.t) : Prop :=
  forall c, In c (DB.carts db) -> Cart.totalAmount c = cartSchema_total (Cart.items c).

Definition cartsOk (db : DB.t) : Prop := cartsUnique db /\ quantitiesOk db /\ totalsOk db.

(** At most one review per (customer, order). *)
Definition reviewsUnique (db : DB.t) : Prop :=
  NoDup (map (fun r => (Review.customer r, Review.order r)) (DB.reviews db)).

(** The stores reachable from one without carts.  [Cart] is required by
    [routes/cart.js] and [routes/orders.js] only, and there written by the
    cart router and by order placement; a request to any other route leaves
    the carts as they are. *)
Inductive reachable : DB.t -> Prop :=
| reach_start (db : DB.t) :
    DB.carts db = [] -> reachable db
| reach_cart (db : DB.t) (req : Req.t) :
    reachable db -> reachable (fst (cartApi req db))
| reach_order (db : DB.t) (schema : OrderSchema.t) (now : Date) (newId : ObjectId)
    (user : User.t) (deliveryAddress paymentMethod notes : string) :
    reachable db ->
    reachable (fst (run (order_post schema now newId user deliveryAddress paymentMethod notes) db))
| reach_other (db db' : DB.t) :
    reachable db -> DB.carts db' = DB.carts db -> reachable db'.


(** The reviews of a restaurant, visible or not. *)
Definition reviewsOf (restaurant : ObjectId) (db : DB.t) : list Review.t :=
  filter (fun r => optId_eqb (Review.restaurant r) restaurant) (DB.reviews db).

(** ** The handlers' results as functions of what they read *)

(** The document [Cart_save] stores for [c]: [c] with its total recomputed. *)
Definition savedCart (c : Cart.t) : Cart.t :=
  Cart.mk (Cart.user c) (Cart.restaurant c) (Cart.items c) (cartSchema_total (Cart.items c)).

(** The lines [cart_delete_item] keeps. *)
Definition withoutLine (itemId : string) (items : list CartItem.t) : list CartItem.t :=
  filter (fun item => negb (sameLine itemId item)) items.

(** What [Cart_save] followed by the handler's answer comes to. *)
Definition saveAndAnswer (isNew : bool) (c : Cart.t) (msg : string) (db : DB.t)
  : DB.t * Res.t :=
  if cartSchema_validate c then
    (DB.with_carts
       (if isNew then DB.carts db ++ [savedCart c]
        else replaceFirst (byUser (Cart.user c)) (savedCart c) (DB.carts db)) db,
     Res.mk 200 msg (CartDoc (savedCart c)))
  else (db, Res.mk 500 "Cart validation failed" NoData).

(** What [cart_post] does to a cart it has loaded, once the restaurants
    agree. *)
Definition addAndAnswer (menuItemId : string) (quantity : JSON) (price : Number)
    (cart : Cart.t) (restaurant : option ObjectId) (db : DB.t) : DB.t * Res.t :=
  match addLine menuItemId quantity price (Cart.items cart) with
  | None => (db, Res.mk 500 "Cart validation failed" NoData)
  | Some items =>
    saveAndAnswer false (Cart.mk (Cart.user cart) restaurant items (Cart.totalAmount cart))
      "Item added to cart" db
  end.

(** The order line of a cart line, when the line's menu item still exists. *)
Definition snapshotOf (menu : list MenuItem.t) (item : CartItem.t) : option OrderItem.t :=
  match find (fun m => sameId (MenuItem._id m) (CartItem.menuItem item)) menu with
  | Some m =>
    Some (OrderItem.mk (MenuItem._id m) (MenuItem.name m)
                       (CartItem.quantity item) (CartItem.price item))
  | None => None
  end.

Fixpoint snapshotAll (menu : list MenuItem.t) (items : list CartItem.t)
  : option (list OrderItem.t) :=
  match items with
  | [] => Some []
  | item :: items' =>
    match snapshotOf menu item, snapshotAll menu items' with
    | Some o, Some os => Some (o :: os)
    | _, _ => None
    end
  end.

(** The document [order_post] builds from a cart and its snapshot lines. *)
Definition placedOrder (schema : OrderSchema.t) (now : Date) (newId : ObjectId)
    (user : User.t) (deliveryAddress paymentMethod notes : string)
    (cart : Cart.t) (items : list OrderItem.t) : Order.t :=
  Order.mk newId (User._id user) (Cart.restaurant cart) items deliveryAddress
    (Cart.totalAmount cart) 50
    (Math_round (Cart.totalAmount cart * 0.05))
    (Cart.totalAmount cart + 50 + Math_round (Cart.totalAmount cart * 0.05))
    paymentMethod notes
    (OrderSchema.default_status schema)
    (OrderSchema.default_paymentStatus schema)
    None
    (now + 45 * 60 * 1000)%Z
    None.


Definition byId (id : ObjectId) (o : Order.t) : bool := sameId (Order._id o) id.

(** The order of an id, as [findById] returns it once the id is cast. *)
Definition orderOf (id : ObjectId) (db : DB.t) : option Order.t :=
  find (byId id) (DB.orders db).

(** The account of an id, as [User.findById] returns it once the id is cast. *)
Definition accountOf (id : ObjectId) (users : list User.t) : option User.t :=
  find (fun u => sameId (User._id u) id) users.

(** The menu item of an id, as [findById] returns it once the id is cast. *)
Definition menuItemOf (id : ObjectId) (db : DB.t) : option MenuItem.t :=
  find (fun m => sameId (MenuItem._id m) id) (DB.menuItems db).

(** The restaurant an order refers to, when its document exists. *)
Definition restaurantOf (o : Order.t) (db : DB.t) : option Restaurant.t :=
  find (fun r => optId_eqb (Order.restaurant o) (Restaurant._id r)) (DB.restaurants db).

(** What the status handler stores and answers once the caller is let
    through. *)
Definition statusSaved (now : Date) (status : string) (order : Order.t) (db : DB.t)
  : DB.t * Res.t :=
  (DB.with_orders
     (replaceFirst (byId (Order._id order)) (setStatus now status order) (DB.orders db)) db,
   Res.mk 200 "Order status updated successfully" (OrderDoc (setStatus now status order))).

(** The store after [review.save()] and the update of the restaurant's
    rating. *)
Definition reviewStored (review : Review.t) (db : DB.t) : DB.t :=
  let db1 := DB.with_reviews (DB.reviews db ++ [review]) db in
  let reviews :=
    filter (fun r => match Review.restaurant review, Review.restaurant r with
                     | Some a, Some b => sameId a b
                     | None, None => true
                     | _, _ => false
                     end) (DB.reviews db1) in
  DB.with_restaurants
    (match find (fun r => optId_eqb (Review.restaurant review) (Restaurant._id r))
                (DB.restaurants db1) with
     | Some r =>
       replaceFirst (fun r => optId_eqb (Review.restaurant review) (Restaurant._id r))
         (setRating (roundedAverage reviews) (length reviews) r) (DB.restaurants db1)
     | None => DB.restaurants db1
     end) db1.

(** A cart has a restaurant exactly when it has lines. *)
Definition cartShape (c : Cart.t) : Prop :=
  Cart.restaurant c = None <-> Cart.items c = [].

Definition shapesOk (db : DB.t) : Prop :=
  forall c, In c (DB.carts db) -> cartShape c.

(** The reviews a restaurant's public page lists. *)
Definition visibleReviewsOf (restaurant : ObjectId) (db : DB.t) : list Review.t :=
  filter (fun r => optId_eqb (Review.restaurant r) restaurant && Review.isVisible r)
         (DB.reviews db).

(** The filters [order_list] hands to [Order.find], as one predicate. *)
Definition orderFilter (user : User.t) (status : string) (db : DB.t) (o : Order.t) : bool :=
  (match User.role user with
   | customer => sameId (Order.customer o) (User._id user)
   | restaurant_owner =>
     restaurantIn
       (map Restaurant._id
            (filter (fun r => sameId (Restaurant.owner r) (User._id user)) (DB.restaurants db)))
       o
   | delivery_agent => optId_eqb (Order.deliveryAgent o) (User._id user)
   | admin => true
   end) && statusFilter status o.

(** The orders a caller may see: a customer their own, an owner those of
    their restaurants, an agent those assigned to them, an admin all. *)
Definition visibleTo (user : User.t) (db : DB.t) (o : Order.t) : Prop :=
  match User.role user with
  | customer => Order.customer o = User._id user
  | restaurant_owner =>
    exists r, In r (DB.restaurants db) /\ Restaurant.owner r = User._id user /\
              Order.restaurant o = Some (Restaurant._id r)
  | delivery_agent => Order.deliveryAgent o = Some (User._id user)
  | admin => True
  end.

(** Latest first. *)
Inductive descending {A : Type} (key : A -> Date) : list A -> Prop :=
| descending_nil : descending key []
| descending_cons (x : A) (l : list A) :
    (forall y, In y l -> (key y <= key x)%Z) -> descending key l ->
    descending key (x :: l).

End Handlers.

Arguments Math_round : simpl never.
Arguments includes : simpl never.
Arguments setStatus : simpl never.
Arguments roundedAverage : simpl never.
Arguments reviewSchema_validate : simpl never.

(** ** A platform for the sample data *)

Definition isHexDigit (c : ascii) : bool :=
  let n := nat_of_ascii c in
  (Nat.leb 48 n && Nat.leb n 57) || (Nat.leb 97 n && Nat.leb n 102)
  || (Nat.leb 65 n && Nat.leb n 70).

Definition lowerHex (c : ascii) : ascii :=
  let n := nat_of_ascii c in
  if Nat.leb 65 n && Nat.leb n 70 then ascii_of_nat (n + 32) else c.

Fixpoint allHex (s : string) : bool :=
  match s with
  | EmptyString => true
  | String c s' => isHexDigit c && allHex s'
  end.

Fixpoint lowerAll (s : string) : string :=
  match s with
  | EmptyString => EmptyString
  | String c s' => String (lowerHex c) (lowerAll s')
  end.

(** The cast of a string of 24 hexadecimal digits, in either case, to the
    ObjectId that prints in lower case; any other string the samples use
    is refused. *)
Definition hexObjectId (s : string) : option ObjectId :=
  if Nat.eqb (String.length s) 24 && allHex s then Some (lowerAll s) else None.

(** The whole number a double is, when it is one. *)
Definition wholeOf (x : Number) : option Z :=
  match Prim2SF x with
  | S754_zero _ => Some 0%Z
  | S754_finite s m e =>
    let v := if s then Zneg m else Zpos m in
    if (0 <=? e)%Z then Some (v * 2 ^ e)%Z
    else if (v mod 2 ^ (- e) =? 0)%Z then Some (v / 2 ^ (- e))%Z
    else None
  | _ => None
  end.

(** Printing and reading for the sample data, which holds whole numbers
    only: a whole number below 2^53 prints as its decimal digits and a
    string of decimal digits reads as that number, as in JavaScript;
    other numbers and strings are not needed there and give NaN. *)
Definition printWhole (x : Number) : string :=
  match wholeOf x with
  | Some z =>
    if (Z.abs z <? 2 ^ 53)%Z then NilZero.string_of_int (Z.to_int z) else "NaN"
  | None => "NaN"
  end.

Definition readWhole (s : string) : Number :=
  match NilZero.uint_of_string s with
  | Some u =>
    if (Z.of_uint u <? 2 ^ 53)%Z then of_uint63 (Uint63.of_Z (Z.of_uint u)) else nan
  | None => nan
  end.

Definition sampleRuntime : Runtime :=
  {| castObjectId := hexObjectId;
     Number_toString := printWhole;
     String_toNumber := readWhole |}.

#[global] Existing Instance sampleRuntime.

(** ** Sample data *)

Module Sample.

Definition aliceId : ObjectId := "a00000000000000000000001".
Definition bobId : ObjectId := "a00000000000000000000002".
Definition olgaId : ObjectId := "b00000000000000000000001".
Definition omarId : ObjectId := "b00000000000000000000002".
Definition danId : ObjectId := "c00000000000000000000001".
Definition eveId : ObjectId := "c00000000000000000000002".
Definition trattoriaId : ObjectId := "d00000000000000000000001".
Definition sushiBarId : ObjectId := "d00000000000000000000002".
Definition pizzaId : ObjectId := "e00000000000000000000001".
Definition colaId : ObjectId := "e00000000000000000000002".
Definition makiId : ObjectId := "e00000000000000000000003".
Definition order1 : ObjectId := "f00000000000000000000001".
Definition order2 : ObjectId := "f00000000000000000000002".

(** The pizza's id as a client may also write it. *)
Definition pizzaIdUpper : string := "E00000000000000000000001".

Definition alice : User.t := User.mk aliceId customer.
Definition bob : User.t := User.mk bobId customer.
Definition olga : User.t := User.mk olgaId restaurant_owner.
Definition omar : User.t := User.mk omarId restaurant_owner.
Definition dan : User.t := User.mk danId delivery_agent.
Definition eve : User.t := User.mk eveId delivery_agent.

Definition trattoria : Restaurant.t := Restaurant.mk trattoriaId olgaId 0 0.
Definition sushiBar : Restaurant.t := Restaurant.mk sushiBarId omarId 0 0.

Definition pizza : MenuItem.t := MenuItem.mk pizzaId trattoriaId "Pizza" 120 true.
Definition cola : MenuItem.t := MenuItem.mk colaId trattoriaId "Cola" 45 true.
Definition maki : MenuItem.t := MenuItem.mk makiId sushiBarId "Maki" 300 true.

(** One pizza and two colas: 210. *)
Definition aliceCart : Cart.t :=
  Cart.mk aliceId (Some trattoriaId)
    [CartItem.mk pizzaId 1 120; CartItem.mk colaId 2 45] 210.

Definition bobCart : Cart.t :=
  Cart.mk bobId (Some sushiBarId) [CartItem.mk makiId 1 300] 300.

(** No carts yet. *)
Definition db0 : DB.t := DB.mk [trattoria; sushiBar] [pizza; cola; maki] [] [] [].

(** Alice and Bob each hold a cart. *)
Definition db1 : DB.t := DB.with_carts [aliceCart; bobCart] db0.

Definition schema : OrderSchema.t := OrderSchema.mk "placed" "pending" (fun _ => true).

(** Alice's cart as an order: 5% of 210 is 10.5, which rounds to 11. *)
Definition aliceOrder (status : string) (agent : option ObjectId) : Order.t :=
  Order.mk order1 aliceId (Some trattoriaId)
    [OrderItem.mk pizzaId "Pizza" 1 120; OrderItem.mk colaId "Cola" 2 45]
    "1 Main Street" 210 50 11 271 "cash" "" status "pending" agent 2700000%Z None.

(** Alice's order, placed and assigned to Dan. *)
Definition db2 : DB.t := DB.with_orders [aliceOrder "placed" (Some danId)] db0.

(** Alice's order, delivered. *)
Definition db3 : DB.t := DB.with_orders [aliceOrder "delivered" (Some danId)] db0.

Definition hiddenReview : Review.t :=
  Review.mk "a00000000000000000000009" (Some trattoriaId) "f00000000000000000000000"
    4 None "" "" false.

(** As [db3], with an earlier review of the trattoria that moderation hid. *)
Definition db4 : DB.t := DB.with_reviews [hiddenReview] db3.

Definition deleteClear (user : User.t) : Req.t := Req.mk DELETE ["clear"] user "" None.

(** [POST /api/cart] with [{ menuItemId: pizzaId, quantity: 2 }]. *)
Definition addPizza (user : User.t) : Req.t := Req.mk POST [] user pizzaId (Some (JNum 2)).

(** [PUT /api/cart/<pizzaId>] with [{ quantity: 0.5 }]. *)
Definition halfPizza (user : User.t) : Req.t :=
  Req.mk PUT [pizzaId] user "" (Some (JNum 0.5)).

(** A restaurant owner's account that is also the customer of Alice's
    order, and owns no restaurant. *)
Definition aliceAsOwner : User.t := User.mk aliceId restaurant_owner.

(** Time stamps for the listings: the order's estimated delivery time
    stands in for [createdAt] (it is [createdAt] plus 45 minutes). *)
Definition stamp (o : Order.t) : Date := Order.estimatedDeliveryTime o.

Definition bobOrder : Order.t :=
  Order.mk order2 bobId (Some sushiBarId) [OrderItem.mk makiId "Maki" 1 300]
    "2 Side Street" 300 50 15 365 "card" "" "placed" "pending" None 5400000%Z None.

(** Alice's order (placed, assigned to Dan) and Bob's later order. *)
Definition db5 : DB.t :=
  DB.with_orders [aliceOrder "placed" (Some danId); bobOrder] db0.

Definition accounts : list User.t := [alice; bob; olga; omar; dan; eve].

(** Alice's cart holds a pizza; the menu has lost it. *)
Definition db6 : DB.t := DB.with_menuItems [cola; maki] db1.

(** A body that sets the price. *)
Definition reprice (price : Number) : MenuBody.t :=
  MenuBody.mk (fun m =>
    if 0 <=? price
    then Some (MenuItem.mk (MenuItem._id m) (MenuItem.restaurant m) (MenuItem.name m)
                           price (MenuItem.isAvailable m))
    else None).

(** A body that sets the owner. *)
Definition handTo (owner : ObjectId) : RestaurantBody.t :=
  RestaurantBody.mk (fun r =>
    Some (Restaurant.mk (Restaurant._id r) owner (Restaurant.rating_average r)
                        (Restaurant.rating_count r))).

End Sample.

(** * Facts about numbers *)

(** [x < y] excludes [y <= x], also where NaN is involved. *)
Lemma SFcompare_swap (a b : spec_float) :
  SFcompare b a = option_map CompOpp (SFcompare a b).
Proof.
  destruct a as [sa|sa| |sa ma ea], b as [sb|sb| |sb mb eb]; simpl;
    try reflexivity;
    try (destruct sa; reflexivity); try (destruct sb; reflexivity);
    try (destruct sa, sb; reflexivity).
  destruct sa, sb; simpl; try reflexivity;
    rewrite (Z.compare_antisym eb ea); destruct (eb ?= ea)%Z; simpl; try reflexivity;
    change (Pos.compare_cont Eq ma mb) with (ma ?= mb)%positive;
    change (Pos.compare_cont Eq mb ma) with (mb ?= ma)%positive;
    rewrite (Pos.compare_antisym mb ma); destruct (mb ?= ma)%positive; reflexivity.
Qed.

Lemma ltb_not_leb (x y : Number) : (x <? y) = true -> (y <=? x) = false.
Proof.
  rewrite FloatAxioms.ltb_spec, FloatAxioms.leb_spec. unfold SFltb, SFleb.
  rewrite (SFcompare_swap (Prim2SF x) (Prim2SF y)).
  destruct (SFcompare (Prim2SF x) (Prim2SF y)) as [[]|]; simpl; congruence.
Qed.

(** A number that is at least some number is not NaN. *)
Lemma leb_not_nan (x y : Number) : (x <=? y) = true -> is_nan y = false.
Proof.
  unfold is_nan. rewrite FloatAxioms.leb_spec, FloatAxioms.eqb_spec. unfold SFleb, SFeqb.
  assert (Hrefl : forall f, f <> S754_nan -> SFcompare f f = Some Eq).
  { intros [s|s| |s m e] Hf; simpl; try reflexivity; try (destruct s; reflexivity);
      [now contradiction Hf|].
    destruct s; rewrite Z.compare_refl;
      change (Pos.compare_cont Eq m m) with (m ?= m)%positive;
      rewrite Pos.compare_refl; reflexivity. }
  intros H. rewrite Hrefl; [reflexivity|].
  intros E. rewrite E in H. destruct (Prim2SF x); discriminate.
Qed.

(** * Facts about collections *)

Lemma sameId_true (a b : ObjectId) : sameId a b = true <-> a = b.
Proof. apply String.eqb_eq. Qed.

Lemma sameId_refl (a : ObjectId) : sameId a a = true.
Proof. apply String.eqb_refl. Qed.

Lemma sameId_false (a b : ObjectId) : sameId a b = false <-> a <> b.
Proof. apply String.eqb_neq. Qed.

Section Lists.
Context {A : Type}.
Variable p : A -> bool.

Lemma find_replaceFirst (x y : A) (l : list A) :
  find p l = Some x -> p y = true -> find p (replaceFirst p y l) = Some y.
Proof.
  induction l as [|a l IH]; simpl; intros H Hy; [discriminate|].
  destruct (p a) eqn:Ha; simpl.
  - now rewrite Hy.
  - rewrite Ha. now apply IH.
Qed.

Lemma In_replaceFirst (y z : A) (l : list A) :
  In z (replaceFirst p y l) -> z = y \/ In z l.
Proof.
  induction l as [|a l IH]; simpl; intros H; [contradiction|].
  destruct (p a); simpl in H.
  - destruct H as [H|H]; auto.
  - destruct H as [H|H]; auto. destruct (IH H); auto.
Qed.

Lemma In_removeFirst (z : A) (l : list A) :
  In z (removeFirst p l) -> In z l.
Proof.
  induction l as [|a l IH]; simpl; intros H; [contradiction|].
  destruct (p a); simpl in H; intuition.
Qed.

Lemma map_replaceFirst {B : Type} (f : A -> B) (y : A) (l : list A) :
  (forall x, In x l -> p x = true -> f x = f y) ->
  map f (replaceFirst p y l) = map f l.
Proof.
  induction l as [|a l IH]; simpl; intros H; [reflexivity|].
  destruct (p a) eqn:Ha; simpl.
  - f_equal. symmetry. apply H; auto.
  - f_equal. apply IH. intros x Hx. apply H. now right.
Qed.

Lemma find_app_miss (l l' : list A) :
  find p l = None -> find p (l ++ l') = find p l'.
Proof.
  induction l as [|a l IH]; simpl; intros H; [reflexivity|].
  destruct (p a); [discriminate|]. now apply IH.
Qed.

Lemma NoDup_map_removeFirst {B : Type} (f : A -> B) (l : list A) :
  NoDup (map f l) -> NoDup (map f (removeFirst p l)).
Proof.
  induction l as [|a l IH]; simpl; intros H; [constructor|].
  inversion H as [|? ? Hn Hd]; subst.
  destruct (p a); [assumption|]. simpl. constructor.
  - intros Hin. apply Hn. apply in_map_iff in Hin. destruct Hin as [x [Hx Hi]].
    apply in_map_iff. exists x. split; [assumption|]. now apply In_removeFirst.
  - now apply IH.
Qed.

(** The first match sits between the documents before it, none of which
    matches, and those after it. *)
Lemma find_split (x : A) (l : list A) :
  find p l = Some x ->
  exists before after, l = before ++ x :: after /\ find p before = None /\ p x = true.
Proof.
  induction l as [|a l IH]; simpl; intros H; [discriminate|].
  destruct (p a) eqn:Ha.
  - injection H as <-. exists [], l. auto.
  - destruct (IH H) as [before [after [-> [Hb Hx]]]].
    exists (a :: before), after. simpl. rewrite Ha. auto.
Qed.

Lemma replaceFirst_split (x y : A) (before after : list A) :
  find p before = None -> p x = true ->
  replaceFirst p y (before ++ x :: after) = before ++ y :: after.
Proof.
  induction before as [|a l IH]; simpl; intros Hb Hx.
  - now rewrite Hx.
  - destruct (p a); [discriminate|]. f_equal. now apply IH.
Qed.

Lemma find_none_forall (l : list A) :
  find p l = None <-> forall x, In x l -> p x = false.
Proof.
  split.
  - intros H x Hx. exact (find_none _ _ H x Hx).
  - induction l as [|a l IH]; simpl; intros H; [reflexivity|].
    rewrite (H a (or_introl eq_refl)). apply IH. intros x Hx. apply H. now right.
Qed.

End Lists.

(** Where keys are unique, removing the first document of a key removes
    the key. *)
Lemma find_removeFirst_unique (user : ObjectId) (l : list Cart.t) :
  NoDup (map Cart.user l) -> find (byUser user) (removeFirst (byUser user) l) = None.
Proof.
  induction l as [|c l IH]; simpl; intros H; [reflexivity|].
  inversion H as [|? ? Hn Hd]; subst.
  destruct (byUser user c) eqn:Hc.
  - apply sameId_true in Hc.
    destruct (find (byUser user) l) as [d|] eqn:Hf; [|reflexivity].
    apply find_some in Hf. destruct Hf as [Hin Hd']. apply sameId_true in Hd'.
    exfalso. apply Hn. rewrite Hc, <- Hd'. now apply in_map.
  - simpl. rewrite Hc. now apply IH.
Qed.

Lemma find_byUser_absent (user : ObjectId) (l : list Cart.t) :
  find (byUser user) l = None -> ~ In user (map Cart.user l).
Proof.
  intros H Hin. apply in_map_iff in Hin. destruct Hin as [c [Hc Hi]].
  apply (find_none _ _ H) in Hi. unfold byUser in Hi. rewrite Hc, sameId_refl in Hi.
  discriminate.
Qed.

Lemma byUser_user (user : ObjectId) (c : Cart.t) (l : list Cart.t) :
  find (byUser user) l = Some c -> Cart.user c = user.
Proof. intros H. apply find_some in H. now apply sameId_true. Qed.

Lemma length_zero_nil {A : Type} (l : list A) :
  Nat.eqb (length l) 0 = true <-> l = [].
Proof. destruct l; simpl; split; intros H; congruence. Qed.

Lemma Role_eqb_true (a b : Role) : Role_eqb a b = true <-> a = b.
Proof. destruct a, b; simpl; split; intros H; congruence. Qed.

(** * The handlers, evaluated *)

Lemma authorize_ok (roles : list Role) (user : User.t) (db : DB.t) :
  existsb (Role_eqb (User.role user)) roles = true ->
  authorize roles user db = (db, inr tt).
Proof. intros H. unfold authorize. now rewrite H. Qed.

Lemma run_authorize (roles : list Role) (user : User.t) (h : Handler Res.t) (db : DB.t) :
  run (authorize roles user ;;; h) db =
  if existsb (Role_eqb (User.role user)) roles then run h db
  else (db, Res.mk 403 "Access denied" NoData).
Proof.
  unfold run, bind, authorize.
  destruct (existsb _ roles); reflexivity.
Qed.

Ltac hred :=
  unfold Cart_save, Cart_findOne, Cart_findOneAndDelete, MenuItem_findById,
    MenuItem_populate, Restaurant_findByParam, Restaurant_findById, Order_findById,
    castId, checked, deref, throw, send, bind, ret, read, write;
  simpl.

Section Carts.
Context {rt : Runtime}.

Lemma cart_delete_item_eq (user : User.t) (itemId : string) (db : DB.t) :
  User.role user = customer ->
  run (cart_delete_item user itemId) db =
  match cartOf (User._id user) db with
  | None => (db, Res.mk 404 "Cart not found" NoData)
  | Some cart =>
    let items := withoutLine itemId (Cart.items cart) in
    saveAndAnswer false
      (Cart.mk (Cart.user cart)
         (if Nat.eqb (length items) 0 then None else Cart.restaurant cart)
         items (Cart.totalAmount cart))
      "Item removed from cart" db
  end.
Proof.
  intros Hr. unfold cart_delete_item, run, bind at 1.
  rewrite authorize_ok by (rewrite Hr; reflexivity).
  unfold cartOf, saveAndAnswer, withoutLine, byUser. hred.
  destruct (find _ (DB.carts db)) as [cart|]; [|reflexivity].
  simpl. destruct (cartSchema_validate _); reflexivity.
Qed.

Lemma cart_put_eq (user : User.t) (itemId : string) (quantity : option JSON) (db : DB.t) :
  User.role user = customer ->
  run (cart_put user itemId quantity) db =
  if match quantity with Some v => ToNumber v <=? 0 | None => false end
  then (db, Res.mk 400 "Quantity must be greater than 0" NoData)
  else
    match cartOf (User._id user) db with
    | None => (db, Res.mk 404 "Cart not found" NoData)
    | Some cart =>
      match find (sameLine itemId) (Cart.items cart) with
      | None => (db, Res.mk 404 "Item not found in cart" NoData)
      | Some item =>
        match match quantity with Some v => castNumber v | None => None end with
        | None => (db, Res.mk 500 "Cart validation failed" NoData)
        | Some q =>
          saveAndAnswer false
            (Cart.mk (Cart.user cart) (Cart.restaurant cart)
               (replaceFirst (sameLine itemId)
                  (CartItem.mk (CartItem.menuItem item) q (CartItem.price item))
                  (Cart.items cart))
               (Cart.totalAmount cart))
            "Cart updated successfully" db
        end
      end
    end.
Proof.
  intros Hr. unfold cart_put, run, bind at 1.
  rewrite authorize_ok by (rewrite Hr; reflexivity).
  destruct (match quantity with Some v => ToNumber v <=? 0 | None => false end);
    [reflexivity|].
  unfold cartOf, saveAndAnswer, byUser. hred.
  destruct (find _ (DB.carts db)) as [cart|]; [|reflexivity].
  destruct (find _ (Cart.items cart)) as [item|]; [|reflexivity].
  destruct (match quantity with Some v => castNumber v | None => None end) as [q|];
    [|reflexivity].
  simpl. destruct (cartSchema_validate _); reflexivity.
Qed.

Lemma cart_post_eq (user : User.t) (menuItemId : string) (quantity0 : option JSON)
    (db : DB.t) :
  User.role user = customer ->
  run (cart_post user menuItemId quantity0) db =
  let quantity := match quantity0 with Some v => v | None => JNum 1 end in
  match castObjectId menuItemId with
  | None => (db, Res.mk 500 "Cast to ObjectId failed" NoData)
  | Some oid =>
    match menuItemOf oid db with
    | None => (db, Res.mk 400 "Menu item not available" NoData)
    | Some menuItem =>
      if negb (MenuItem.isAvailable menuItem)
      then (db, Res.mk 400 "Menu item not available" NoData)
      else
        let populated :=
          find (fun r => sameId (MenuItem.restaurant menuItem) (Restaurant._id r))
               (DB.restaurants db) in
        match cartOf (User._id user) db, populated with
        | None, None => (db, Res.mk 500 "Cannot read properties of null" NoData)
        | None, Some r =>
          match castNumber quantity with
          | None => (db, Res.mk 500 "Cart validation failed" NoData)
          | Some q =>
            saveAndAnswer true
              (Cart.mk (User._id user) (Some (Restaurant._id r))
                 [CartItem.mk oid q (MenuItem.price menuItem)] 0)
              "Item added to cart" db
          end
        | Some cart, None => (db, Res.mk 500 "Cannot read properties of null" NoData)
        | Some cart, Some r =>
          match Cart.restaurant cart with
          | Some cr =>
            if negb (sameId cr (Restaurant._id r)) then
              (db, Res.mk 400 "You can only add items from one restaurant at a time. Clear cart to add from different restaurant." NoData)
            else
              addAndAnswer menuItemId quantity (MenuItem.price menuItem) cart (Some cr) db
          | None =>
            addAndAnswer menuItemId quantity (MenuItem.price menuItem) cart
              (Some (Restaurant._id r)) db
          end
        end
    end
  end.
Proof.
  intros Hr. unfold cart_post, run, bind at 1.
  rewrite authorize_ok by (rewrite Hr; reflexivity).
  unfold cartOf, menuItemOf, addAndAnswer, saveAndAnswer, castLine, byUser. hred.
  destruct (castObjectId menuItemId) as [oid|]; [|reflexivity]. simpl.
  destruct (find _ (DB.menuItems db)) as [menuItem|]; [|reflexivity].
  destruct (MenuItem.isAvailable menuItem); simpl; [|reflexivity].
  destruct (find _ (DB.carts db)) as [cart|];
    destruct (find _ (DB.restaurants db)) as [r|]; simpl.
  - destruct (Cart.restaurant cart) as [cr|]; simpl.
    + destruct (sameId cr (Restaurant._id r)); simpl; [|reflexivity].
      destruct (addLine _ _ _ _); [|reflexivity].
      simpl. destruct (cartSchema_validate _); reflexivity.
    + destruct (addLine _ _ _ _); [|reflexivity].
      simpl. destruct (cartSchema_validate _); reflexivity.
  - destruct (Cart.restaurant cart) as [cr|]; reflexivity.
  - destruct (castNumber _); [|reflexivity].
    simpl. destruct (cartSchema_validate _); reflexivity.
  - reflexivity.
Qed.

Lemma validate_iff (c : Cart.t) :
  cartSchema_validate c = true <->
  forall item, In item (Cart.items c) -> (1 <=? CartItem.quantity item) = true.
Proof. unfold cartSchema_validate. apply forallb_forall. Qed.

Lemma withoutLine_In (itemId : string) (items : list CartItem.t) (item : CartItem.t) :
  In item (withoutLine itemId items) <->
  In item items /\ CartItem.menuItem item <> itemId.
Proof.
  unfold withoutLine. rewrite filter_In. unfold sameLine.
  rewrite negb_true_iff, String.eqb_neq. reflexivity.
Qed.

(** A number of at least 1 is stored as it is. *)
Lemma castNumber_JNum (q : Number) : (1 <=? q) = true -> castNumber (JNum q) = Some q.
Proof. intros H. simpl. now rewrite (leb_not_nan _ _ H). Qed.

(** After a save of a loaded cart that passed validation, the user's cart
    is the saved document. *)
Lemma saveAndAnswer_loaded (c cart : Cart.t) (msg : string) (db : DB.t) (user : ObjectId) :
  cartOf user db = Some cart ->
  Cart.user c = Cart.user cart ->
  cartSchema_validate c = true ->
  saveAndAnswer false c msg db =
    (DB.with_carts (replaceFirst (byUser user) (savedCart c) (DB.carts db)) db,
     Res.mk 200 msg (CartDoc (savedCart c)))
  /\ cartOf user (fst (saveAndAnswer false c msg db)) = Some (savedCart c).
Proof.
  intros Hf Hu Hv. unfold saveAndAnswer. rewrite Hv.
  pose proof (byUser_user _ _ _ Hf) as Hcu.
  rewrite Hu, Hcu. split; [reflexivity|].
  simpl. unfold cartOf. simpl.
  apply (find_replaceFirst _ cart); [exact Hf|].
  unfold byUser. simpl. rewrite Hu, Hcu. apply sameId_refl.
Qed.


End Carts.

Section CartInvariants.
Context {rt : Runtime}.

(** Which handler the cart router hands a request to. *)
Lemma dispatch_cartRouter (req : Req.t) :
  dispatch cartRouter req =
  match Req.method req, Req.path req with
  | GET, [] => cart_get (Req.user req)
  | POST, [] => cart_post (Req.user req) (Req.menuItemId req) (Req.quantity req)
  | PUT, [itemId] => cart_put (Req.user req) itemId (Req.quantity req)
  | DELETE, [itemId] => cart_delete_item (Req.user req) itemId
  | _, _ => send 404 "Route not found"
  end.
Proof.
  destruct req as [m p u i q].
  destruct m; destruct p as [|x [|y p]]; try reflexivity.
  cbn [dispatch cartRouter route_method route_path Method_eqb matchPath
       Req.method Req.path].
  destruct (String.eqb "clear" x); reflexivity.
Qed.

(** ** The invariants of the cart collection *)

Lemma saveAndAnswer_ok (isNew : bool) (c : Cart.t) (msg : string) (db : DB.t) :
  cartsOk db ->
  (isNew = true -> cartOf (Cart.user c) db = None) ->
  cartsOk (fst (saveAndAnswer isNew c msg db)).
Proof.
  intros [Hu [Hq Ht]] Hnew. unfold saveAndAnswer.
  destruct (cartSchema_validate c) eqn:Hv; [|repeat split; assumption].
  assert (Hs : forall d,
    In d (if isNew then DB.carts db ++ [savedCart c]
          else replaceFirst (byUser (Cart.user c)) (savedCart c) (DB.carts db)) ->
    d = savedCart c \/ In d (DB.carts db)).
  { intros d Hd. destruct isNew.
    - apply in_app_or in Hd. destruct Hd as [Hd|[Hd|[]]]; auto.
    - now apply In_replaceFirst in Hd. }
  simpl. split; [|split].
  - unfold cartsUnique in *. simpl. destruct isNew.
    + rewrite map_app. simpl. apply NoDup_app; [assumption| |].
      * constructor; [intros []|constructor].
      * intros a Ha [<-|[]]. revert Ha. apply find_byUser_absent. now apply Hnew.
    + rewrite map_replaceFirst; [assumption|].
      intros x _ Hx. simpl. now apply sameId_true.
  - unfold quantitiesOk in *. simpl. intros d item Hd Hi.
    destruct (Hs d Hd) as [->|Hd'].
    + simpl in Hi. now apply (proj1 (validate_iff c) Hv).
    + now apply (Hq d).
  - unfold totalsOk in *. simpl. intros d Hd.
    destruct (Hs d Hd) as [->|Hd']; [reflexivity|now apply Ht].
Qed.

Lemma addAndAnswer_ok (menuItemId : string) (quantity : JSON) (price : Number)
    (cart : Cart.t) (restaurant : option ObjectId) (db : DB.t) :
  cartsOk db ->
  cartsOk (fst (addAndAnswer menuItemId quantity price cart restaurant db)).
Proof.
  intros H. unfold addAndAnswer. destruct (addLine _ _ _ _); [|exact H].
  apply saveAndAnswer_ok; [exact H|discriminate].
Qed.

Lemma cart_post_ok (user : User.t) (menuItemId : string) (q : option JSON) (db : DB.t) :
  cartsOk db -> cartsOk (fst (run (cart_post user menuItemId q) db)).
Proof.
  intros H. destruct (Role_eqb (User.role user) customer) eqn:Hr.
  - apply Role_eqb_true in Hr. rewrite (cart_post_eq _ _ _ _ Hr). cbv zeta.
    destruct (castObjectId menuItemId) as [oid|]; [|exact H].
    destruct (menuItemOf oid db) as [m|]; [|exact H].
    destruct (negb _); [exact H|].
    destruct (cartOf (User._id user) db) as [cart|] eqn:Hc;
      destruct (find _ (DB.restaurants db)) as [r|]; try exact H.
    + destruct (Cart.restaurant cart) as [cr|].
      * destruct (negb _); [exact H|]. now apply addAndAnswer_ok.
      * now apply addAndAnswer_ok.
    + destruct (castNumber _); [|exact H].
      apply saveAndAnswer_ok; [exact H|]. intros _. exact Hc.
  - unfold cart_post. rewrite run_authorize. simpl. rewrite Hr. exact H.
Qed.

Lemma cart_put_ok (user : User.t) (itemId : string) (q : option JSON) (db : DB.t) :
  cartsOk db -> cartsOk (fst (run (cart_put user itemId q) db)).
Proof.
  intros H. destruct (Role_eqb (User.role user) customer) eqn:Hr.
  - apply Role_eqb_true in Hr. rewrite (cart_put_eq _ _ _ _ Hr).
    destruct (match q with Some v => ToNumber v <=? 0 | None => false end); [exact H|].
    destruct (cartOf (User._id user) db) as [cart|]; [|exact H].
    destruct (find _ (Cart.items cart)) as [item|]; [|exact H].
    destruct (match q with Some v => castNumber v | None => None end); [|exact H].
    apply saveAndAnswer_ok; [exact H|discriminate].
  - unfold cart_put. rewrite run_authorize. simpl. rewrite Hr. exact H.
Qed.

Lemma cart_delete_item_ok (user : User.t) (itemId : string) (db : DB.t) :
  cartsOk db -> cartsOk (fst (run (cart_delete_item user itemId) db)).
Proof.
  intros H. destruct (Role_eqb (User.role user) customer) eqn:Hr.
  - apply Role_eqb_true in Hr. rewrite (cart_delete_item_eq _ _ _ Hr).
    destruct (cartOf (User._id user) db) as [cart|]; [|exact H].
    apply saveAndAnswer_ok; [exact H|discriminate].
  - unfold cart_delete_item. rewrite run_authorize. simpl. rewrite Hr. exact H.
Qed.

Lemma cart_get_same (user : User.t) (db : DB.t) :
  fst (run (cart_get user) db) = db.
Proof.
  unfold cart_get. rewrite run_authorize.
  destruct (existsb _ _); [|reflexivity].
  unfold run, bind, Cart_findOne, read, ret. simpl.
  destruct (find _ (DB.carts db)); reflexivity.
Qed.

Lemma cartApi_ok (req : Req.t) (db : DB.t) :
  cartsOk db -> cartsOk (fst (cartApi req db)).
Proof.
  intros H. unfold cartApi. rewrite dispatch_cartRouter.
  destruct (Req.method req); destruct (Req.path req) as [|x [|y p]];
    try exact H;
    first [ rewrite cart_get_same; exact H
          | now apply cart_post_ok
          | now apply cart_put_ok
          | now apply cart_delete_item_ok ].
Qed.

(** ** Order placement, evaluated *)

Lemma snapshotLine_eq (item : CartItem.t) (db : DB.t) :
  snapshotLine item db =
  match snapshotOf (DB.menuItems db) item with
  | Some o => (db, inr o)
  | None => (db, inl (Res.mk 500 "Cannot read properties of null" NoData))
  end.
Proof.
  unfold snapshotLine, snapshotOf. hred.
  destruct (find _ (DB.menuItems db)); reflexivity.
Qed.

Lemma mapM_snapshotLine (items : list CartItem.t) (db : DB.t) :
  mapM snapshotLine items db =
  match snapshotAll (DB.menuItems db) items with
  | Some os => (db, inr os)
  | None => (db, inl (Res.mk 500 "Cannot read properties of null" NoData))
  end.
Proof.
  induction items as [|item items IH]; simpl; [reflexivity|].
  unfold bind at 1. rewrite snapshotLine_eq.
  destruct (snapshotOf (DB.menuItems db) item) as [o|]; [|reflexivity].
  unfold bind at 1. rewrite IH.
  destruct (snapshotAll (DB.menuItems db) items); reflexivity.
Qed.

Lemma order_post_eq (schema : OrderSchema.t) (now : Date) (newId : ObjectId)
    (user : User.t) (deliveryAddress paymentMethod notes : string) (db : DB.t) :
  User.role user = customer ->
  run (order_post schema now newId user deliveryAddress paymentMethod notes) db =
  match cartOf (User._id user) db with
  | None => (db, Res.mk 400 "Cart is empty" NoData)
  | Some cart =>
    if Nat.eqb (length (Cart.items cart)) 0 then (db, Res.mk 400 "Cart is empty" NoData)
    else
      match snapshotAll (DB.menuItems db) (Cart.items cart) with
      | None => (db, Res.mk 500 "Cannot read properties of null" NoData)
      | Some items =>
        let order :=
          placedOrder schema now newId user deliveryAddress paymentMethod notes cart items in
        if OrderSchema.validate schema order then
          (DB.with_carts
             (removeFirst (byUser (User._id user)) (DB.carts db))
             (DB.with_orders (DB.orders db ++ [order]) db),
           Res.mk 201 "Order placed successfully" (OrderDoc order))
        else (db, Res.mk 500 "Order validation failed" NoData)
      end
  end.
Proof.
  intros Hr. unfold order_post, run, bind at 1.
  rewrite authorize_ok by (rewrite Hr; reflexivity).
  unfold cartOf, byUser. unfold bind at 1. unfold Cart_findOne, bind, read, ret.
  destruct (find _ (DB.carts db)) as [cart|]; [|reflexivity].
  destruct (Nat.eqb _ 0); [reflexivity|].
  fold (@bind (list OrderItem.t)).
  rewrite mapM_snapshotLine.
  destruct (snapshotAll _ _) as [items|]; [|reflexivity].
  unfold Order_save_new, placedOrder, Cart_findOneAndDelete, throw, send, write. cbv zeta.
  destruct (OrderSchema.validate schema _); reflexivity.
Qed.

Lemma order_post_ok (schema : OrderSchema.t) (now : Date) (newId : ObjectId)
    (user : User.t) (deliveryAddress paymentMethod notes : string) (db : DB.t) :
  cartsOk db ->
  cartsOk (fst (run (order_post schema now newId user deliveryAddress paymentMethod notes) db)).
Proof.
  intros H. destruct (Role_eqb (User.role user) customer) eqn:Hr.
  - apply Role_eqb_true in Hr. rewrite (order_post_eq _ _ _ _ _ _ _ _ Hr).
    destruct (cartOf (User._id user) db) as [cart|]; [|exact H].
    destruct (Nat.eqb _ 0); [exact H|].
    destruct (snapshotAll _ _) as [items|]; [|exact H].
    cbv zeta. destruct (OrderSchema.validate schema _); [|exact H].
    destruct H as [Hu [Hq Ht]]. simpl. split; [|split].
    + unfold cartsUnique in *. simpl. now apply NoDup_map_removeFirst.
    + unfold quantitiesOk in *. simpl. intros c item Hc. apply Hq.
      now apply In_removeFirst in Hc.
    + unfold totalsOk in *. simpl. intros c Hc. apply Ht.
      now apply In_removeFirst in Hc.
  - unfold order_post. rewrite run_authorize. simpl. rewrite Hr. exact H.
Qed.

(** Every store the API reaches holds at most one cart per user, only
    lines of quantity at least 1, and totals that are the sum of the lines. *)
Lemma reachable_cartsOk (db : DB.t) : reachable db -> cartsOk db.
Proof.
  induction 1 as [db H|db req _ IH|db schema now newId user a p n _ IH|db db' _ IH H].
  - unfold cartsOk, cartsUnique, quantitiesOk, totalsOk. rewrite H.
    split; [constructor|split]; simpl; [intros c item []|intros c []].
  - now apply cartApi_ok.
  - now apply order_post_ok.
  - unfold cartsOk, cartsUnique, quantitiesOk, totalsOk in *. now rewrite H.
Qed.

End CartInvariants.

(** * The cart's quantities *)

Section Quantities.
Context {rt : Runtime}.

Lemma In_replaceFirst_new {A : Type} (p : A -> bool) (y : A) (l : list A) :
  find p l <> None -> In y (replaceFirst p y l).
Proof.
  induction l as [|a l IH]; simpl; intros H; [now contradiction H|].
  destruct (p a); [now left|right; now apply IH].
Qed.

(** C9, as the code has it: every line of every reachable cart has a
    quantity of at least 1, because the cart's schema refuses to save any
    other; a successful add leaves only such lines; the update handler
    answers 400 to a quantity of 0 or less, never stores a quantity below 1,
    and answers 404 when the caller has no cart or the cart has no such
    line; removing a line leaves the other lines as they were. *)
Theorem C9_quantities :
  (forall db, reachable db -> quantitiesOk db)
  /\ (forall user menuItemId q db cart',
        User.role user = customer ->
        Res.status (snd (run (cart_post user menuItemId q) db)) = 200%nat ->
        cartOf (User._id user) (fst (run (cart_post user menuItemId q) db)) = Some cart' ->
        forall item, In item (Cart.items cart') -> (1 <=? CartItem.quantity item) = true)
  /\ (forall user itemId v db,
        User.role user = customer ->
        (ToNumber v <=? 0) = true ->
        run (cart_put user itemId (Some v)) db
        = (db, Res.mk 400 "Quantity must be greater than 0" NoData))
  /\ (forall user itemId q db,
        User.role user = customer ->
        (q <? 1) = true ->
        fst (run (cart_put user itemId (Some (JNum q))) db) = db
        /\ Res.status (snd (run (cart_put user itemId (Some (JNum q))) db)) <> 200%nat)
  /\ (forall user itemId q db,
        User.role user = customer ->
        (0 <? q) = true ->
        (cartOf (User._id user) db = None \/
         exists cart, cartOf (User._id user) db = Some cart /\
                      find (sameLine itemId) (Cart.items cart) = None) ->
        Res.status (snd (run (cart_put user itemId (Some (JNum q))) db)) = 404%nat
        /\ fst (run (cart_put user itemId (Some (JNum q))) db) = db)
  /\ (forall user itemId db cart cart',
        User.role user = customer ->
        cartOf (User._id user) db = Some cart ->
        cartOf (User._id user) (fst (run (cart_delete_item user itemId) db)) = Some cart' ->
        forall item, In item (Cart.items cart') -> In item (Cart.items cart)).
Proof.
  split; [intros db H; apply (reachable_cartsOk db H)|].
  split.
  { intros user menuItemId q db cart' Hr Hs Hc item Hi.
    revert Hs Hc. rewrite (cart_post_eq _ _ _ _ Hr). cbv zeta.
    assert (Hsave : forall isNew c,
      (isNew = true -> cartOf (Cart.user c) db = None) ->
      Cart.user c = User._id user ->
      (isNew = false -> cartOf (User._id user) db <> None) ->
      Res.status (snd (saveAndAnswer isNew c "Item added to cart" db)) = 200%nat ->
      cartOf (User._id user) (fst (saveAndAnswer isNew c "Item added to cart" db)) = Some cart' ->
      (1 <=? CartItem.quantity item) = true).
    { intros isNew c Hnew Hu Hold. unfold saveAndAnswer.
      destruct (cartSchema_validate c) eqn:Hv; [|discriminate].
      simpl. intros _ Hc. unfold cartOf in Hc. simpl in Hc.
      assert (cart' = savedCart c) as ->.
      { destruct isNew.
        - rewrite find_app_miss in Hc by (rewrite <- Hu; now apply Hnew).
          simpl in Hc. unfold byUser in Hc. simpl in Hc.
          rewrite Hu, sameId_refl in Hc. congruence.
        - destruct (cartOf (User._id user) db) as [old|] eqn:Ho;
            [|now exfalso; apply Hold].
          rewrite Hu in Hc.
          rewrite (find_replaceFirst _ old) in Hc; [congruence|exact Ho|].
          unfold byUser. simpl. rewrite Hu. apply sameId_refl. }
      now apply (proj1 (validate_iff c) Hv). }
    destruct (castObjectId menuItemId) as [oid|]; [|discriminate].
    destruct (menuItemOf oid db) as [m|]; [|discriminate].
    destruct (negb _); [discriminate|].
    destruct (cartOf (User._id user) db) as [cart|] eqn:Hc0;
      destruct (find _ (DB.restaurants db)) as [r|]; try discriminate.
    - pose proof (byUser_user _ _ _ Hc0) as Hcu.
      destruct (Cart.restaurant cart) as [cr|].
      + destruct (negb _); [discriminate|]. unfold addAndAnswer.
        destruct (addLine _ _ _ _); [|discriminate].
        apply Hsave; [discriminate|exact Hcu|discriminate].
      + unfold addAndAnswer. destruct (addLine _ _ _ _); [|discriminate].
        apply Hsave; [discriminate|exact Hcu|discriminate].
    - destruct (castNumber _); [|discriminate].
      apply Hsave; [intros _; exact Hc0|reflexivity|discriminate]. }
  split.
  { intros user itemId v db Hr Hq. rewrite (cart_put_eq _ _ _ _ Hr). now rewrite Hq. }
  split.
  { intros user itemId q db Hr Hq. rewrite (cart_put_eq _ _ _ _ Hr).
    destruct (ToNumber (JNum q) <=? 0); [split; [reflexivity|discriminate]|].
    destruct (cartOf (User._id user) db) as [cart|]; [|split; [reflexivity|discriminate]].
    destruct (find _ (Cart.items cart)) as [item|] eqn:Hf;
      [|split; [reflexivity|discriminate]].
    destruct (castNumber (JNum q)) as [q'|] eqn:Hcast; [|split; [reflexivity|discriminate]].
    assert (q' = q) as ->.
    { simpl in Hcast. destruct (is_nan q); congruence. }
    unfold saveAndAnswer.
    destruct (cartSchema_validate _) eqn:Hv; [|split; [reflexivity|discriminate]].
    exfalso. rewrite validate_iff in Hv. simpl in Hv.
    assert (Hin : In (CartItem.mk (CartItem.menuItem item) q (CartItem.price item))
                     (replaceFirst (sameLine itemId)
                        (CartItem.mk (CartItem.menuItem item) q (CartItem.price item))
                        (Cart.items cart))).
    { apply In_replaceFirst_new. congruence. }
    apply Hv in Hin. simpl in Hin. rewrite (ltb_not_leb _ _ Hq) in Hin. discriminate. }
  split.
  { intros user itemId q db Hr Hq Hno. rewrite (cart_put_eq _ _ _ _ Hr).
    simpl ToNumber. rewrite (ltb_not_leb _ _ Hq).
    destruct Hno as [->|[cart [-> ->]]]; split; reflexivity. }
  intros user itemId db cart cart' Hr Hc. rewrite (cart_delete_item_eq _ _ _ Hr), Hc.
  cbv zeta. unfold saveAndAnswer.
  destruct (cartSchema_validate _) eqn:Hv; simpl.
  - unfold cartOf in *. simpl. pose proof (byUser_user _ _ _ Hc) as Hcu.
    rewrite Hcu. rewrite (find_replaceFirst _ cart); [|exact Hc|].
    + intros [= <-] item Hi. simpl in Hi. now apply withoutLine_In in Hi.
    + unfold byUser. simpl. apply sameId_refl.
  - rewrite Hc. intros [= <-] item Hi. exact Hi.
Qed.

End Quantities.

(** * Adding to the cart *)

Section Adding.
Context {rt : Runtime}.

Lemma populated_id (id : ObjectId) (r : Restaurant.t) (l : list Restaurant.t) :
  find (fun x => sameId id (Restaurant._id x)) l = Some r -> Restaurant._id r = id.
Proof. intros H. apply find_some in H. symmetry. now apply sameId_true. Qed.

Lemma menu_put_carts (user : User.t) (id : string) (body : MenuBody.t) (db : DB.t) :
  DB.carts (fst (run (menu_put user id body) db)) = DB.carts db.
Proof.
  unfold menu_put. rewrite run_authorize.
  destruct (existsb _ _); [|reflexivity].
  unfold run. hred.
  destruct (castObjectId id) as [oid|]; [|reflexivity]. simpl.
  destruct (find _ (DB.menuItems db)) as [m|]; [|reflexivity].
  destruct (find _ (DB.restaurants db)) as [r|]; [|reflexivity].
  simpl. destruct (negb (sameId _ _)); [reflexivity|].
  destruct (MenuBody.update body m) as [m'|]; [|reflexivity].
  destruct (negb (sameId _ _)); reflexivity.
Qed.

Lemma sameLine_true (id : string) (item : CartItem.t) :
  sameLine id item = true <-> CartItem.menuItem item = id.
Proof. apply String.eqb_eq. Qed.

Lemma sameLine_false (id : string) (item : CartItem.t) :
  sameLine id item = false <-> CartItem.menuItem item <> id.
Proof. apply String.eqb_neq. Qed.

Lemma find_sameLine_none (id : string) (items : list CartItem.t) :
  find (sameLine id) items = None <->
  forall item, In item items -> CartItem.menuItem item <> id.
Proof.
  rewrite find_none_forall. split; intros H item Hi; apply sameLine_false; now apply H.
Qed.

(** The line a numeric quantity is merged into. *)
Lemma addLine_merge (menuItemId : string) (q price : Number)
    (before after : list CartItem.t) (line : CartItem.t) :
  (forall item, In item before -> CartItem.menuItem item <> menuItemId) ->
  CartItem.menuItem line = menuItemId ->
  (1 <=? CartItem.quantity line + q) = true ->
  addLine menuItemId (JNum q) price (before ++ line :: after)
  = Some (before ++
          CartItem.mk menuItemId (CartItem.quantity line + q) (CartItem.price line) :: after).
Proof.
  intros Hb Hl Hq. unfold addLine.
  assert (Hnone : find (sameLine menuItemId) before = None) by now apply find_sameLine_none.
  assert (Hline : sameLine menuItemId line = true) by now apply sameLine_true.
  rewrite (find_app_miss _ _ _ Hnone). simpl find. rewrite Hline.
  simpl js_add. rewrite (castNumber_JNum _ Hq).
  rewrite (replaceFirst_split _ _ _ _ _ Hnone Hline). now rewrite Hl.
Qed.

(** The line a numeric quantity is appended as. *)
Lemma addLine_append (menuItemId : string) (oid : ObjectId) (q price : Number)
    (items : list CartItem.t) :
  castObjectId menuItemId = Some oid ->
  (forall item, In item items -> CartItem.menuItem item <> menuItemId) ->
  (1 <=? q) = true ->
  addLine menuItemId (JNum q) price items = Some (items ++ [CartItem.mk oid q price]).
Proof.
  intros Hc Hn Hq. unfold addLine, castLine.
  rewrite (proj2 (find_sameLine_none _ _) Hn), Hc, (castNumber_JNum _ Hq). reflexivity.
Qed.

(** C5, as the code has it: POST /api/cart answers 500 for an id that is
    not an ObjectId, and 400 for an id of no menu item, for an unavailable
    item and for an item of another restaurant than the cart's; none of
    them changes the store.  Otherwise, for a numeric quantity, it creates
    the cart, or adds the quantity to the first line whose reference
    prints as the request's id (the line keeps its price), or, when the
    cart has no line of the menu item, appends a line priced at the menu
    item's price of that moment.  A later PUT /api/menu/:id leaves the
    carts as they are. *)
Theorem C5_add_item (user : User.t) (menuItemId : string) (quantity0 : option JSON)
    (db : DB.t) :
  User.role user = customer ->
  let quantity := match quantity0 with Some v => v | None => JNum 1 end in
  let out := run (cart_post user menuItemId quantity0) db in
  (castObjectId menuItemId = None -> Res.status (snd out) = 500%nat /\ fst out = db)
  /\
  (forall oid, castObjectId menuItemId = Some oid ->
     ((menuItemOf oid db = None \/
       exists m, menuItemOf oid db = Some m /\ MenuItem.isAvailable m = false) ->
      Res.status (snd out) = 400%nat /\ fst out = db)
     /\
     (forall m r,
        menuItemOf oid db = Some m -> MenuItem.isAvailable m = true ->
        find (fun x => sameId (MenuItem.restaurant m) (Restaurant._id x)) (DB.restaurants db)
          = Some r ->
        (forall cart cr,
           cartOf (User._id user) db = Some cart ->
           Cart.restaurant cart = Some cr -> cr <> MenuItem.restaurant m ->
           Res.status (snd out) = 400%nat /\ fst out = db)
        /\
        (forall q, quantity = JNum q ->
           (cartOf (User._id user) db = None -> (1 <=? q) = true ->
            let created :=
              Cart.mk (User._id user) (Some (MenuItem.restaurant m))
                [CartItem.mk oid q (MenuItem.price m)]
                (cartSchema_total [CartItem.mk oid q (MenuItem.price m)]) in
            Res.status (snd out) = 200%nat /\
            DB.carts (fst out) = DB.carts db ++ [created] /\
            cartOf (User._id user) (fst out) = Some created)
           /\
           (forall cart before line after,
              cartOf (User._id user) db = Some cart ->
              (Cart.restaurant cart = None \/
               Cart.restaurant cart = Some (MenuItem.restaurant m)) ->
              Cart.items cart = before ++ line :: after ->
              (forall item, In item before -> CartItem.menuItem item <> menuItemId) ->
              CartItem.menuItem line = menuItemId ->
              (forall item, In item (Cart.items cart) ->
                            (1 <=? CartItem.quantity item) = true) ->
              (1 <=? CartItem.quantity line + q) = true ->
              Res.status (snd out) = 200%nat /\
              exists cart',
                cartOf (User._id user) (fst out) = Some cart' /\
                Cart.restaurant cart' = Some (MenuItem.restaurant m) /\
                Cart.items cart' =
                  before ++
                  CartItem.mk menuItemId (CartItem.quantity line + q) (CartItem.price line)
                  :: after)
           /\
           (forall cart,
              cartOf (User._id user) db = Some cart ->
              (Cart.restaurant cart = None \/
               Cart.restaurant cart = Some (MenuItem.restaurant m)) ->
              (forall item, In item (Cart.items cart) ->
                 CartItem.menuItem item <> oid /\ CartItem.menuItem item <> menuItemId) ->
              (forall item, In item (Cart.items cart) ->
                            (1 <=? CartItem.quantity item) = true) ->
              (1 <=? q) = true ->
              Res.status (snd out) = 200%nat /\
              exists cart',
                cartOf (User._id user) (fst out) = Some cart' /\
                Cart.restaurant cart' = Some (MenuItem.restaurant m) /\
                Cart.items cart' =
                  Cart.items cart ++ [CartItem.mk oid q (MenuItem.price m)]))))
  /\
  (forall owner id body,
     DB.carts (fst (run (menu_put owner id body) (fst out))) = DB.carts (fst out)).
Proof.
  intros Hr quantity out. subst out.
  rewrite (cart_post_eq _ _ _ _ Hr). cbv zeta. fold quantity.
  split.
  { intros ->. split; reflexivity. }
  split; [|intros; apply menu_put_carts].
  intros oid Hcast. rewrite Hcast. split.
  { intros [->|[m [-> Ha]]]; [split; reflexivity|]. rewrite Ha. split; reflexivity. }
  intros m r -> Ha Hp. rewrite Ha, Hp. simpl negb. cbv iota.
  pose proof (populated_id _ _ _ Hp) as Hid. rewrite Hid.
  (* any loaded cart the handler saves *)
  assert (Hsave : forall cart items,
    cartOf (User._id user) db = Some cart ->
    (forall item, In item items -> (1 <=? CartItem.quantity item) = true) ->
    let c := Cart.mk (Cart.user cart) (Some (MenuItem.restaurant m)) items
                     (Cart.totalAmount cart) in
    Res.status (snd (saveAndAnswer false c "Item added to cart" db)) = 200%nat /\
    exists cart',
      cartOf (User._id user) (fst (saveAndAnswer false c "Item added to cart" db)) = Some cart' /\
      Cart.restaurant cart' = Some (MenuItem.restaurant m) /\ Cart.items cart' = items).
  { intros cart items Hc Hv c.
    assert (Hv' : cartSchema_validate c = true) by now apply validate_iff.
    destruct (saveAndAnswer_loaded c cart "Item added to cart" db _ Hc eq_refl Hv') as [He Hc'].
    split; [now rewrite He|]. exists (savedCart c). now split. }
  (* the same with the lines the handler has computed *)
  assert (Hadd : forall cart items,
    cartOf (User._id user) db = Some cart ->
    (Cart.restaurant cart = None \/ Cart.restaurant cart = Some (MenuItem.restaurant m)) ->
    addLine menuItemId quantity (MenuItem.price m) (Cart.items cart) = Some items ->
    (forall item, In item items -> (1 <=? CartItem.quantity item) = true) ->
    let res :=
      match Cart.restaurant cart with
      | Some cr =>
        if negb (sameId cr (MenuItem.restaurant m)) then
          (db, Res.mk 400 "You can only add items from one restaurant at a time. Clear cart to add from different restaurant." NoData)
        else addAndAnswer menuItemId quantity (MenuItem.price m) cart (Some cr) db
      | None =>
        addAndAnswer menuItemId quantity (MenuItem.price m) cart
          (Some (MenuItem.restaurant m)) db
      end in
    Res.status (snd res) = 200%nat /\
    exists cart',
      cartOf (User._id user) (fst res) = Some cart' /\
      Cart.restaurant cart' = Some (MenuItem.restaurant m) /\ Cart.items cart' = items).
  { intros cart items Hc Hcompat Hl Hv.
    destruct Hcompat as [Hn|Hs]; rewrite ?Hn, ?Hs, ?sameId_refl; simpl negb; cbv iota zeta;
      unfold addAndAnswer; rewrite Hl; now apply Hsave. }
  split.
  { intros cart cr -> Hcr Hne. rewrite Hcr.
    apply sameId_false in Hne. rewrite Hne. split; reflexivity. }
  intros q Hq. rewrite Hq in Hadd |- *. split; [|split].
  - intros Hc Hq1. rewrite Hc, (castNumber_JNum _ Hq1). unfold saveAndAnswer.
    assert (Hv : cartSchema_validate
                   (Cart.mk (User._id user) (Some (MenuItem.restaurant m))
                      [CartItem.mk oid q (MenuItem.price m)] 0) = true).
    { apply validate_iff. intros item [<-|[]]. exact Hq1. }
    rewrite Hv. simpl. split; [reflexivity|]. split; [reflexivity|].
    unfold cartOf in *. simpl. rewrite find_app_miss by exact Hc.
    simpl. unfold byUser. simpl. now rewrite sameId_refl.
  - intros cart before line after Hc Hcompat Hitems Hb Hl Hold Hq1. rewrite Hc.
    apply Hadd; [exact Hc|exact Hcompat| |].
    + rewrite Hitems. now apply addLine_merge.
    + intros item Hi. apply in_app_or in Hi. destruct Hi as [Hi|[<-|Hi]].
      * apply Hold. rewrite Hitems. apply in_or_app. now left.
      * exact Hq1.
      * apply Hold. rewrite Hitems. apply in_or_app. right. now right.
  - intros cart Hc Hcompat Hno Hold Hq1. rewrite Hc.
    apply Hadd; [exact Hc|exact Hcompat| |].
    + apply addLine_append; [exact Hcast| |exact Hq1].
      intros item Hi. now apply Hno.
    + intros item Hi. apply in_app_or in Hi. destruct Hi as [Hi|[<-|[]]].
      * now apply Hold.
      * exact Hq1.
Qed.

End Adding.

(** * Clearing the cart *)

(** What the handler registered for [DELETE /clear] does when it runs: the
    cart is gone and the next GET shows the empty cart. *)
Lemma cart_delete_clear_deletes (user : User.t) (db : DB.t) :
  User.role user = customer ->
  cartsUnique db ->
  let out := run (cart_delete_clear user) db in
  Res.status (snd out) = 200%nat /\
  cartOf (User._id user) (fst out) = None /\
  snd (run (cart_get user) (fst out)) = Res.mk 200 "" (ItemsTotal [] 0).
Proof.
  intros Hr Hu out. subst out. unfold cart_delete_clear, cart_get.
  rewrite !run_authorize, Hr. simpl existsb. cbv iota.
  unfold run, Cart_findOneAndDelete, Cart_findOne, bind, write, read, ret. simpl.
  unfold cartOf. simpl.
  fold (byUser (User._id user)).
  rewrite (find_removeFirst_unique _ _ Hu). repeat split; reflexivity.
Qed.

(** C6, on the code: the router hands [DELETE /clear] to the handler of
    [DELETE /:itemId], registered before it, with [itemId = "clear"].
    Alice's cart is still in the store afterwards, and her next GET
    returns it with both lines. *)
Theorem C6_clear_is_shadowed :
  (forall (rt : Runtime) user,
     dispatch (@cartRouter rt) (Sample.deleteClear user) = cart_delete_item user "clear")
  /\ cartApi (Sample.deleteClear Sample.alice) Sample.db1
     = (Sample.db1, Res.mk 200 "Item removed from cart" (CartDoc Sample.aliceCart))
  /\ cartOf Sample.aliceId (fst (cartApi (Sample.deleteClear Sample.alice) Sample.db1))
     = Some Sample.aliceCart
  /\ snd (run (cart_get Sample.alice) (fst (cartApi (Sample.deleteClear Sample.alice) Sample.db1)))
     = Res.mk 200 "" (CartDoc Sample.aliceCart)
  /\ cartApi (Sample.deleteClear Sample.alice) Sample.db0
     = (Sample.db0, Res.mk 404 "Cart not found" NoData).
Proof.
  split; [intros rt user; reflexivity|].
  repeat split; vm_compute; reflexivity.
Qed.

(** * Placing an order *)

Section Placing.
Context {rt : Runtime}.


Lemma snapshotAll_missing (menu : list MenuItem.t) (items : list CartItem.t)
    (line : CartItem.t) :
  In line items ->
  find (fun m => sameId (MenuItem._id m) (CartItem.menuItem line)) menu = None ->
  snapshotAll menu items = None.
Proof.
  induction items as [|item items IH]; intros Hin Hf; [destruct Hin|].
  simpl. destruct Hin as [->|Hin].
  - unfold snapshotOf. now rewrite Hf.
  - rewrite (IH Hin Hf). now destruct (snapshotOf menu item).
Qed.

Lemma order_post_missing (schema : OrderSchema.t) (now : Date) (newId : ObjectId)
    (user : User.t) (deliveryAddress paymentMethod notes : string) (db : DB.t)
    (cart : Cart.t) (line : CartItem.t) :
  User.role user = customer ->
  cartOf (User._id user) db = Some cart ->
  In line (Cart.items cart) ->
  menuItemOf (CartItem.menuItem line) db = None ->
  run (order_post schema now newId user deliveryAddress paymentMethod notes) db
  = (db, Res.mk 500 "Cannot read properties of null" NoData).
Proof.
  intros Hr Hc Hin Hf. rewrite (order_post_eq _ _ _ _ _ _ _ _ Hr), Hc.
  destruct (Nat.eqb (length (Cart.items cart)) 0) eqn:Hlen.
  - apply length_zero_nil in Hlen. rewrite Hlen in Hin. destruct Hin.
  - now rewrite (snapshotAll_missing _ _ _ Hin Hf).
Qed.


End Placing.

(** * Order status and access *)

Section Status.
Context {rt : Runtime}.

Lemma includes_In (l : list string) (s : string) : includes l s = true <-> In s l.
Proof.
  unfold includes. rewrite existsb_exists. split.
  - intros [x [Hx He]]. apply String.eqb_eq in He. now subst.
  - intros H. exists s. split; [assumption|apply String.eqb_refl].
Qed.

Lemma includes_not_In (l : list string) (s : string) : includes l s = false <-> ~ In s l.
Proof.
  rewrite <- includes_In. destruct (includes l s); split; intros H; congruence.
Qed.

Lemma optId_eqb_true (a : option ObjectId) (b : ObjectId) : optId_eqb a b = true <-> a = Some b.
Proof.
  destruct a as [x|]; simpl; [|split; discriminate].
  rewrite sameId_true. split; congruence.
Qed.

Lemma optId_eqb_false (a : option ObjectId) (b : ObjectId) :
  optId_eqb a b = false <-> a <> Some b.
Proof.
  rewrite <- optId_eqb_true. destruct (optId_eqb a b); split; intros H; congruence.
Qed.

Lemma setStatus_id (now : Date) (status : string) (o : Order.t) :
  Order._id (setStatus now status o) = Order._id o.
Proof. unfold setStatus. cbv zeta. destruct (String.eqb status "delivered"); reflexivity. Qed.

Lemma setStatus_status (now : Date) (status : string) (o : Order.t) :
  Order.status (setStatus now status o) = status.
Proof. unfold setStatus. cbv zeta. destruct (String.eqb status "delivered"); reflexivity. Qed.


Lemma order_put_status_eq (now : Date) (user : User.t) (id : string) (status : string)
    (db : DB.t) :
  run (order_put_status now user id status) db =
  match castObjectId id with
  | None => (db, Res.mk 500 "Cast to ObjectId failed" NoData)
  | Some oid =>
  match orderOf oid db with
  | None => (db, Res.mk 404 "Order not found" NoData)
  | Some order =>
    match User.role user with
    | restaurant_owner =>
      if negb (includes restaurantStatuses status)
      then (db, Res.mk 400 "Invalid status for restaurant owner" NoData)
      else
        match restaurantOf order db with
        | None => (db, Res.mk 500 "Cannot read properties of null" NoData)
        | Some r =>
          if negb (sameId (Restaurant.owner r) (User._id user))
          then (db, Res.mk 403 "Access denied" NoData)
          else statusSaved now status order db
        end
    | delivery_agent =>
      if negb (includes agentStatuses status)
      then (db, Res.mk 400 "Invalid status for delivery agent" NoData)
      else if negb (optId_eqb (Order.deliveryAgent order) (User._id user))
      then (db, Res.mk 403 "Access denied" NoData)
      else statusSaved now status order db
    | _ => (db, Res.mk 403 "Access denied" NoData)
    end
  end
  end.
Proof.
  unfold order_put_status, orderOf, restaurantOf, statusSaved, byId, run.
  unfold Order_save. hred.
  destruct (castObjectId id) as [oid|]; [|reflexivity]. simpl.
  destruct (find _ (DB.orders db)) as [order|]; [|reflexivity].
  rewrite setStatus_id.
  destruct (User.role user); try reflexivity.
  - destruct (includes restaurantStatuses status); simpl; [|reflexivity].
    destruct (find _ (DB.restaurants db)) as [r|]; simpl; [|reflexivity].
    destruct (sameId (Restaurant.owner r) (User._id user)); reflexivity.
  - destruct (includes agentStatuses status); simpl; [|reflexivity].
    destruct (optId_eqb _ _); reflexivity.
Qed.

Lemma orderOf_statusSaved (now : Date) (status : string) (order : Order.t) (id : ObjectId)
    (db : DB.t) :
  orderOf id db = Some order ->
  orderOf id (fst (statusSaved now status order db)) = Some (setStatus now status order).
Proof.
  intros H. unfold statusSaved, orderOf in *. simpl.
  assert (Hid : Order._id order = id).
  { apply find_some in H. now apply sameId_true. }
  rewrite Hid. apply (find_replaceFirst _ order); [exact H|].
  unfold byId. rewrite setStatus_id, Hid. apply sameId_refl.
Qed.

Lemma restaurantStatuses_In (status : string) :
  In status restaurantStatuses <->
  status = "accepted" \/ status = "preparing" \/ status = "ready".
Proof. unfold restaurantStatuses. simpl. intuition congruence. Qed.

Lemma agentStatuses_In (status : string) :
  In status agentStatuses <-> status = "picked_up" \/ status = "delivered".
Proof. unfold agentStatuses. simpl. intuition congruence. Qed.

(** C2: PUT /api/orders/:id/status on an existing order.  A restaurant
    owner succeeds exactly when the status is accepted, preparing or ready
    and the order's restaurant is theirs; a delivery agent exactly when the
    status is picked_up or delivered and the order is assigned to them; a
    status outside the role's list is answered 400, a foreign order 403,
    every other role 403.  The order's current status plays no part: the
    answer is the same whatever it is, and on success the stored order has
    the requested status. *)
Theorem C2_status_permissions (now : Date) (user : User.t) (id : string) (oid : ObjectId)
    (status : string) (db : DB.t) (order : Order.t) :
  castObjectId id = Some oid ->
  orderOf oid db = Some order ->
  let out := run (order_put_status now user id status) db in
  let ownerMay := status = "accepted" \/ status = "preparing" \/ status = "ready" in
  let agentMay := status = "picked_up" \/ status = "delivered" in
  (User.role user = restaurant_owner ->
     (Res.status (snd out) = 200%nat <->
      ownerMay /\
      exists r, restaurantOf order db = Some r /\ Restaurant.owner r = User._id user)
     /\ (~ ownerMay -> Res.status (snd out) = 400%nat)
     /\ (ownerMay ->
         forall r, restaurantOf order db = Some r -> Restaurant.owner r <> User._id user ->
                   Res.status (snd out) = 403%nat))
  /\ (User.role user = delivery_agent ->
     (Res.status (snd out) = 200%nat <->
      agentMay /\ Order.deliveryAgent order = Some (User._id user))
     /\ (~ agentMay -> Res.status (snd out) = 400%nat)
     /\ (agentMay -> Order.deliveryAgent order <> Some (User._id user) ->
         Res.status (snd out) = 403%nat))
  /\ (User.role user = customer \/ User.role user = admin -> Res.status (snd out) = 403%nat)
  /\ (Res.status (snd out) = 200%nat ->
      exists order', orderOf oid (fst out) = Some order' /\ Order.status order' = status)
  /\ (Res.status (snd out) <> 200%nat -> fst out = db)
  /\ (forall current,
        let db' :=
          DB.with_orders
            (replaceFirst (byId oid) (withStatus current order) (DB.orders db)) db in
        orderOf oid db' = Some (withStatus current order) /\
        Res.status (snd (run (order_put_status now user id status) db'))
        = Res.status (snd out)).
Proof.
  intros Hcast Ho out ownerMay agentMay. subst out ownerMay agentMay.
  rewrite order_put_status_eq, Hcast, Ho.
  rewrite <- restaurantStatuses_In, <- agentStatuses_In.
  split; [|split; [|split; [|split; [|split]]]].
  - intros ->. 
    destruct (includes restaurantStatuses status) eqn:Hi; simpl.
    + apply includes_In in Hi.
      destruct (restaurantOf order db) as [r|].
      * destruct (sameId (Restaurant.owner r) (User._id user)) eqn:Hs; simpl.
        -- apply sameId_true in Hs. split; [|split].
           ++ split; [intros _; split; [exact Hi|now exists r]|reflexivity].
           ++ intros Hn. contradiction.
           ++ intros _ r' [= <-] Hne. contradiction.
        -- apply sameId_false in Hs. split; [|split].
           ++ split; [discriminate|]. intros [_ [r' [[= <-] He]]]. contradiction.
           ++ intros Hn. contradiction.
           ++ reflexivity.
      * split; [|split].
        -- split; [discriminate|]. intros [_ [r' [[=] _]]].
        -- intros Hn. contradiction.
        -- intros _ r' [=].
    + apply includes_not_In in Hi. split; [|split].
      * split; [discriminate|]. intros [Hin _]. contradiction.
      * reflexivity.
      * intros Hin. contradiction.
  - intros ->.
    destruct (includes agentStatuses status) eqn:Hi; simpl.
    + apply includes_In in Hi.
      destruct (optId_eqb (Order.deliveryAgent order) (User._id user)) eqn:Ha; simpl.
      * apply optId_eqb_true in Ha. split; [|split].
        -- split; [intros _; now split|reflexivity].
        -- intros Hn. contradiction.
        -- intros _ Hne. contradiction.
      * apply optId_eqb_false in Ha. split; [|split].
        -- split; [discriminate|]. intros [_ He]. contradiction.
        -- intros Hn. contradiction.
        -- reflexivity.
    + apply includes_not_In in Hi. split; [|split].
      * split; [discriminate|]. intros [Hin _]. contradiction.
      * reflexivity.
      * intros Hin. contradiction.
  - intros [-> | ->]; reflexivity.
  - intros H200. exists (setStatus now status order).
    split; [|apply setStatus_status].
    assert (Hs : orderOf oid (fst (statusSaved now status order db))
                 = Some (setStatus now status order)) by now apply orderOf_statusSaved.
    destruct (User.role user); try discriminate.
    + destruct (negb _); [discriminate|].
      destruct (restaurantOf order db) as [r|]; [|discriminate].
      destruct (negb _); [discriminate|exact Hs].
    + destruct (negb _); [discriminate|].
      destruct (negb _); [discriminate|exact Hs].
  - intros Hne.
    destruct (User.role user); try reflexivity.
    + destruct (negb _); [reflexivity|].
      destruct (restaurantOf order db) as [r|]; [|reflexivity].
      destruct (negb _); [reflexivity|]. now contradiction Hne.
    + destruct (negb _); [reflexivity|].
      destruct (negb _); [reflexivity|]. now contradiction Hne.
  - intros current db'. 
    assert (Hid : Order._id order = oid).
    { apply find_some in Ho. now apply sameId_true. }
    assert (Ho' : orderOf oid db' = Some (withStatus current order)).
    { subst db'. unfold orderOf in *. simpl. apply (find_replaceFirst _ order); [exact Ho|].
      unfold byId. simpl. rewrite Hid. apply sameId_refl. }
    split; [exact Ho'|].
    rewrite order_put_status_eq, Hcast, Ho'.
    change (restaurantOf (withStatus current order) db') with (restaurantOf order db).
    change (Order.deliveryAgent (withStatus current order)) with (Order.deliveryAgent order).
    destruct (User.role user); try reflexivity.
    + destruct (negb _); [reflexivity|].
      destruct (restaurantOf order db) as [r|]; [|reflexivity].
      destruct (negb _); reflexivity.
    + destruct (negb _); [reflexivity|].
      destruct (negb _); reflexivity.
Qed.

(** C8: a successful PUT /api/orders/:id/status stores the order with the
    requested status.  For [delivered], which only the assigned delivery
    agent obtains, it also stamps [actualDeliveryTime] with the current
    time and sets [paymentStatus] to paid; for any other status the stored
    order differs from the old one in [status] alone.  No other document
    changes. *)
Theorem C8_delivered_effect (now : Date) (user : User.t) (id : string) (oid : ObjectId)
    (status : string) (db : DB.t) (order : Order.t) :
  castObjectId id = Some oid ->
  orderOf oid db = Some order ->
  let out := run (order_put_status now user id status) db in
  Res.status (snd out) = 200%nat ->
  exists order',
    orderOf oid (fst out) = Some order' /\
    snd out = Res.mk 200 "Order status updated successfully" (OrderDoc order') /\
    Order.status order' = status /\
    (status = "delivered" ->
       Order.actualDeliveryTime order' = Some now /\
       Order.paymentStatus order' = "paid" /\
       order' = markDelivered now (withStatus status order) /\
       User.role user = delivery_agent /\
       Order.deliveryAgent order = Some (User._id user)) /\
    (status <> "delivered" ->
       Order.actualDeliveryTime order' = Order.actualDeliveryTime order /\
       Order.paymentStatus order' = Order.paymentStatus order /\
       order' = withStatus status order) /\
    DB.orders (fst out) = replaceFirst (byId oid) order' (DB.orders db) /\
    DB.restaurants (fst out) = DB.restaurants db /\
    DB.menuItems (fst out) = DB.menuItems db /\
    DB.carts (fst out) = DB.carts db /\
    DB.reviews (fst out) = DB.reviews db.
Proof.
  intros Hcast Ho out. subst out. rewrite order_put_status_eq, Hcast, Ho. intros H200.
  assert (Hid : Order._id order = oid).
  { apply find_some in Ho. now apply sameId_true. }
  assert (Hsaved :
    (status = "delivered" -> User.role user = delivery_agent /\
                             Order.deliveryAgent order = Some (User._id user)) ->
    exists order',
      orderOf oid (fst (statusSaved now status order db)) = Some order' /\
      snd (statusSaved now status order db)
      = Res.mk 200 "Order status updated successfully" (OrderDoc order') /\
      Order.status order' = status /\
      (status = "delivered" ->
         Order.actualDeliveryTime order' = Some now /\
         Order.paymentStatus order' = "paid" /\
         order' = markDelivered now (withStatus status order) /\
         User.role user = delivery_agent /\
         Order.deliveryAgent order = Some (User._id user)) /\
      (status <> "delivered" ->
         Order.actualDeliveryTime order' = Order.actualDeliveryTime order /\
         Order.paymentStatus order' = Order.paymentStatus order /\
         order' = withStatus status order) /\
      DB.orders (fst (statusSaved now status order db))
      = replaceFirst (byId oid) order' (DB.orders db) /\
      DB.restaurants (fst (statusSaved now status order db)) = DB.restaurants db /\
      DB.menuItems (fst (statusSaved now status order db)) = DB.menuItems db /\
      DB.carts (fst (statusSaved now status order db)) = DB.carts db /\
      DB.reviews (fst (statusSaved now status order db)) = DB.reviews db).
  { intros Hwho. exists (setStatus now status order).
    split; [now apply orderOf_statusSaved|]. split; [reflexivity|].
    split; [apply setStatus_status|].
    unfold statusSaved, setStatus. cbv zeta.
    destruct (String.eqb status "delivered") eqn:Hd.
    - apply String.eqb_eq in Hd. split; [|split].
      + intros _. destruct (Hwho Hd). repeat split; assumption.
      + intros Hn. contradiction.
      + simpl. rewrite Hid. repeat split.
    - apply String.eqb_neq in Hd. split; [|split].
      + intros He. contradiction.
      + intros _. repeat split.
      + simpl. rewrite Hid. repeat split. }
  destruct (User.role user) eqn:Hrole; try discriminate.
  - destruct (includes restaurantStatuses status) eqn:Hi; simpl in *; [|discriminate].
    destruct (restaurantOf order db) as [r|]; [|discriminate].
    destruct (negb _); [discriminate|]. apply Hsaved.
    intros ->. vm_compute in Hi. discriminate.
  - destruct (includes agentStatuses status) eqn:Hi; simpl in *; [|discriminate].
    destruct (optId_eqb _ _) eqn:Ha; simpl in *; [|discriminate].
    apply Hsaved. intros _. split; [reflexivity|now apply optId_eqb_true].
Qed.

(** The restaurant a populated order carries is the one [findById] of its
    id returns. *)
Lemma findById_populated (oid : option ObjectId) (r : Restaurant.t) (l : list Restaurant.t) :
  find (fun x => optId_eqb oid (Restaurant._id x)) l = Some r ->
  find (fun x => sameId (Restaurant._id r) (Restaurant._id x)) l = Some r.
Proof.
  intros H. pose proof (find_some _ _ H) as [_ Hr]. apply optId_eqb_true in Hr.
  now rewrite Hr in H.
Qed.

Lemma order_get_eq (user : User.t) (id : string) (db : DB.t) :
  run (order_get user id) db =
  match castObjectId id with
  | None => (db, Res.mk 500 "Cast to ObjectId failed" NoData)
  | Some oid =>
  match orderOf oid db with
  | None => (db, Res.mk 404 "Order not found" NoData)
  | Some order =>
    if Role_eqb (User.role user) restaurant_owner then
      match restaurantOf order db with
      | None => (db, Res.mk 500 "Cannot read properties of null" NoData)
      | Some r =>
        if negb (sameId (Restaurant.owner r) (User._id user))
        then (db, Res.mk 403 "Access denied" NoData)
        else (db, Res.mk 200 "" (OrderDoc order))
      end
    else if negb (sameId (Order.customer order) (User._id user)
                  || optId_eqb (Order.deliveryAgent order) (User._id user)
                  || Role_eqb (User.role user) admin)
    then (db, Res.mk 403 "Access denied" NoData)
    else (db, Res.mk 200 "" (OrderDoc order))
  end
  end.
Proof.
  unfold order_get, orderOf, restaurantOf, byId, run. hred.
  destruct (castObjectId id) as [oid|]; [|reflexivity]. simpl.
  destruct (find _ (DB.orders db)) as [order|]; [|reflexivity].
  destruct (Role_eqb (User.role user) restaurant_owner).
  - destruct (find _ (DB.restaurants db)) as [r|] eqn:Hf; [|reflexivity].
    simpl. rewrite (findById_populated _ _ _ Hf). simpl.
    destruct (sameId (Restaurant.owner r) (User._id user)); reflexivity.
  - destruct (negb _); reflexivity.
Qed.

(** C10: GET /api/orders/:id on an existing order.  A restaurant owner is
    let in exactly when the order's restaurant is theirs, and gets 403 for
    another owner's restaurant even as the order's customer or assigned
    agent; a caller of any other role is let in exactly when they are the
    order's customer, its assigned agent or an admin, and gets 403
    otherwise. *)
Theorem C10_order_access (user : User.t) (id : string) (oid : ObjectId) (db : DB.t)
    (order : Order.t) :
  castObjectId id = Some oid ->
  orderOf oid db = Some order ->
  let out := run (order_get user id) db in
  (User.role user = restaurant_owner ->
     (Res.status (snd out) = 200%nat <->
      exists r, restaurantOf order db = Some r /\ Restaurant.owner r = User._id user)
     /\ (forall r, restaurantOf order db = Some r -> Restaurant.owner r <> User._id user ->
           Res.status (snd out) = 403%nat)
     /\ (forall r, restaurantOf order db = Some r -> Restaurant.owner r <> User._id user ->
           Order.customer order = User._id user \/
           Order.deliveryAgent order = Some (User._id user) ->
           Res.status (snd out) = 403%nat))
  /\ (User.role user <> restaurant_owner ->
     (Res.status (snd out) = 200%nat <->
      Order.customer order = User._id user \/
      Order.deliveryAgent order = Some (User._id user) \/
      User.role user = admin)
     /\ (Res.status (snd out) <> 200%nat -> Res.status (snd out) = 403%nat))
  /\ (Res.status (snd out) = 200%nat -> snd out = Res.mk 200 "" (OrderDoc order))
  /\ fst out = db.
Proof.
  intros Hcast Ho out. subst out. rewrite order_get_eq, Hcast, Ho.
  split; [|split; [|split]].
  - intros ->. simpl Role_eqb. cbv iota.
    destruct (restaurantOf order db) as [r|].
    + destruct (sameId (Restaurant.owner r) (User._id user)) eqn:Hs; simpl.
      * apply sameId_true in Hs. split; [|split].
        -- split; [intros _; now exists r|reflexivity].
        -- intros r' [= <-] Hne. contradiction.
        -- intros r' [= <-] Hne. contradiction.
      * apply sameId_false in Hs. split; [|split].
        -- split; [discriminate|]. intros [r' [[= <-] He]]. contradiction.
        -- reflexivity.
        -- reflexivity.
    + split; [|split].
      * split; [discriminate|]. intros [r' [[=] _]].
      * intros r' [=].
      * intros r' [=].
  - intros Hrole.
    assert (Hno : Role_eqb (User.role user) restaurant_owner = false).
    { destruct (User.role user); try reflexivity. now contradiction Hrole. }
    rewrite Hno.
    destruct (sameId (Order.customer order) (User._id user)) eqn:Hc;
      destruct (optId_eqb (Order.deliveryAgent order) (User._id user)) eqn:Ha;
      destruct (Role_eqb (User.role user) admin) eqn:Had; simpl;
      rewrite ?sameId_true, ?sameId_false in Hc;
      rewrite ?optId_eqb_true, ?optId_eqb_false in Ha;
      (split; [split; [intros H; try discriminate; auto|intros H; try reflexivity]
              |intros H; try reflexivity; now contradiction H]);
      try (apply Role_eqb_true in Had; auto).
    destruct H as [H|[H|H]]; try contradiction.
    apply Role_eqb_true in H. congruence.
  - destruct (Role_eqb _ restaurant_owner).
    + destruct (restaurantOf order db) as [r|]; [|discriminate].
      destruct (negb _); [discriminate|reflexivity].
    + destruct (negb _); [discriminate|reflexivity].
  - destruct (Role_eqb _ restaurant_owner).
    + destruct (restaurantOf order db) as [r|]; [|reflexivity].
      destruct (negb _); reflexivity.
    + destruct (negb _); reflexivity.
Qed.

End Status.

(** * Reviews *)

Section Reviews.
Context {rt : Runtime}.

Lemma samePair_true (customer order : ObjectId) (r : Review.t) :
  samePair customer order r = true <->
  Review.customer r = customer /\ Review.order r = order.
Proof.
  unfold samePair. rewrite andb_true_iff, !sameId_true. reflexivity.
Qed.

Lemma find_none_existsb {A : Type} (p : A -> bool) (l : list A) :
  find p l = None -> existsb p l = false.
Proof.
  induction l as [|a l IH]; simpl; [reflexivity|].
  destruct (p a); [discriminate|exact IH].
Qed.


Lemma review_post_eq (user : User.t) (orderId : string)
    (restaurantRating deliveryRating : option Number)
    (restaurantComment deliveryComment : string) (db : DB.t) :
  User.role user = customer ->
  run (review_post user orderId restaurantRating deliveryRating
         restaurantComment deliveryComment) db =
  match castObjectId orderId with
  | None => (db, Res.mk 500 "Cast to ObjectId failed" NoData)
  | Some oid =>
  match orderOf oid db with
  | None => (db, Res.mk 404 "Order not found" NoData)
  | Some order =>
    if negb (sameId (Order.customer order) (User._id user))
    then (db, Res.mk 403 "Access denied" NoData)
    else if negb (String.eqb (Order.status order) "delivered")
    then (db, Res.mk 400 "Can only review delivered orders" NoData)
    else
      match find (samePair (User._id user) oid) (DB.reviews db) with
      | Some _ => (db, Res.mk 400 "Review already exists for this order" NoData)
      | None =>
        match restaurantRating with
        | None => (db, Res.mk 500 "Review validation failed" NoData)
        | Some rating =>
          let review :=
            Review.mk (User._id user) (Order.restaurant order) oid rating
                      deliveryRating restaurantComment deliveryComment true in
          if reviewSchema_validate review
          then (reviewStored review db, Res.mk 201 "Review created successfully" (ReviewDoc review))
          else (db, Res.mk 500 "Review validation failed" NoData)
        end
      end
  end
  end.
Proof.
  intros Hr. unfold review_post, run, bind at 1.
  rewrite authorize_ok by (rewrite Hr; reflexivity).
  unfold orderOf, byId, reviewStored. unfold Review_findOne, Review_save_new, Review_find,
    Restaurant_findByIdAndUpdate. hred.
  destruct (castObjectId orderId) as [oid|]; [|reflexivity]. simpl.
  destruct (find _ (DB.orders db)) as [order|]; [|reflexivity].
  destruct (sameId (Order.customer order) (User._id user)); simpl; [|reflexivity].
  destruct (String.eqb (Order.status order) "delivered"); simpl; [|reflexivity].
  destruct (find _ (DB.reviews db)) as [existing|] eqn:Hf; [reflexivity|].
  destruct restaurantRating as [rating|]; [|reflexivity].
  destruct (reviewSchema_validate _); [|reflexivity].
  simpl. rewrite (find_none_existsb _ _ Hf). reflexivity.
Qed.

(** C3, as the code has it: POST /api/reviews answers 500 for an order
    id that is not an ObjectId, 404 for an id of no order, 403 for another
    customer's order, 400 for an order that is not delivered and 400 when
    the customer has already reviewed the order; it succeeds only past all
    of them.  Whenever it does not answer 201 the store is unchanged: no
    review is added and no rating is touched.  The save itself refuses a
    second review of a (customer, order) pair, so the pairs stay unique. *)
Theorem C3_review_guards (user : User.t) (orderId : string)
    (restaurantRating deliveryRating : option Number)
    (restaurantComment deliveryComment : string) (db : DB.t) :
  User.role user = customer ->
  let out := run (review_post user orderId restaurantRating deliveryRating
                    restaurantComment deliveryComment) db in
  (castObjectId orderId = None -> Res.status (snd out) = 500%nat)
  /\ (forall oid, castObjectId orderId = Some oid ->
      (orderOf oid db = None -> Res.status (snd out) = 404%nat)
      /\ (forall order, orderOf oid db = Some order ->
            Order.customer order <> User._id user -> Res.status (snd out) = 403%nat)
      /\ (forall order, orderOf oid db = Some order ->
            Order.customer order = User._id user ->
            Order.status order <> "delivered" -> Res.status (snd out) = 400%nat)
      /\ (forall order review, orderOf oid db = Some order ->
            Order.customer order = User._id user ->
            Order.status order = "delivered" ->
            In review (DB.reviews db) ->
            Review.customer review = User._id user -> Review.order review = oid ->
            Res.status (snd out) = 400%nat))
  /\ (Res.status (snd out) = 201%nat ->
        exists oid order, castObjectId orderId = Some oid /\
          orderOf oid db = Some order /\
          Order.customer order = User._id user /\
          Order.status order = "delivered" /\
          forall review, In review (DB.reviews db) ->
            ~ (Review.customer review = User._id user /\ Review.order review = oid))
  /\ (Res.status (snd out) <> 201%nat -> fst out = db)
  /\ (forall review db0,
        (exists r0, In r0 (DB.reviews db0) /\
                    Review.customer r0 = Review.customer review /\
                    Review.order r0 = Review.order review) ->
        exists msg, Review_save_new review db0 = (db0, inl (Res.mk 500 msg NoData)))
  /\ (reviewsUnique db -> reviewsUnique (fst out)).
Proof.
  intros Hr out. subst out. rewrite (review_post_eq _ _ _ _ _ _ _ Hr).
  split; [intros ->; reflexivity|].
  split.
  { intros oid ->. split; [intros ->; reflexivity|].
    split.
    { intros order -> Hne. apply sameId_false in Hne. now rewrite Hne. }
    split.
    { intros order -> He Hs. rewrite He, sameId_refl. simpl.
      apply String.eqb_neq in Hs. now rewrite Hs. }
    intros order review -> He Hs Hin Hc Ho. rewrite He, sameId_refl, Hs. simpl.
    destruct (find _ (DB.reviews db)) as [x|] eqn:Hf; [reflexivity|].
    exfalso. apply (find_none _ _ Hf) in Hin.
    assert (samePair (User._id user) oid review = true) by now apply samePair_true.
    congruence. }
  destruct (castObjectId orderId) as [oid|];
    [|split; [discriminate|split; [reflexivity|split; [|auto]]]].
  2:{ intros review db0 [r0 [Hin [Hc Ho]]]. unfold Review_save_new.
      destruct (reviewSchema_validate review); [|eexists; reflexivity].
      unfold bind, read, ret, throw, send.
      assert (He : existsb (samePair (Review.customer review) (Review.order review))
                           (DB.reviews db0) = true).
      { apply existsb_exists. exists r0. split; [exact Hin|]. now apply samePair_true. }
      rewrite He. eexists; reflexivity. }
  split.
  { destruct (orderOf oid db) as [order|] eqn:Ho; [|discriminate].
    destruct (sameId (Order.customer order) (User._id user)) eqn:Hc; [|discriminate].
    destruct (String.eqb (Order.status order) "delivered") eqn:Hs; [|discriminate].
    simpl. destruct (find _ (DB.reviews db)) as [x|] eqn:Hf; [discriminate|].
    intros _. exists oid, order. split; [reflexivity|]. split; [exact Ho|].
    split; [now apply sameId_true|]. split; [now apply String.eqb_eq|].
    intros review Hin Hp. apply samePair_true in Hp.
    apply (find_none _ _ Hf) in Hin. congruence. }
  split.
  { destruct (orderOf oid db) as [order|]; [|reflexivity].
    destruct (negb _); [reflexivity|]. destruct (negb _); [reflexivity|].
    destruct (find _ (DB.reviews db)); [reflexivity|].
    destruct restaurantRating; [|reflexivity]. cbv zeta.
    destruct (reviewSchema_validate _); [|reflexivity].
    intros H. now contradiction H. }
  split.
  { intros review db0 [r0 [Hin [Hc Ho]]]. unfold Review_save_new.
    destruct (reviewSchema_validate review); [|eexists; reflexivity].
    unfold bind, read, ret, throw, send.
    assert (He : existsb (samePair (Review.customer review) (Review.order review))
                         (DB.reviews db0) = true).
    { apply existsb_exists. exists r0. split; [exact Hin|]. now apply samePair_true. }
    rewrite He. eexists; reflexivity. }
  intros Hu.
  destruct (orderOf oid db) as [order|]; [|exact Hu].
  destruct (negb _); [exact Hu|]. destruct (negb _); [exact Hu|].
  destruct (find _ (DB.reviews db)) eqn:Hf; [exact Hu|].
  destruct restaurantRating; [|exact Hu]. cbv zeta.
  destruct (reviewSchema_validate _); [|exact Hu].
  unfold reviewsUnique, reviewStored in *. simpl. rewrite map_app. simpl.
  apply NoDup_app; [exact Hu|constructor; [intros []|constructor]|].
  intros a Ha [<-|[]]. apply in_map_iff in Ha. destruct Ha as [r [Hr' Hin]].
  apply (find_none _ _ Hf) in Hin.
  assert (samePair (User._id user) oid r = true).
  { apply samePair_true. split; congruence. }
  congruence.
Qed.

(** ** The rating *)






End Reviews.

(** * The theorems on the sample data *)

Lemma sample_cartsUnique : cartsUnique Sample.db1.
Proof.
  unfold cartsUnique. simpl. constructor.
  - intros [H|[]]. discriminate H.
  - constructor; [intros []|constructor].
Defined.

(** Ids the store prints are cast to themselves. *)
Lemma cast_order1 : castObjectId Sample.order1 = Some Sample.order1.
Proof. vm_compute. reflexivity. Defined.

Lemma cast_pizzaId : castObjectId Sample.pizzaId = Some Sample.pizzaId.
Proof. vm_compute. reflexivity. Defined.



(** C2 at Alice's order, still [placed]: Dan, its agent, sets it to
    [delivered] directly and may set [picked_up]; Olga, who owns the
    trattoria, may set [accepted], [preparing] and [ready]; each gets 400
    for a status of the other's list. *)
Lemma C2_status_permissions_witness :
  castObjectId Sample.order1 = Some Sample.order1 /\
  orderOf Sample.order1 Sample.db2 = Some (Sample.aliceOrder "placed" (Some Sample.danId)) /\
  map (fun status =>
         Res.status (snd (run (order_put_status 99%Z Sample.dan Sample.order1 status)
                              Sample.db2)))
      ["delivered"; "picked_up"; "accepted"; "preparing"; "ready"; "placed"]
  = [200; 200; 400; 400; 400; 400]%nat /\
  map (fun status =>
         Res.status (snd (run (order_put_status 99%Z Sample.olga Sample.order1 status)
                              Sample.db2)))
      ["delivered"; "picked_up"; "accepted"; "preparing"; "ready"; "placed"]
  = [400; 400; 200; 200; 200; 400]%nat.
Proof.
  split; [reflexivity|]. split; [reflexivity|].
  assert (Hdan : Res.status (snd (run (order_put_status 99%Z Sample.dan Sample.order1
                                         "delivered") Sample.db2)) = 200%nat).
  { destruct (C2_status_permissions 99%Z Sample.dan Sample.order1 Sample.order1 "delivered"
                Sample.db2 (Sample.aliceOrder "placed" (Some Sample.danId)) cast_order1 eq_refl)
      as [_ [Hagent _]].
    destruct (Hagent eq_refl) as [Hiff _]. apply Hiff.
    split; [right; reflexivity|reflexivity]. }
  assert (Holga : Res.status (snd (run (order_put_status 99%Z Sample.olga Sample.order1
                                          "accepted") Sample.db2)) = 200%nat).
  { destruct (C2_status_permissions 99%Z Sample.olga Sample.order1 Sample.order1 "accepted"
                Sample.db2 (Sample.aliceOrder "placed" (Some Sample.danId)) cast_order1 eq_refl)
      as [Howner _].
    destruct (Howner eq_refl) as [Hiff _]. apply Hiff.
    split; [left; reflexivity|]. exists Sample.trattoria. split; reflexivity. }
  split.
  - cbn [map]. rewrite Hdan. vm_compute. reflexivity.
  - cbn [map]. rewrite Holga. vm_compute. reflexivity.
Defined.

(** C3 at Bob reviewing Alice's delivered order: refused, store unchanged. *)
Lemma C3_review_guards_witness :
  User.role Sample.bob = customer /\
  (let out := run (review_post Sample.bob Sample.order1 (Some 5) None "" "") Sample.db3 in
   Res.status (snd out) = 403%nat /\ fst out = Sample.db3).
Proof.
  split; [reflexivity|]. cbv zeta.
  destruct (C3_review_guards Sample.bob Sample.order1 (Some 5) None "" "" Sample.db3 eq_refl)
    as [_ [Hcast [_ [Hsame _]]]].
  destruct (Hcast Sample.order1 cast_order1) as [_ [H403 _]].
  split.
  - apply (H403 (Sample.aliceOrder "delivered" (Some Sample.danId))); [reflexivity|].
    simpl. discriminate.
  - apply Hsame. vm_compute. discriminate.
Defined.

(** C3 as stated fails: an order id that is not an ObjectId refers to no
    order, and the answer is 500, not 404. *)
Lemma C3_malformed_id_not_404 :
  castObjectId "nope" = None /\
  find (fun o => String.eqb (Order._id o) "nope") (DB.orders Sample.db3) = None /\
  run (review_post Sample.alice "nope" (Some 5) None "" "") Sample.db3
  = (Sample.db3, Res.mk 500 "Cast to ObjectId failed" NoData).
Proof. repeat split. Qed.


Lemma aliceCart_valid (item : CartItem.t) :
  In item (Cart.items Sample.aliceCart) -> (1 <=? CartItem.quantity item) = true.
Proof. intros [<-|[<-|[]]]; reflexivity. Defined.

(** C5 at Alice adding two pizzas to her cart of one pizza and two colas:
    the pizza line becomes three pizzas at its price, the cola line stays;
    and at Alice adding two pizzas with no cart yet: the cart is created. *)
Lemma C5_add_item_witness :
  User.role Sample.alice = customer /\
  castObjectId Sample.pizzaId = Some Sample.pizzaId /\
  (let out := run (cart_post Sample.alice Sample.pizzaId (Some (JNum 2))) Sample.db1 in
   Res.status (snd out) = 200%nat /\
   exists cart',
     cartOf Sample.aliceId (fst out) = Some cart' /\
     Cart.items cart'
     = [CartItem.mk Sample.pizzaId 3 120; CartItem.mk Sample.colaId 2 45]) /\
  (let out := run (cart_post Sample.alice Sample.pizzaId (Some (JNum 2))) Sample.db0 in
   Res.status (snd out) = 200%nat /\
   cartOf Sample.aliceId (fst out)
   = Some (Cart.mk Sample.aliceId (Some Sample.trattoriaId)
             [CartItem.mk Sample.pizzaId 2 120] 240)).
Proof.
  split; [reflexivity|]. split; [reflexivity|]. split.
  - cbv zeta.
    destruct (C5_add_item Sample.alice Sample.pizzaId (Some (JNum 2)) Sample.db1 eq_refl)
      as [_ [Hadd _]].
    destruct (Hadd Sample.pizzaId cast_pizzaId) as [_ Hfound].
    destruct (Hfound Sample.pizza Sample.trattoria eq_refl eq_refl eq_refl) as [_ Hnum].
    destruct (Hnum 2 eq_refl) as [_ [Hmerge _]].
    destruct (Hmerge Sample.aliceCart [] (CartItem.mk Sample.pizzaId 1 120)
                [CartItem.mk Sample.colaId 2 45] eq_refl (or_intror eq_refl) eq_refl)
      as [H200 [cart' [Hc [_ Hitems]]]].
    + intros item [].
    + reflexivity.
    + exact aliceCart_valid.
    + reflexivity.
    + split; [exact H200|]. exists cart'. split; [exact Hc|exact Hitems].
  - cbv zeta.
    destruct (C5_add_item Sample.alice Sample.pizzaId (Some (JNum 2)) Sample.db0 eq_refl)
      as [_ [Hadd _]].
    destruct (Hadd Sample.pizzaId cast_pizzaId) as [_ Hfound].
    destruct (Hfound Sample.pizza Sample.trattoria eq_refl eq_refl eq_refl) as [_ Hnum].
    destruct (Hnum 2 eq_refl) as [Hnew _].
    destruct Hnew as [H200 [_ Hcart]]; [reflexivity|reflexivity|].
    split; [exact H200|exact Hcart].
Defined.

(** C5 as stated fails: a menuItemId that is not an ObjectId is the id of
    no menu item, and the answer is 500, not 400. *)
Lemma C5_malformed_id_not_400 :
  castObjectId "nope" = None /\
  find (fun m => String.eqb (MenuItem._id m) "nope") (DB.menuItems Sample.db1) = None /\
  run (cart_post Sample.alice "nope" (Some (JNum 1))) Sample.db1
  = (Sample.db1, Res.mk 500 "Cast to ObjectId failed" NoData).
Proof. repeat split. Qed.


(** C8 at Dan delivering Alice's order at time 99. *)
Lemma C8_delivered_effect_witness :
  castObjectId Sample.order1 = Some Sample.order1 /\
  orderOf Sample.order1 Sample.db2 = Some (Sample.aliceOrder "placed" (Some Sample.danId)) /\
  (let out := run (order_put_status 99%Z Sample.dan Sample.order1 "delivered") Sample.db2 in
   Res.status (snd out) = 200%nat /\
   exists order',
     orderOf Sample.order1 (fst out) = Some order' /\
     Order.actualDeliveryTime order' = Some 99%Z /\
     Order.paymentStatus order' = "paid").
Proof.
  split; [reflexivity|]. split; [reflexivity|]. cbv zeta.
  assert (H200 : Res.status (snd (run (order_put_status 99%Z Sample.dan Sample.order1
                                         "delivered") Sample.db2)) = 200%nat)
    by (vm_compute; reflexivity).
  split; [exact H200|].
  destruct (C8_delivered_effect 99%Z Sample.dan Sample.order1 Sample.order1 "delivered"
              Sample.db2 (Sample.aliceOrder "placed" (Some Sample.danId)) cast_order1 eq_refl H200)
    as [order' [Ho [_ [_ [Hd _]]]]].
  exists order'. destruct (Hd eq_refl) as [Ht [Hp _]]. now split.
Defined.

(** C9 at the store after Alice's first add. *)
Lemma C9_quantities_witness :
  reachable (fst (cartApi (Sample.addPizza Sample.alice) Sample.db0)) /\
  quantitiesOk (fst (cartApi (Sample.addPizza Sample.alice) Sample.db0)).
Proof.
  assert (Hreach : reachable (fst (cartApi (Sample.addPizza Sample.alice) Sample.db0))).
  { apply reach_cart. apply reach_start. reflexivity. }
  split; [exact Hreach|]. exact (proj1 C9_quantities _ Hreach).
Defined.

(** C9 as stated fails: a quantity of 0.5 is below 1, and the update
    handler does not answer it with 400 (the guard lets it through and the
    save refuses it). *)
Lemma C9_half_quantity_not_400 :
  (0.5 <? 1) = true /\
  cartOf Sample.aliceId Sample.db1 = Some Sample.aliceCart /\
  find (sameLine Sample.pizzaId) (Cart.items Sample.aliceCart)
  = Some (CartItem.mk Sample.pizzaId 1 120) /\
  (0.5 <=? 0) = false /\
  snd (cartApi (Sample.halfPizza Sample.alice) Sample.db1)
  = Res.mk 500 "Cart validation failed" NoData.
Proof. repeat split. Qed.

(** C10 at an owner's account that is the order's customer but does not
    own its restaurant: 403. *)
Lemma C10_order_access_witness :
  castObjectId Sample.order1 = Some Sample.order1 /\
  orderOf Sample.order1 Sample.db2 = Some (Sample.aliceOrder "placed" (Some Sample.danId)) /\
  Order.customer (Sample.aliceOrder "placed" (Some Sample.danId))
  = User._id Sample.aliceAsOwner /\
  Res.status (snd (run (order_get Sample.aliceAsOwner Sample.order1) Sample.db2)) = 403%nat.
Proof.
  split; [reflexivity|]. split; [reflexivity|]. split; [reflexivity|].
  destruct (C10_order_access Sample.aliceAsOwner Sample.order1 Sample.order1 Sample.db2
              (Sample.aliceOrder "placed" (Some Sample.danId)) cast_order1 eq_refl) as [Howner _].
  destruct (Howner eq_refl) as [_ [H403 _]].
  apply (H403 Sample.trattoria); [reflexivity|]. simpl. discriminate.
Defined.

(** * One customer's requests and another customer's cart *)

Section FindOther.
Context {A : Type}.
Variables p q : A -> bool.
Hypothesis apart : forall x, p x = true -> q x = false.

Lemma find_replaceFirst_other (y : A) (l : list A) :
  q y = false -> find q (replaceFirst p y l) = find q l.
Proof.
  intros Hy. induction l as [|a l IH]; simpl; [reflexivity|].
  destruct (p a) eqn:Ha; simpl.
  - now rewrite Hy, (apart a Ha).
  - now rewrite IH.
Qed.

Lemma find_removeFirst_other (l : list A) :
  find q (removeFirst p l) = find q l.
Proof.
  induction l as [|a l IH]; simpl; [reflexivity|].
  destruct (p a) eqn:Ha; simpl.
  - now rewrite (apart a Ha).
  - now rewrite IH.
Qed.

End FindOther.

Lemma find_snoc_other {A : Type} (q : A -> bool) (y : A) (l : list A) :
  q y = false -> find q (l ++ [y]) = find q l.
Proof.
  intros Hy. induction l as [|a l IH]; simpl.
  - now rewrite Hy.
  - now rewrite IH.
Qed.

Section Isolation.
Context {rt : Runtime}.

Lemma byUser_apart (user other : ObjectId) :
  other <> user -> forall c, byUser user c = true -> byUser other c = false.
Proof.
  intros Hne c Hc. unfold byUser in *. apply sameId_true in Hc.
  apply sameId_false. congruence.
Qed.

Lemma saveAndAnswer_other (isNew : bool) (c : Cart.t) (msg : string) (db : DB.t)
    (other : ObjectId) :
  other <> Cart.user c ->
  cartOf other (fst (saveAndAnswer isNew c msg db)) = cartOf other db.
Proof.
  intros Hne. unfold saveAndAnswer.
  destruct (cartSchema_validate c); [|reflexivity].
  unfold cartOf. simpl.
  assert (Hs : byUser other (savedCart c) = false).
  { unfold byUser. simpl. apply sameId_false. congruence. }
  destruct isNew.
  - now apply find_snoc_other.
  - apply find_replaceFirst_other; [|exact Hs]. now apply byUser_apart.
Qed.

Lemma order_post_other (schema : OrderSchema.t) (now : Date) (newId : ObjectId)
    (user : User.t) (deliveryAddress paymentMethod notes : string) (db : DB.t)
    (other : ObjectId) :
  other <> User._id user ->
  cartOf other
    (fst (run (order_post schema now newId user deliveryAddress paymentMethod notes) db))
  = cartOf other db.
Proof.
  intros Hne. destruct (Role_eqb (User.role user) customer) eqn:Hr.
  - apply Role_eqb_true in Hr. rewrite (order_post_eq _ _ _ _ _ _ _ _ Hr).
    destruct (cartOf (User._id user) db) as [cart|]; [|reflexivity].
    destruct (Nat.eqb _ 0); [reflexivity|].
    destruct (snapshotAll _ _) as [items|]; [|reflexivity].
    cbv zeta. destruct (OrderSchema.validate schema _); [|reflexivity].
    unfold cartOf. simpl. apply find_removeFirst_other. now apply byUser_apart.
  - unfold order_post. rewrite run_authorize. simpl. now rewrite Hr.
Qed.

(** X1: no request to the cart router and no order placement changes the
    cart of anyone but the caller. *)
Theorem X1_cart_isolation (req : Req.t) (other : ObjectId) (db : DB.t) :
  other <> User._id (Req.user req) ->
  cartOf other (fst (cartApi req db)) = cartOf other db
  /\ forall schema now newId deliveryAddress paymentMethod notes,
       cartOf other
         (fst (run (order_post schema now newId (Req.user req)
                      deliveryAddress paymentMethod notes) db))
       = cartOf other db.
Proof.
  intros Hne. split; [|intros; now apply order_post_other].
  unfold cartApi. rewrite dispatch_cartRouter.
  set (user := Req.user req) in *.
  assert (Hget : cartOf other (fst (run (cart_get user) db)) = cartOf other db)
    by now rewrite cart_get_same.
  assert (Hpost : forall m q,
    cartOf other (fst (run (cart_post user m q) db)) = cartOf other db).
  { intros m q. destruct (Role_eqb (User.role user) customer) eqn:Hr.
    - apply Role_eqb_true in Hr. rewrite (cart_post_eq _ _ _ _ Hr). cbv zeta.
      destruct (castObjectId m) as [oid|]; [|reflexivity].
      destruct (menuItemOf oid db) as [mi|]; [|reflexivity].
      destruct (negb _); [reflexivity|].
      destruct (cartOf (User._id user) db) as [cart|] eqn:Hc;
        destruct (find _ (DB.restaurants db)) as [r|]; try reflexivity.
      + pose proof (byUser_user _ _ _ Hc) as Hcu.
        destruct (Cart.restaurant cart) as [cr|].
        * destruct (negb _); [reflexivity|]. unfold addAndAnswer.
          destruct (addLine _ _ _ _); [|reflexivity].
          apply saveAndAnswer_other. simpl. congruence.
        * unfold addAndAnswer. destruct (addLine _ _ _ _); [|reflexivity].
          apply saveAndAnswer_other. simpl. congruence.
      + destruct (castNumber _); [|reflexivity].
        apply saveAndAnswer_other. exact Hne.
    - unfold cart_post. rewrite run_authorize. simpl. now rewrite Hr. }
  assert (Hput : forall i q,
    cartOf other (fst (run (cart_put user i q) db)) = cartOf other db).
  { intros i q. destruct (Role_eqb (User.role user) customer) eqn:Hr.
    - apply Role_eqb_true in Hr. rewrite (cart_put_eq _ _ _ _ Hr).
      destruct (match q with Some v => ToNumber v <=? 0 | None => false end); [reflexivity|].
      destruct (cartOf (User._id user) db) as [cart|] eqn:Hc; [|reflexivity].
      destruct (find _ (Cart.items cart)) as [item|]; [|reflexivity].
      destruct (match q with Some v => castNumber v | None => None end); [|reflexivity].
      pose proof (byUser_user _ _ _ Hc) as Hcu.
      apply saveAndAnswer_other. simpl. congruence.
    - unfold cart_put. rewrite run_authorize. simpl. now rewrite Hr. }
  assert (Hdel : forall i,
    cartOf other (fst (run (cart_delete_item user i) db)) = cartOf other db).
  { intros i. destruct (Role_eqb (User.role user) customer) eqn:Hr.
    - apply Role_eqb_true in Hr. rewrite (cart_delete_item_eq _ _ _ Hr).
      destruct (cartOf (User._id user) db) as [cart|] eqn:Hc; [|reflexivity].
      pose proof (byUser_user _ _ _ Hc) as Hcu.
      apply saveAndAnswer_other. simpl. congruence.
    - unfold cart_delete_item. rewrite run_authorize. simpl. now rewrite Hr. }
  destruct (Req.method req); destruct (Req.path req) as [|x [|y p]];
    first [reflexivity | exact Hget | apply Hpost | apply Hput | apply Hdel].
Qed.

End Isolation.

(** X1 at Bob's cart while Alice removes her pizza. *)
Lemma X1_cart_isolation_witness :
  Sample.bobId <> User._id (Req.user (Req.mk DELETE [Sample.pizzaId] Sample.alice "" None)) /\
  cartOf Sample.bobId
    (fst (cartApi (Req.mk DELETE [Sample.pizzaId] Sample.alice "" None) Sample.db1))
  = Some Sample.bobCart.
Proof.
  assert (Hne : Sample.bobId
                <> User._id (Req.user (Req.mk DELETE [Sample.pizzaId] Sample.alice "" None)))
    by (simpl; discriminate).
  split; [exact Hne|].
  rewrite (proj1 (X1_cart_isolation (Req.mk DELETE [Sample.pizzaId] Sample.alice "" None)
                    Sample.bobId Sample.db1 Hne)).
  reflexivity.
Defined.

(** * The shape of the carts the API stores *)

Section Shapes.
Context {rt : Runtime}.

Lemma replaceFirst_nil {A : Type} (p : A -> bool) (y : A) (l : list A) :
  replaceFirst p y l = [] <-> l = [].
Proof.
  destruct l as [|a l]; simpl; [tauto|].
  destruct (p a); split; discriminate.
Qed.

Lemma addLine_not_nil (id : string) (q : JSON) (price : Number)
    (items items' : list CartItem.t) :
  addLine id q price items = Some items' -> items' <> [].
Proof.
  unfold addLine. destruct (find (sameLine id) items) as [e|] eqn:Hf.
  - destruct (castNumber _); [|discriminate]. intros [= <-] E.
    apply replaceFirst_nil in E. subst. discriminate.
  - destruct (castLine _ _ _); [|discriminate]. intros [= <-] E.
    apply app_eq_nil in E. destruct E as [_ E]. discriminate.
Qed.

Lemma saveAndAnswer_shape (isNew : bool) (c : Cart.t) (msg : string) (db : DB.t) :
  shapesOk db -> cartShape c -> shapesOk (fst (saveAndAnswer isNew c msg db)).
Proof.
  intros Hs Hc. unfold saveAndAnswer.
  destruct (cartSchema_validate c); [|exact Hs].
  intros d Hd. simpl in Hd.
  assert (Hcases : d = savedCart c \/ In d (DB.carts db)).
  { destruct isNew.
    - apply in_app_or in Hd. destruct Hd as [Hd|[Hd|[]]]; auto.
    - now apply In_replaceFirst in Hd. }
  destruct Hcases as [->|Hin]; [exact Hc|now apply Hs].
Qed.

Lemma shape_some (r : ObjectId) (items : list CartItem.t) (user : ObjectId) (t : Number) :
  items <> [] -> cartShape (Cart.mk user (Some r) items t).
Proof. intros Hne. unfold cartShape. simpl. split; [discriminate|contradiction]. Qed.

Lemma addAndAnswer_shape (menuItemId : string) (quantity : JSON) (price : Number)
    (cart : Cart.t) (r : ObjectId) (db : DB.t) :
  shapesOk db -> shapesOk (fst (addAndAnswer menuItemId quantity price cart (Some r) db)).
Proof.
  intros H. unfold addAndAnswer.
  destruct (addLine _ _ _ _) as [items|] eqn:Ha; [|exact H].
  apply saveAndAnswer_shape; [exact H|].
  apply shape_some. exact (addLine_not_nil _ _ _ _ _ Ha).
Qed.

Lemma cart_post_shape (user : User.t) (menuItemId : string) (q : option JSON) (db : DB.t) :
  shapesOk db -> shapesOk (fst (run (cart_post user menuItemId q) db)).
Proof.
  intros H. destruct (Role_eqb (User.role user) customer) eqn:Hr.
  - apply Role_eqb_true in Hr. rewrite (cart_post_eq _ _ _ _ Hr). cbv zeta.
    destruct (castObjectId menuItemId) as [oid|]; [|exact H].
    destruct (menuItemOf oid db) as [m|]; [|exact H].
    destruct (negb _); [exact H|].
    destruct (cartOf (User._id user) db) as [cart|] eqn:Hc;
      destruct (find _ (DB.restaurants db)) as [r|]; try exact H.
    + destruct (Cart.restaurant cart) as [cr|].
      * destruct (negb _); [exact H|]. now apply addAndAnswer_shape.
      * now apply addAndAnswer_shape.
    + destruct (castNumber _); [|exact H].
      apply saveAndAnswer_shape; [exact H|].
      apply shape_some. discriminate.
  - unfold cart_post. rewrite run_authorize. simpl. rewrite Hr. exact H.
Qed.

Lemma cart_put_shape (user : User.t) (itemId : string) (q : option JSON) (db : DB.t) :
  shapesOk db -> shapesOk (fst (run (cart_put user itemId q) db)).
Proof.
  intros H. destruct (Role_eqb (User.role user) customer) eqn:Hr.
  - apply Role_eqb_true in Hr. rewrite (cart_put_eq _ _ _ _ Hr).
    destruct (match q with Some v => ToNumber v <=? 0 | None => false end); [exact H|].
    destruct (cartOf (User._id user) db) as [cart|] eqn:Hc; [|exact H].
    destruct (find _ (Cart.items cart)) as [item|] eqn:Hf; [|exact H].
    destruct (match q with Some v => castNumber v | None => None end); [|exact H].
    apply saveAndAnswer_shape; [exact H|].
    apply find_some in Hc. destruct Hc as [Hin _]. pose proof (H cart Hin) as Hiff.
    unfold cartShape in *. simpl. rewrite replaceFirst_nil. exact Hiff.
  - unfold cart_put. rewrite run_authorize. simpl. rewrite Hr. exact H.
Qed.

Lemma cart_delete_item_shape (user : User.t) (itemId : string) (db : DB.t) :
  shapesOk db -> shapesOk (fst (run (cart_delete_item user itemId) db)).
Proof.
  intros H. destruct (Role_eqb (User.role user) customer) eqn:Hr.
  - apply Role_eqb_true in Hr. rewrite (cart_delete_item_eq _ _ _ Hr).
    destruct (cartOf (User._id user) db) as [cart|] eqn:Hc; [|exact H].
    cbv zeta. apply saveAndAnswer_shape; [exact H|].
    apply find_some in Hc. destruct Hc as [Hin _]. pose proof (H cart Hin) as Hiff.
    unfold cartShape in *. simpl.
    destruct (Nat.eqb (length (withoutLine itemId (Cart.items cart))) 0) eqn:E.
    + apply length_zero_nil in E. tauto.
    + assert (Hne : withoutLine itemId (Cart.items cart) <> []).
      { intros E'. apply length_zero_nil in E'. congruence. }
      split; [|contradiction]. intros Hnone. apply Hiff in Hnone.
      rewrite Hnone in Hne. now contradiction Hne.
  - unfold cart_delete_item. rewrite run_authorize. simpl. rewrite Hr. exact H.
Qed.

Lemma order_post_shape (schema : OrderSchema.t) (now : Date) (newId : ObjectId)
    (user : User.t) (deliveryAddress paymentMethod notes : string) (db : DB.t) :
  shapesOk db ->
  shapesOk (fst (run (order_post schema now newId user deliveryAddress paymentMethod notes) db)).
Proof.
  intros H. destruct (Role_eqb (User.role user) customer) eqn:Hr.
  - apply Role_eqb_true in Hr. rewrite (order_post_eq _ _ _ _ _ _ _ _ Hr).
    destruct (cartOf (User._id user) db) as [cart|]; [|exact H].
    destruct (Nat.eqb _ 0); [exact H|].
    destruct (snapshotAll _ _) as [items|]; [|exact H].
    cbv zeta. destruct (OrderSchema.validate schema _); [|exact H].
    intros c Hc. simpl in Hc. apply In_removeFirst in Hc. now apply H.
  - unfold order_post. rewrite run_authorize. simpl. rewrite Hr. exact H.
Qed.

Lemma reachable_shapesOk (db : DB.t) : reachable db -> shapesOk db.
Proof.
  induction 1 as [db H|db req _ IH|db schema now newId user a p n _ IH|db db' _ IH H].
  - intros c Hc. rewrite H in Hc. destruct Hc.
  - unfold cartApi. rewrite dispatch_cartRouter.
    destruct (Req.method req); destruct (Req.path req) as [|x [|y p]];
      try exact IH;
      first [ rewrite cart_get_same; exact IH
            | now apply cart_post_shape
            | now apply cart_put_shape
            | now apply cart_delete_item_shape ].
  - now apply order_post_shape.
  - intros c Hc. rewrite H in Hc. now apply IH.
Qed.

(** X2: in every store the API reaches, a cart is without restaurant
    exactly when it is without lines. *)
Theorem X2_restaurant_iff_lines (db : DB.t) (c : Cart.t) :
  reachable db -> In c (DB.carts db) ->
  (Cart.restaurant c = None <-> Cart.items c = []).
Proof. intros Hr Hc. exact (reachable_shapesOk db Hr c Hc). Qed.

(** X3: a cart can hold two lines of one menu item.  POST /api/cart finds
    the menu item through the cast of [menuItemId], but looks for the
    cart's line of it by comparing the references, printed, with the
    string as it came.  When the cart has a line of the menu item and no
    reference prints as the request spells the id, the quantity is not
    added to that line: a second line of the same menu item is appended. *)
Theorem X3_second_line (user : User.t) (menuItemId : string) (oid : ObjectId) (q : Number)
    (db : DB.t) (cart : Cart.t) (line : CartItem.t) (m : MenuItem.t) (r : Restaurant.t) :
  User.role user = customer ->
  castObjectId menuItemId = Some oid ->
  menuItemOf oid db = Some m ->
  MenuItem.isAvailable m = true ->
  find (fun x => sameId (MenuItem.restaurant m) (Restaurant._id x)) (DB.restaurants db)
    = Some r ->
  cartOf (User._id user) db = Some cart ->
  Cart.restaurant cart = Some (MenuItem.restaurant m) ->
  In line (Cart.items cart) -> CartItem.menuItem line = oid ->
  (forall item, In item (Cart.items cart) -> CartItem.menuItem item <> menuItemId) ->
  (forall item, In item (Cart.items cart) -> (1 <=? CartItem.quantity item) = true) ->
  (1 <=? q) = true ->
  let out := run (cart_post user menuItemId (Some (JNum q))) db in
  Res.status (snd out) = 200%nat /\
  exists cart',
    cartOf (User._id user) (fst out) = Some cart' /\
    Cart.items cart' = Cart.items cart ++ [CartItem.mk oid q (MenuItem.price m)] /\
    In line (Cart.items cart') /\
    ~ NoDup (map CartItem.menuItem (Cart.items cart')).
Proof.
  intros Hr Hcast Hm Ha Hp Hc Hcr Hin Hline Hno Hold Hq out. subst out.
  rewrite (cart_post_eq _ _ _ _ Hr). cbv zeta.
  rewrite Hcast, Hm, Ha, Hp, Hc, Hcr. simpl negb. cbv iota.
  rewrite (populated_id _ _ _ Hp), sameId_refl. simpl negb. cbv iota.
  unfold addAndAnswer. rewrite (addLine_append _ _ _ _ _ Hcast Hno Hq).
  set (c := Cart.mk _ _ _ _).
  assert (Hv : cartSchema_validate c = true).
  { apply validate_iff. intros item Hi. simpl in Hi.
    apply in_app_or in Hi. destruct Hi as [Hi|[<-|[]]]; [now apply Hold|exact Hq]. }
  destruct (saveAndAnswer_loaded c cart "Item added to cart" db _ Hc eq_refl Hv) as [He Hc'].
  split; [now rewrite He|]. exists (savedCart c). split; [exact Hc'|].
  split; [reflexivity|]. split.
  - simpl. apply in_or_app. now left.
  - simpl. rewrite map_app. simpl. intros Hnd.
    apply NoDup_remove_2 in Hnd. apply Hnd. rewrite app_nil_r.
    rewrite <- Hline. now apply in_map.
Qed.

End Shapes.

(** The store after Alice added two pizzas, then two more. *)
Lemma sample_reachable :
  reachable (fst (cartApi (Sample.addPizza Sample.alice)
                    (fst (cartApi (Sample.addPizza Sample.alice) Sample.db0)))).
Proof. do 2 apply reach_cart. apply reach_start. reflexivity. Defined.

Lemma X2_restaurant_iff_lines_witness :
  let db := fst (cartApi (Sample.addPizza Sample.alice)
                   (fst (cartApi (Sample.addPizza Sample.alice) Sample.db0))) in
  let c := Cart.mk Sample.aliceId (Some Sample.trattoriaId)
             [CartItem.mk Sample.pizzaId 4 120] 480 in
  reachable db /\ In c (DB.carts db) /\
  (Cart.restaurant c = None <-> Cart.items c = []).
Proof.
  cbv zeta. split; [exact sample_reachable|].
  assert (Hin : In (Cart.mk Sample.aliceId (Some Sample.trattoriaId)
                      [CartItem.mk Sample.pizzaId 4 120] 480)
                   (DB.carts (fst (cartApi (Sample.addPizza Sample.alice)
                      (fst (cartApi (Sample.addPizza Sample.alice) Sample.db0)))))).
  { left. vm_compute. reflexivity. }
  split; [exact Hin|]. exact (X2_restaurant_iff_lines _ _ sample_reachable Hin).
Defined.

(** X3 at Alice adding a pizza under the id in upper case: her cart of one
    pizza and two colas gets a third line, a second one of the pizza. *)
Lemma X3_second_line_witness :
  castObjectId Sample.pizzaIdUpper = Some Sample.pizzaId /\
  (let out := run (cart_post Sample.alice Sample.pizzaIdUpper (Some (JNum 1))) Sample.db1 in
   Res.status (snd out) = 200%nat /\
   exists cart',
     cartOf Sample.aliceId (fst out) = Some cart' /\
     Cart.items cart'
     = [CartItem.mk Sample.pizzaId 1 120; CartItem.mk Sample.colaId 2 45;
        CartItem.mk Sample.pizzaId 1 120]).
Proof.
  assert (Hcast : castObjectId Sample.pizzaIdUpper = Some Sample.pizzaId)
    by (vm_compute; reflexivity).
  split; [exact Hcast|]. cbv zeta.
  destruct (X3_second_line Sample.alice Sample.pizzaIdUpper Sample.pizzaId 1 Sample.db1
              Sample.aliceCart (CartItem.mk Sample.pizzaId 1 120) Sample.pizza
              Sample.trattoria eq_refl Hcast eq_refl eq_refl eq_refl eq_refl eq_refl
              (or_introl eq_refl) eq_refl)
    as [H200 [cart' [Hc [Hitems _]]]].
  - intros item [<-|[<-|[]]]; simpl; discriminate.
  - exact aliceCart_valid.
  - reflexivity.
  - split; [exact H200|]. exists cart'. split; [exact Hc|exact Hitems].
Defined.

(** * Orders against a changing menu, and placed twice *)

Section Menu.
Context {rt : Runtime}.

(** X4: when a line of the caller's cart refers to a menu item that no
    longer exists, POST /api/orders answers 500 and changes nothing: no
    order is created and the cart stays as it is. *)
Theorem X4_missing_item_blocks_order (schema : OrderSchema.t) (now : Date)
    (newId : ObjectId) (user : User.t) (deliveryAddress paymentMethod notes : string)
    (db : DB.t) (cart : Cart.t) (line : CartItem.t) :
  User.role user = customer ->
  cartOf (User._id user) db = Some cart ->
  In line (Cart.items cart) ->
  find (fun m => sameId (MenuItem._id m) (CartItem.menuItem line)) (DB.menuItems db) = None ->
  let out := run (order_post schema now newId user deliveryAddress paymentMethod notes) db in
  Res.status (snd out) = 500%nat /\ fst out = db /\
  cartOf (User._id user) (fst out) = Some cart.
Proof.
  intros Hr Hc Hin Hf out. subst out.
  rewrite (order_post_missing _ _ _ _ _ _ _ _ _ _ Hr Hc Hin Hf).
  repeat split. exact Hc.
Qed.

(** X5: an order can be placed from a cart only once.  After a placement
    that answered 201, the same customer's next POST /api/orders answers
    400 "Cart is empty" and changes nothing. *)
Theorem X5_second_order_refused (schema schema' : OrderSchema.t) (now now' : Date)
    (newId newId' : ObjectId) (user : User.t)
    (deliveryAddress paymentMethod notes deliveryAddress' paymentMethod' notes' : string)
    (db : DB.t) :
  User.role user = customer ->
  cartsUnique db ->
  let out := run (order_post schema now newId user deliveryAddress paymentMethod notes) db in
  Res.status (snd out) = 201%nat ->
  run (order_post schema' now' newId' user deliveryAddress' paymentMethod' notes') (fst out)
  = (fst out, Res.mk 400 "Cart is empty" NoData).
Proof.
  intros Hr Hu out H201.
  assert (Hgone : cartOf (User._id user) (fst out) = None).
  { subst out. revert H201. rewrite (order_post_eq _ _ _ _ _ _ _ _ Hr).
    destruct (cartOf (User._id user) db) as [cart|]; [|discriminate].
    destruct (Nat.eqb _ 0); [discriminate|].
    destruct (snapshotAll _ _) as [items|]; [|discriminate].
    cbv zeta. destruct (OrderSchema.validate schema _); [|discriminate].
    intros _. unfold cartOf. simpl. now apply find_removeFirst_unique. }
  rewrite (order_post_eq _ _ _ _ _ _ _ _ Hr), Hgone. reflexivity.
Qed.

(** ** Deleting a menu item *)

Lemma menu_delete_eq (user : User.t) (id : string) (db : DB.t) :
  run (menu_delete user id) db =
  if existsb (Role_eqb (User.role user)) [restaurant_owner] then
    match castObjectId id with
    | None => (db, Res.mk 500 "Cast to ObjectId failed" NoData)
    | Some oid =>
      match menuItemOf oid db with
      | None => (db, Res.mk 404 "Menu item not found" NoData)
      | Some m =>
        match find (fun r => sameId (MenuItem.restaurant m) (Restaurant._id r))
                   (DB.restaurants db) with
        | None => (db, Res.mk 500 "Cannot read properties of null" NoData)
        | Some r =>
          if negb (sameId (Restaurant.owner r) (User._id user))
          then (db, Res.mk 403 "Access denied" NoData)
          else
            (DB.with_menuItems
               (removeFirst (fun m => sameId (MenuItem._id m) oid) (DB.menuItems db)) db,
             Res.mk 200 "Menu item deleted successfully" NoData)
        end
      end
    end
  else (db, Res.mk 403 "Access denied" NoData).
Proof.
  unfold menu_delete. rewrite run_authorize.
  destruct (existsb _ _); [|reflexivity].
  unfold run, menuItemOf. hred.
  destruct (castObjectId id) as [oid|]; [|reflexivity]. simpl.
  destruct (find _ (DB.menuItems db)) as [m|] eqn:Hm; [|reflexivity].
  destruct (find _ (DB.restaurants db)) as [r|]; [|reflexivity].
  simpl. destruct (sameId (Restaurant.owner r) (User._id user)); [|reflexivity].
  simpl. apply find_some in Hm. destruct Hm as [_ Hm]. apply sameId_true in Hm.
  now rewrite Hm.
Qed.

Lemma find_removeFirst_menu (id : ObjectId) (l : list MenuItem.t) :
  NoDup (map MenuItem._id l) ->
  find (fun m => sameId (MenuItem._id m) id)
       (removeFirst (fun m => sameId (MenuItem._id m) id) l) = None.
Proof.
  induction l as [|a l IH]; simpl; intros H; [reflexivity|].
  inversion H as [|? ? Hn Hd]; subst.
  destruct (sameId (MenuItem._id a) id) eqn:Ha.
  - apply sameId_true in Ha.
    destruct (find _ l) as [d|] eqn:Hf; [|reflexivity].
    apply find_some in Hf. destruct Hf as [Hin Hd']. apply sameId_true in Hd'.
    exfalso. apply Hn. rewrite Ha, <- Hd'. now apply in_map.
  - simpl. rewrite Ha. now apply IH.
Qed.

(** X6: DELETE /api/menu/:id succeeds exactly for a restaurant owner who
    owns the restaurant of an existing item; for a restaurant owner it
    answers 500 for an id that is not an ObjectId, 404 for an id of no
    menu item and 403 for an item of someone else's restaurant; unless it
    answers 200 the store is unchanged, and when it does it removes that
    menu item and touches nothing else: the carts that hold the item keep
    their line. *)
Theorem X6_menu_delete (user : User.t) (id : string) (db : DB.t) :
  let out := run (menu_delete user id) db in
  (Res.status (snd out) = 200%nat <->
   User.role user = restaurant_owner /\
   exists oid m r, castObjectId id = Some oid /\ menuItemOf oid db = Some m /\
     find (fun r => sameId (MenuItem.restaurant m) (Restaurant._id r)) (DB.restaurants db)
       = Some r /\
     Restaurant.owner r = User._id user)
  /\ (User.role user = restaurant_owner -> castObjectId id = None ->
      Res.status (snd out) = 500%nat)
  /\ (User.role user = restaurant_owner ->
      forall oid, castObjectId id = Some oid -> menuItemOf oid db = None ->
        Res.status (snd out) = 404%nat)
  /\ (User.role user = restaurant_owner ->
      forall oid m r, castObjectId id = Some oid -> menuItemOf oid db = Some m ->
        find (fun r => sameId (MenuItem.restaurant m) (Restaurant._id r)) (DB.restaurants db)
          = Some r ->
        Restaurant.owner r <> User._id user -> Res.status (snd out) = 403%nat)
  /\ (User.role user <> restaurant_owner -> Res.status (snd out) = 403%nat)
  /\ (Res.status (snd out) <> 200%nat -> fst out = db)
  /\ (Res.status (snd out) = 200%nat ->
      forall oid, castObjectId id = Some oid ->
      DB.menuItems (fst out)
      = removeFirst (fun m => sameId (MenuItem._id m) oid) (DB.menuItems db) /\
      DB.carts (fst out) = DB.carts db /\
      DB.orders (fst out) = DB.orders db /\
      DB.restaurants (fst out) = DB.restaurants db /\
      DB.reviews (fst out) = DB.reviews db /\
      (NoDup (map MenuItem._id (DB.menuItems db)) -> menuItemOf oid (fst out) = None)).
Proof.
  cbv zeta. rewrite menu_delete_eq.
  assert (Hother : User.role user <> restaurant_owner ->
            existsb (Role_eqb (User.role user)) [restaurant_owner] = false).
  { destruct (User.role user); simpl; intros H; congruence. }
  destruct (Role_eqb (User.role user) restaurant_owner) eqn:Hrole.
  2:{ assert (Hne : User.role user <> restaurant_owner).
      { intros E. apply Role_eqb_true in E. congruence. }
      rewrite (Hother Hne).
      split; [split; [discriminate|intros [E _]; contradiction]|].
      split; [intros E; contradiction|].
      split; [intros E; contradiction|]. split; [intros E; contradiction|].
      split; [reflexivity|]. split; [reflexivity|discriminate]. }
  apply Role_eqb_true in Hrole. rewrite Hrole. simpl existsb. cbv iota.
  destruct (castObjectId id) as [oid|] eqn:Hcast.
  2:{ split; [split; [discriminate|intros [_ [o [m [r [E _]]]]]; discriminate E]|].
      split; [reflexivity|].
      split; [intros _ o E; discriminate E|].
      split; [intros _ o m r E; discriminate E|].
      split; [intros E; now contradiction E|]. split; [reflexivity|discriminate]. }
  destruct (menuItemOf oid db) as [m|] eqn:Hm.
  2:{ split.
      { split; [discriminate|]. intros [_ [o [m [r [E [E' _]]]]]].
        injection E as <-. congruence. }
      split; [intros _ E; discriminate E|].
      split; [reflexivity|].
      split; [intros _ o m r E E'; injection E as <-; congruence|].
      split; [intros E; now contradiction E|]. split; [reflexivity|discriminate]. }
  destruct (find _ (DB.restaurants db)) as [r|] eqn:Hrr.
  2:{ split.
      { split; [discriminate|]. intros [_ [o [m' [r' [E [E' [E'' _]]]]]]].
        injection E as <-. rewrite Hm in E'. injection E' as <-. congruence. }
      split; [intros _ E; discriminate E|].
      split; [intros _ o E E'; injection E as <-; congruence|].
      split.
      { intros _ o m' r' E E' E''. injection E as <-. rewrite Hm in E'.
        injection E' as <-. congruence. }
      split; [intros E; now contradiction E|]. split; [reflexivity|discriminate]. }
  destruct (sameId (Restaurant.owner r) (User._id user)) eqn:Ho; simpl.
  - apply sameId_true in Ho.
    split; [split; [intros _; split; [reflexivity|now exists oid, m, r]|reflexivity]|].
    split; [intros _ E; discriminate E|].
    split; [intros _ o E E'; injection E as <-; congruence|].
    split.
    { intros _ o m' r' E E' E'' Hne. injection E as <-. rewrite Hm in E'.
      injection E' as <-. rewrite Hrr in E''. injection E'' as <-. contradiction. }
    split; [intros E; now contradiction E|].
    split; [intros E; now contradiction E|].
    intros _ o [= <-]. repeat split. intros Hnd. unfold menuItemOf. simpl.
    now apply find_removeFirst_menu.
  - apply sameId_false in Ho.
    split.
    { split; [discriminate|]. intros [_ [o [m' [r' [E [E' [E'' Hown]]]]]]].
      injection E as <-. rewrite Hm in E'. injection E' as <-.
      rewrite Hrr in E''. injection E'' as <-. contradiction. }
    split; [intros _ E; discriminate E|].
    split; [intros _ o E E'; injection E as <-; congruence|].
    split; [reflexivity|].
    split; [intros E; now contradiction E|]. split; [reflexivity|discriminate].
Qed.

(** X7: once its owner has deleted a menu item (ids being unique), a
    customer whose cart holds a line of that item cannot check out: POST
    /api/orders answers 500 and the cart stays; and no one can add the
    item any more: POST /api/cart answers 400. *)
Theorem X7_delete_then_order (owner user : User.t) (id : string) (oid : ObjectId)
    (db : DB.t) (cart : Cart.t) (line : CartItem.t) (schema : OrderSchema.t) (now : Date)
    (newId : ObjectId) (deliveryAddress paymentMethod notes : string) :
  NoDup (map MenuItem._id (DB.menuItems db)) ->
  User.role user = customer ->
  castObjectId id = Some oid ->
  cartOf (User._id user) db = Some cart ->
  In line (Cart.items cart) -> CartItem.menuItem line = oid ->
  let db' := fst (run (menu_delete owner id) db) in
  Res.status (snd (run (menu_delete owner id) db)) = 200%nat ->
  run (order_post schema now newId user deliveryAddress paymentMethod notes) db'
  = (db', Res.mk 500 "Cannot read properties of null" NoData)
  /\ cartOf (User._id user) db' = Some cart
  /\ forall (menuItemId : string) (quantity : option JSON),
       castObjectId menuItemId = Some oid ->
       run (cart_post user menuItemId quantity) db'
       = (db', Res.mk 400 "Menu item not available" NoData).
Proof.
  intros Hnd Hr Hcast Hc Hin Hid db' H200. subst db'. revert H200.
  rewrite menu_delete_eq, Hcast.
  destruct (existsb _ _); [|discriminate].
  destruct (menuItemOf oid db) as [m|]; [|discriminate].
  destruct (find _ (DB.restaurants db)) as [r|]; [|discriminate].
  destruct (negb _); [discriminate|]. intros _. simpl fst.
  set (db' := DB.with_menuItems _ db).
  assert (Hgone : menuItemOf oid db' = None)
    by (subst db'; unfold menuItemOf; simpl; now apply find_removeFirst_menu).
  assert (Hc' : cartOf (User._id user) db' = Some cart) by exact Hc.
  split; [|split; [exact Hc'|]].
  - apply (order_post_missing _ _ _ _ _ _ _ _ cart line Hr Hc' Hin). now rewrite Hid.
  - intros menuItemId quantity Hcast'.
    rewrite (cart_post_eq _ _ _ _ Hr). cbv zeta. now rewrite Hcast', Hgone.
Qed.

End Menu.

Lemma X4_missing_item_blocks_order_witness :
  User.role Sample.alice = customer /\
  cartOf Sample.aliceId Sample.db6 = Some Sample.aliceCart /\
  In (CartItem.mk Sample.pizzaId 1 120) (Cart.items Sample.aliceCart) /\
  Res.status (snd (run (order_post Sample.schema 0%Z Sample.order2 Sample.alice
                          "1 Main Street" "cash" "") Sample.db6)) = 500%nat.
Proof.
  split; [reflexivity|]. split; [reflexivity|]. split; [left; reflexivity|].
  apply (X4_missing_item_blocks_order Sample.schema 0%Z Sample.order2 Sample.alice
           "1 Main Street" "cash" "" Sample.db6 Sample.aliceCart
           (CartItem.mk Sample.pizzaId 1 120)
           eq_refl eq_refl (or_introl eq_refl) eq_refl).
Defined.

Lemma X5_second_order_refused_witness :
  let out := run (order_post Sample.schema 0%Z Sample.order1 Sample.alice
                    "1 Main Street" "cash" "") Sample.db1 in
  User.role Sample.alice = customer /\ cartsUnique Sample.db1 /\
  Res.status (snd out) = 201%nat /\
  snd (run (order_post Sample.schema 7%Z Sample.order2 Sample.alice
              "1 Main Street" "cash" "") (fst out))
  = Res.mk 400 "Cart is empty" NoData.
Proof.
  cbv zeta. split; [reflexivity|]. split; [exact sample_cartsUnique|].
  assert (H201 : Res.status (snd (run (order_post Sample.schema 0%Z Sample.order1
                    Sample.alice "1 Main Street" "cash" "") Sample.db1)) = 201%nat)
    by (vm_compute; reflexivity).
  split; [exact H201|].
  rewrite (X5_second_order_refused Sample.schema Sample.schema 0%Z 7%Z Sample.order1
             Sample.order2 Sample.alice "1 Main Street" "cash" "" "1 Main Street" "cash" ""
             Sample.db1 eq_refl sample_cartsUnique H201).
  reflexivity.
Defined.

Lemma X7_delete_then_order_witness :
  NoDup (map MenuItem._id (DB.menuItems Sample.db1)) /\
  Res.status (snd (run (menu_delete Sample.olga Sample.pizzaId) Sample.db1)) = 200%nat /\
  Res.status (snd (run (order_post Sample.schema 0%Z Sample.order2 Sample.alice
                          "1 Main Street" "cash" "")
                       (fst (run (menu_delete Sample.olga Sample.pizzaId) Sample.db1))))
  = 500%nat.
Proof.
  assert (Hnd : NoDup (map MenuItem._id (DB.menuItems Sample.db1))).
  { simpl. repeat constructor; simpl; intuition discriminate. }
  assert (H200 : Res.status (snd (run (menu_delete Sample.olga Sample.pizzaId) Sample.db1))
                 = 200%nat)
    by (vm_compute; reflexivity).
  split; [exact Hnd|]. split; [exact H200|].
  rewrite (proj1 (X7_delete_then_order Sample.olga Sample.alice Sample.pizzaId Sample.pizzaId
                    Sample.db1 Sample.aliceCart (CartItem.mk Sample.pizzaId 1 120)
                    Sample.schema 0%Z Sample.order2
                    "1 Main Street" "cash" "" Hnd eq_refl cast_pizzaId eq_refl
                    (or_introl eq_refl) eq_refl H200)).
  reflexivity.
Defined.

(** * Reviews: twice, and out of range *)

Section ReviewsAgain.
Context {rt : Runtime}.

Lemma review_post_stored (user : User.t) (orderId : string)
    (restaurantRating deliveryRating : option Number)
    (restaurantComment deliveryComment : string) (db : DB.t) :
  User.role user = customer ->
  Res.status (snd (run (review_post user orderId restaurantRating deliveryRating
                          restaurantComment deliveryComment) db)) = 201%nat ->
  exists oid order rating,
    castObjectId orderId = Some oid /\
    orderOf oid db = Some order /\
    Order.customer order = User._id user /\
    Order.status order = "delivered" /\
    restaurantRating = Some rating /\
    let review := Review.mk (User._id user) (Order.restaurant order) oid rating
                    deliveryRating restaurantComment deliveryComment true in
    reviewSchema_validate review = true /\
    run (review_post user orderId restaurantRating deliveryRating
           restaurantComment deliveryComment) db
    = (reviewStored review db, Res.mk 201 "Review created successfully" (ReviewDoc review)).
Proof.
  intros Hr. rewrite (review_post_eq _ _ _ _ _ _ _ Hr).
  destruct (castObjectId orderId) as [oid|] eqn:Hcast; [|discriminate].
  destruct (orderOf oid db) as [order|] eqn:Ho; [|discriminate].
  destruct (sameId (Order.customer order) (User._id user)) eqn:Hc; [|discriminate].
  destruct (String.eqb (Order.status order) "delivered") eqn:Hs; [|discriminate].
  simpl negb. cbv iota.
  destruct (find _ (DB.reviews db)); [discriminate|].
  destruct restaurantRating as [rating|]; [|discriminate]. cbv zeta.
  destruct (reviewSchema_validate _) eqn:Hv; [|discriminate]. intros _.
  exists oid, order, rating. split; [reflexivity|]. split; [exact Ho|].
  split; [now apply sameId_true|].
  split; [now apply String.eqb_eq|]. split; [reflexivity|]. split; [exact Hv|reflexivity].
Qed.

Lemma find_snoc_hit {A : Type} (p : A -> bool) (y : A) (l : list A) :
  p y = true -> exists x, find p (l ++ [y]) = Some x.
Proof.
  intros Hy. induction l as [|a l IH]; simpl.
  - rewrite Hy. now exists y.
  - destruct (p a); [now exists a|exact IH].
Qed.

(** X8: a customer reviews an order once.  After a POST /api/reviews that
    answered 201, the same customer's next review of the same order,
    whatever its ratings and comments, answers 400 and changes nothing. *)
Theorem X8_second_review_refused (user : User.t) (orderId : string)
    (rating rating' delivery delivery' : option Number)
    (comment comment' deliveryComment deliveryComment' : string) (db : DB.t) :
  User.role user = customer ->
  let out := run (review_post user orderId rating delivery comment deliveryComment) db in
  Res.status (snd out) = 201%nat ->
  run (review_post user orderId rating' delivery' comment' deliveryComment') (fst out)
  = (fst out, Res.mk 400 "Review already exists for this order" NoData).
Proof.
  intros Hr out H201. subst out.
  destruct (review_post_stored _ _ _ _ _ _ _ Hr H201)
    as [oid [order [x [Hcast [Ho [Hc [Hs [_ [_ He]]]]]]]]].
  rewrite He. simpl fst. rewrite (review_post_eq _ _ _ _ _ _ _ Hr), Hcast.
  change (orderOf oid (reviewStored _ db)) with (orderOf oid db).
  rewrite Ho, Hc, sameId_refl, Hs. simpl negb. cbv iota.
  destruct (find_snoc_hit (samePair (User._id user) oid)
              (Review.mk (User._id user) (Order.restaurant order) oid x delivery
                 comment deliveryComment true) (DB.reviews db)) as [r Hf].
  { unfold samePair. simpl. now rewrite !sameId_refl. }
  change (DB.reviews (reviewStored ?rv db)) with (DB.reviews db ++ [rv]).
  now rewrite Hf.
Qed.

Lemma inRange1to5_true (x : Number) :
  inRange1to5 x = true <-> (1 <=? x) = true /\ (x <=? 5) = true.
Proof. unfold inRange1to5. apply andb_true_iff. Qed.

Lemma inRange1to5_outside (x : Number) :
  (x <? 1) = true \/ (5 <? x) = true -> inRange1to5 x = false.
Proof.
  unfold inRange1to5. intros [H|H]; apply ltb_not_leb in H; rewrite H.
  - reflexivity.
  - apply andb_false_r.
Qed.

(** X10: a review is stored only with a restaurant rating between 1 and 5
    (and a delivery rating, when given, between 1 and 5).  Past the
    handler's own checks, a missing rating or one outside the range is
    refused by the schema: the answer is 500 and nothing is stored. *)
Theorem X10_review_validation (user : User.t) (orderId : string)
    (restaurantRating deliveryRating : option Number)
    (restaurantComment deliveryComment : string) (db : DB.t) :
  User.role user = customer ->
  let out := run (review_post user orderId restaurantRating deliveryRating
                    restaurantComment deliveryComment) db in
  (Res.status (snd out) = 201%nat ->
     (exists x, restaurantRating = Some x /\ (1 <=? x) = true /\ (x <=? 5) = true) /\
     (forall d, deliveryRating = Some d -> (1 <=? d) = true /\ (d <=? 5) = true))
  /\ (forall oid order,
        castObjectId orderId = Some oid ->
        orderOf oid db = Some order ->
        Order.customer order = User._id user ->
        Order.status order = "delivered" ->
        find (samePair (User._id user) oid) (DB.reviews db) = None ->
        (restaurantRating = None \/
         (exists x, restaurantRating = Some x /\ ((x <? 1) = true \/ (5 <? x) = true)) \/
         (exists d, deliveryRating = Some d /\ ((d <? 1) = true \/ (5 <? d) = true))) ->
        Res.status (snd out) = 500%nat /\ fst out = db).
Proof.
  intros Hr out. subst out. split.
  - intros H201.
    destruct (review_post_stored _ _ _ _ _ _ _ Hr H201)
      as [oid [order [x [_ [_ [_ [_ [-> [Hv _]]]]]]]]].
    unfold reviewSchema_validate in Hv. simpl in Hv.
    apply andb_true_iff in Hv. destruct Hv as [Hv Hd].
    apply andb_true_iff in Hv. destruct Hv as [_ Hv].
    apply inRange1to5_true in Hv. split; [now exists x|].
    intros d ->. now apply inRange1to5_true in Hd.
  - intros oid order Hcast Ho Hc Hs Hf Hbad.
    rewrite (review_post_eq _ _ _ _ _ _ _ Hr), Hcast, Ho, Hc, sameId_refl, Hs, Hf.
    simpl negb. cbv iota.
    destruct restaurantRating as [x|]; [|split; reflexivity]. cbv zeta.
    destruct (reviewSchema_validate _) eqn:Hv; [|split; reflexivity].
    exfalso. unfold reviewSchema_validate in Hv. simpl in Hv.
    apply andb_true_iff in Hv. destruct Hv as [Hv Hd].
    apply andb_true_iff in Hv. destruct Hv as [_ Hv].
    destruct Hbad as [E|[[y [E Hy]]|[d [E Hd']]]]; [discriminate| |].
    + injection E as <-. apply inRange1to5_outside in Hy. congruence.
    + rewrite E in Hd. apply inRange1to5_outside in Hd'. congruence.
Qed.

End ReviewsAgain.

Lemma X8_second_review_refused_witness :
  let out := run (review_post Sample.alice Sample.order1 (Some 5) None "" "") Sample.db3 in
  User.role Sample.alice = customer /\
  Res.status (snd out) = 201%nat /\
  snd (run (review_post Sample.alice Sample.order1 (Some 1) None "changed my mind" "")
           (fst out))
  = Res.mk 400 "Review already exists for this order" NoData.
Proof.
  cbv zeta. split; [reflexivity|].
  assert (H201 : Res.status (snd (run (review_post Sample.alice Sample.order1 (Some 5) None
                                         "" "") Sample.db3)) = 201%nat)
    by (vm_compute; reflexivity).
  split; [exact H201|].
  rewrite (X8_second_review_refused Sample.alice Sample.order1 (Some 5) (Some 1) None None
             "" "changed my mind" "" "" Sample.db3 eq_refl H201).
  reflexivity.
Defined.

Lemma X10_review_validation_witness :
  let out := run (review_post Sample.alice Sample.order1 (Some 6) None "" "") Sample.db3 in
  User.role Sample.alice = customer /\ (5 <? 6) = true /\
  Res.status (snd out) = 500%nat /\ fst out = Sample.db3.
Proof.
  cbv zeta. split; [reflexivity|]. split; [reflexivity|].
  apply (proj2 (X10_review_validation Sample.alice Sample.order1 (Some 6) None "" ""
                  Sample.db3 eq_refl) Sample.order1
               (Sample.aliceOrder "delivered" (Some Sample.danId)) cast_order1);
    try reflexivity.
  right. left. exists 6. split; [reflexivity|right; reflexivity].
Defined.


(** * Listings: sort, skip and limit *)

Section Sorting.
Context {A : Type}.
Variable key : A -> Date.

Lemma insertDesc_In (x y : A) (l : list A) :
  In y (insertDesc key x l) <-> y = x \/ In y l.
Proof.
  induction l as [|a l IH]; simpl; [intuition|].
  destruct (key a <? key x)%Z; simpl; [intuition|].
  rewrite IH. intuition.
Qed.

Lemma sortDesc_In (y : A) (l : list A) : In y (sortDesc key l) <-> In y l.
Proof.
  induction l as [|a l IH]; simpl; [reflexivity|].
  rewrite insertDesc_In, IH. intuition.
Qed.

Lemma insertDesc_length (x : A) (l : list A) :
  length (insertDesc key x l) = S (length l).
Proof.
  induction l as [|a l IH]; simpl; [reflexivity|].
  destruct (key a <? key x)%Z; simpl; [reflexivity|now rewrite IH].
Qed.

Lemma sortDesc_length (l : list A) : length (sortDesc key l) = length l.
Proof.
  induction l as [|a l IH]; simpl; [reflexivity|].
  now rewrite insertDesc_length, IH.
Qed.

Lemma insertDesc_descending (x : A) (l : list A) :
  descending key l -> descending key (insertDesc key x l).
Proof.
  induction 1 as [|a l Ha Hd IH]; simpl.
  - constructor; [intros y []|constructor].
  - destruct (key a <? key x)%Z eqn:E.
    + apply Z.ltb_lt in E. constructor; [|now constructor].
      intros y [<-|Hy]; [lia|]. specialize (Ha y Hy). lia.
    + apply Z.ltb_ge in E. constructor; [|exact IH].
      intros y Hy. apply insertDesc_In in Hy. destruct Hy as [->|Hy]; [exact E|now apply Ha].
Qed.

Lemma sortDesc_descending (l : list A) : descending key (sortDesc key l).
Proof.
  induction l as [|a l IH]; simpl; [constructor|now apply insertDesc_descending].
Qed.

Lemma descending_skipn (n : nat) (l : list A) :
  descending key l -> descending key (skipn n l).
Proof.
  revert l. induction n as [|n IH]; intros l H; [exact H|].
  destruct H as [|x l Hx Hd]; simpl; [constructor|now apply IH].
Qed.

Lemma descending_firstn (n : nat) (l : list A) :
  descending key l -> descending key (firstn n l).
Proof.
  revert l. induction n as [|n IH]; intros l H; [constructor|].
  destruct H as [|x l Hx Hd]; simpl; [constructor|].
  constructor; [|now apply IH].
  intros y Hy. apply Hx. revert Hy. clear. revert l.
  induction n as [|n IH]; intros l Hy; [destruct Hy|].
  destruct l as [|a l]; [destruct Hy|]. simpl in Hy.
  destruct Hy as [<-|Hy]; [now left|right; now apply IH].
Qed.

End Sorting.

Section Paging.
Context {A : Type}.

Lemma firstn_In (n : nat) (l : list A) (x : A) : In x (firstn n l) -> In x l.
Proof.
  revert l. induction n as [|n IH]; intros l H; [destruct H|].
  destruct l as [|a l]; [destruct H|]. simpl in H.
  destruct H as [<-|H]; [now left|right; now apply IH].
Qed.

Lemma skipn_In (n : nat) (l : list A) (x : A) : In x (skipn n l) -> In x l.
Proof.
  revert l. induction n as [|n IH]; intros l H; [exact H|].
  destruct l as [|a l]; [destruct H|]. right. now apply IH.
Qed.

Lemma pageOf_In (page limit : positive) (l : list A) (x : A) :
  In x (pageOf page limit l) -> In x l.
Proof. unfold pageOf. intros H. apply firstn_In in H. now apply skipn_In in H. Qed.

Lemma pageOf_length (page limit : positive) (l : list A) :
  (length (pageOf page limit l) <= Pos.to_nat limit)%nat.
Proof. unfold pageOf. apply firstn_le_length. Qed.

(** Every element is on the page its position falls on. *)
Lemma pageOf_cover (limit : positive) (l : list A) (x : A) :
  In x l -> exists page, In x (pageOf page limit l).
Proof.
  intros H. apply In_nth_error in H. destruct H as [i Hi].
  pose proof (Pos2Nat.is_pos limit) as Hpos.
  set (n := Pos.to_nat limit) in *.
  exists (Pos.of_nat (S (i / n))).
  unfold pageOf. fold n.
  rewrite Nat2Pos.id by discriminate.
  replace (S (i / n) - 1)%nat with (i / n)%nat by lia.
  apply (nth_error_In _ (i mod n)).
  rewrite nth_error_firstn.
  assert (Hm : (i mod n < n)%nat) by (apply Nat.mod_upper_bound; lia).
  apply Nat.ltb_lt in Hm. rewrite Hm.
  rewrite nth_error_skipn.
  replace (i / n * n + i mod n)%nat with i; [exact Hi|].
  rewrite (Nat.div_mod_eq i n) at 1. lia.
Qed.

(** A page holds something exactly when it starts before the end. *)
Lemma pageOf_nonempty (page limit : positive) (l : list A) :
  pageOf page limit l <> [] <->
  ((Pos.to_nat page - 1) * Pos.to_nat limit < length l)%nat.
Proof.
  unfold pageOf. pose proof (Pos2Nat.is_pos limit) as Hpos.
  set (n := Pos.to_nat limit) in *. set (k := ((Pos.to_nat page - 1) * n)%nat).
  split.
  - intros H. destruct (Nat.lt_ge_cases k (length l)) as [Hlt|Hge]; [exact Hlt|].
    exfalso. apply H. rewrite skipn_all2 by exact Hge. now destruct n.
  - intros Hlt E.
    assert (Hlen : length (firstn n (skipn k l)) = 0%nat) by now rewrite E.
    rewrite length_firstn, length_skipn in Hlen. lia.
Qed.

End Paging.

(** [Math.ceil(total / limit)] is the least number of pages of [limit]
    that hold [total] documents. *)
Lemma pages_bounds (total : nat) (limit : positive) :
  let pages := Math_ceil (inject_Z (Z.of_nat total) / inject_Z (Zpos limit))%Q in
  ((pages - 1) * Zpos limit < Z.of_nat total /\ Z.of_nat total <= pages * Zpos limit)%Z.
Proof.
  cbv zeta. unfold Math_ceil.
  set (x := (inject_Z (Z.of_nat total) / inject_Z (Zpos limit))%Q).
  pose proof (Qle_ceiling x) as Hle. pose proof (Qceiling_lt x) as Hlt.
  assert (Hpos : (0 < inject_Z (Zpos limit))%Q) by reflexivity.
  assert (Hx : (x * inject_Z (Zpos limit) == inject_Z (Z.of_nat total))%Q).
  { subst x. field. intros E. rewrite E in Hpos. discriminate. }
  split.
  - rewrite Zlt_Qlt, inject_Z_mult, <- Hx.
    apply Qmult_lt_compat_r; [exact Hpos|exact Hlt].
  - rewrite Zle_Qle, inject_Z_mult, <- Hx.
    apply Qmult_le_compat_r; [exact Hle|]. now apply Qlt_le_weak.
Qed.

(** X11: what every list endpoint answers for the documents matching its
    filters.  A page holds at most [limit] of them, latest first; every
    match is on some page and nothing else is; [total] counts the matches
    and [pages] is the least number of pages that hold them, so a page
    holds something exactly when its number is at most [pages]. *)
Theorem X11_pagination {A : Type} (createdAt : A -> Date) (page limit : positive)
    (matching : list A) :
  let L := listing createdAt page limit matching in
  (length (Listing.items L) <= Pos.to_nat limit)%nat
  /\ descending createdAt (Listing.items L)
  /\ (forall x, In x (Listing.items L) -> In x matching)
  /\ (forall x, In x matching ->
        exists page', In x (Listing.items (listing createdAt page' limit matching)))
  /\ Listing.current L = page
  /\ Listing.total L = length matching
  /\ ((Listing.pages L - 1) * Zpos limit < Z.of_nat (Listing.total L)
      /\ Z.of_nat (Listing.total L) <= Listing.pages L * Zpos limit)%Z
  /\ (Listing.items L <> [] <-> (Zpos page <= Listing.pages L)%Z).
Proof.
  cbv zeta. unfold listing. simpl.
  pose proof (pages_bounds (length matching) limit) as Hp. cbv zeta in Hp.
  set (pages := Math_ceil _) in *.
  split; [apply pageOf_length|].
  split; [unfold pageOf; apply descending_firstn, descending_skipn, sortDesc_descending|].
  split; [intros x Hx; apply pageOf_In in Hx; now apply sortDesc_In in Hx|].
  split; [intros x Hx; apply pageOf_cover; now apply sortDesc_In|].
  split; [reflexivity|]. split; [reflexivity|]. split; [exact Hp|].
  rewrite pageOf_nonempty, sortDesc_length.
  pose proof (Pos2Nat.is_pos page) as Hpg. pose proof (Pos2Nat.is_pos limit) as Hlm.
  destruct Hp as [Hlo Hhi]. split.
  - intros H. apply Nat2Z.inj_lt in H. rewrite Nat2Z.inj_mul, Nat2Z.inj_sub in H by lia.
    rewrite !positive_nat_Z in H. simpl Z.of_nat in H. nia.
  - intros H. apply Nat2Z.inj_lt. rewrite Nat2Z.inj_mul, Nat2Z.inj_sub by lia.
    rewrite !positive_nat_Z. simpl Z.of_nat. nia.
Qed.

(** * Who sees which orders *)

Lemma statusFilter_spec (status : string) (o : Order.t) :
  statusFilter status o = true <-> status = "" \/ Order.status o = status.
Proof.
  unfold statusFilter. destruct (String.eqb status "") eqn:E.
  - apply String.eqb_eq in E. tauto.
  - apply String.eqb_neq in E. rewrite String.eqb_eq. tauto.
Qed.

Lemma restaurantIn_spec (user : ObjectId) (db : DB.t) (o : Order.t) :
  restaurantIn
    (map Restaurant._id
       (filter (fun r => sameId (Restaurant.owner r) user) (DB.restaurants db))) o = true
  <-> exists r, In r (DB.restaurants db) /\ Restaurant.owner r = user /\
                Order.restaurant o = Some (Restaurant._id r).
Proof.
  unfold restaurantIn. destruct (Order.restaurant o) as [id|].
  - rewrite existsb_exists. split.
    + intros [x [Hx He]]. apply sameId_true in He. subst x.
      apply in_map_iff in Hx. destruct Hx as [r [Hid Hr]].
      apply filter_In in Hr. destruct Hr as [Hin Ho]. apply sameId_true in Ho.
      exists r. now rewrite Hid.
    + intros [r [Hin [Ho [= ->]]]]. exists (Restaurant._id r).
      split; [|apply sameId_refl]. apply in_map. apply filter_In.
      split; [exact Hin|]. now apply sameId_true.
  - split; [discriminate|]. intros [r [_ [_ E]]]. discriminate.
Qed.

Lemma orderFilter_spec (user : User.t) (status : string) (db : DB.t) (o : Order.t) :
  orderFilter user status db o = true <->
  visibleTo user db o /\ (status = "" \/ Order.status o = status).
Proof.
  unfold orderFilter, visibleTo. rewrite andb_true_iff, statusFilter_spec.
  destruct (User.role user).
  - now rewrite sameId_true.
  - now rewrite restaurantIn_spec.
  - now rewrite optId_eqb_true.
  - tauto.
Qed.

Lemma order_list_eq (createdAt : Order.t -> Date) (user : User.t) (status : string)
    (page limit : positive) (db : DB.t) :
  order_list createdAt user status page limit db
  = (db, inr (listing createdAt page limit
                (filter (orderFilter user status db) (DB.orders db)))).
Proof.
  unfold order_list, orderFilter, Order_find, Restaurant_find_owner, bind, read, ret.
  destruct (User.role user); reflexivity.
Qed.

(** X12: GET /api/orders shows a caller the orders their role lets them
    see and no others: a customer their own orders, a restaurant owner the
    orders of the restaurants they own, a delivery agent the orders
    assigned to them, an admin every order, narrowed to the requested
    status when one is given.  Each such order is on some page; the store
    is not changed. *)
Theorem X12_order_list_visibility (createdAt : Order.t -> Date) (user : User.t)
    (status : string) (page limit : positive) (db : DB.t) :
  exists L,
    order_list createdAt user status page limit db = (db, inr L)
    /\ (forall o, In o (Listing.items L) ->
          In o (DB.orders db) /\ visibleTo user db o /\
          (status = "" \/ Order.status o = status))
    /\ (forall o, In o (DB.orders db) -> visibleTo user db o ->
          (status = "" \/ Order.status o = status) ->
          exists page' L',
            order_list createdAt user status page' limit db = (db, inr L') /\
            In o (Listing.items L'))
    /\ (Listing.total L <= length (DB.orders db))%nat.
Proof.
  rewrite order_list_eq. eexists. split; [reflexivity|].
  split; [|split].
  - intros o Ho. simpl in Ho. apply pageOf_In in Ho. apply sortDesc_In in Ho.
    apply filter_In in Ho. destruct Ho as [Hin Hf]. apply orderFilter_spec in Hf.
    tauto.
  - intros o Hin Hv Hs.
    assert (Hm : In o (filter (orderFilter user status db) (DB.orders db))).
    { apply filter_In. split; [exact Hin|]. apply orderFilter_spec. tauto. }
    apply (sortDesc_In createdAt) in Hm.
    destruct (pageOf_cover limit _ _ Hm) as [page' Hp].
    exists page'. eexists. rewrite order_list_eq. split; [reflexivity|exact Hp].
  - simpl. apply filter_length_le.
Qed.

(** X13: for a delivery agent GET /api/agents/me/orders and GET
    /api/orders answer the same page of the same orders; any other role is
    refused by the agents' route. *)
Theorem X13_agent_orders_agree (createdAt : Order.t -> Date) (user : User.t)
    (status : string) (page limit : positive) (db : DB.t) :
  (User.role user = delivery_agent ->
   agent_orders createdAt user status page limit db
   = order_list createdAt user status page limit db)
  /\ (User.role user <> delivery_agent ->
      agent_orders createdAt user status page limit db
      = (db, inl (Res.mk 403 "Access denied" NoData))).
Proof.
  split; intros Hr.
  - rewrite order_list_eq. unfold agent_orders, orderFilter, authorize, Order_find,
      bind, read, ret. rewrite Hr. reflexivity.
  - unfold agent_orders, authorize, bind, send.
    destruct (User.role user); simpl; try reflexivity. now contradiction Hr.
Qed.

Lemma X13_agent_orders_agree_witness :
  User.role Sample.dan = delivery_agent /\
  agent_orders Sample.stamp Sample.dan "" 1 10 Sample.db5
  = order_list Sample.stamp Sample.dan "" 1 10 Sample.db5 /\
  order_list Sample.stamp Sample.dan "" 1 10 Sample.db5
  = (Sample.db5,
     inr (Listing.mk [Sample.aliceOrder "placed" (Some Sample.danId)] 1%positive 1%Z 1%nat)).
Proof.
  split; [reflexivity|]. split; [|vm_compute; reflexivity].
  exact (proj1 (X13_agent_orders_agree Sample.stamp Sample.dan "" 1 10 Sample.db5)
               eq_refl).
Defined.

(** * The public list of a restaurant's reviews *)

Section ReviewList.
Context {rt : Runtime}.

Lemma review_list_eq (createdAt : Review.t -> Date) (restaurantId : string)
    (page limit : positive) (db : DB.t) :
  review_list createdAt restaurantId page limit db
  = match castObjectId restaurantId with
    | Some rid => (db, inr (listing createdAt page limit (visibleReviewsOf rid db)))
    | None => (db, inl (Res.mk 500 "Cast to ObjectId failed" NoData))
    end.
Proof.
  unfold review_list, castId, bind, read, ret, throw.
  destruct (castObjectId restaurantId); reflexivity.
Qed.

Lemma visibleReviewsOf_In (restaurantId : ObjectId) (db : DB.t) (r : Review.t) :
  In r (visibleReviewsOf restaurantId db) <->
  In r (DB.reviews db) /\ Review.restaurant r = Some restaurantId /\
  Review.isVisible r = true.
Proof.
  unfold visibleReviewsOf. rewrite filter_In, andb_true_iff, optId_eqb_true. tauto.
Qed.

Lemma filter_and_length {A : Type} (p q : A -> bool) (l : list A) :
  (length (filter (fun x => p x && q x) l) <= length (filter p l))%nat.
Proof.
  induction l as [|a l IH]; simpl; [lia|].
  destruct (p a); simpl; [|exact IH].
  destruct (q a); simpl; lia.
Qed.

(** X14: GET /api/reviews/restaurant/:id answers 500 for an id that is not
    an ObjectId.  For any other id it lists only visible reviews of that
    restaurant, each of them on some page; a review that moderation hid is
    on no page, although it counts in the restaurant's rating, so [total]
    can stay below the number of reviews the rating was computed from.
    The store is not changed. *)
Theorem X14_review_list (createdAt : Review.t -> Date) (restaurantId : string)
    (page limit : positive) (db : DB.t) :
  (castObjectId restaurantId = None ->
   review_list createdAt restaurantId page limit db
   = (db, inl (Res.mk 500 "Cast to ObjectId failed" NoData)))
  /\ forall rid, castObjectId restaurantId = Some rid ->
  exists L,
    review_list createdAt restaurantId page limit db = (db, inr L)
    /\ (forall r, In r (Listing.items L) ->
          In r (DB.reviews db) /\ Review.restaurant r = Some rid /\
          Review.isVisible r = true)
    /\ (forall r, Review.isVisible r = false -> ~ In r (Listing.items L))
    /\ (forall r, In r (DB.reviews db) -> Review.restaurant r = Some rid ->
          Review.isVisible r = true ->
          exists page' L',
            review_list createdAt restaurantId page' limit db = (db, inr L') /\
            In r (Listing.items L'))
    /\ (Listing.total L <= length (reviewsOf rid db))%nat.
Proof.
  split; [intros Hcast; now rewrite review_list_eq, Hcast|].
  intros rid Hcast.
  rewrite review_list_eq, Hcast. eexists. split; [reflexivity|].
  assert (Hitems : forall r,
    In r (pageOf page limit (sortDesc createdAt (visibleReviewsOf rid db))) ->
    In r (DB.reviews db) /\ Review.restaurant r = Some rid /\
    Review.isVisible r = true).
  { intros r Hr. apply pageOf_In in Hr. apply sortDesc_In in Hr.
    now apply visibleReviewsOf_In. }
  split; [exact Hitems|]. split; [|split].
  - intros r Hh Hin. apply Hitems in Hin. destruct Hin as [_ [_ Hv]]. congruence.
  - intros r Hin Hrid Hv.
    assert (Hm : In r (visibleReviewsOf rid db))
      by (apply visibleReviewsOf_In; tauto).
    apply (sortDesc_In createdAt) in Hm.
    destruct (pageOf_cover limit _ _ Hm) as [page' Hp].
    exists page'. eexists. rewrite review_list_eq, Hcast. split; [reflexivity|exact Hp].
  - simpl. unfold visibleReviewsOf, reviewsOf. apply filter_and_length.
Qed.

Lemma filter_snoc {A : Type} (p : A -> bool) (l : list A) (y : A) :
  filter p (l ++ [y]) = filter p l ++ (if p y then [y] else []).
Proof. rewrite filter_app. reflexivity. Qed.

(** X15: a review that POST /api/reviews has just stored is public at
    once: it is on some page of its restaurant's list, and the list's
    [total] is one more than before. *)
Theorem X15_new_review_listed (user : User.t) (orderId : string) (oid : ObjectId)
    (restaurantRating deliveryRating : option Number)
    (restaurantComment deliveryComment : string) (db : DB.t)
    (order : Order.t) (restaurantId : string) (rid : ObjectId)
    (createdAt : Review.t -> Date) (page limit : positive) :
  User.role user = customer ->
  castObjectId orderId = Some oid ->
  orderOf oid db = Some order ->
  Order.restaurant order = Some rid ->
  castObjectId restaurantId = Some rid ->
  let out := run (review_post user orderId restaurantRating deliveryRating
                    restaurantComment deliveryComment) db in
  Res.status (snd out) = 201%nat ->
  exists review L L',
    snd out = Res.mk 201 "Review created successfully" (ReviewDoc review)
    /\ review_list createdAt restaurantId page limit db = (db, inr L)
    /\ review_list createdAt restaurantId page limit (fst out) = (fst out, inr L')
    /\ Listing.total L' = S (Listing.total L)
    /\ exists page' L'',
         review_list createdAt restaurantId page' limit (fst out) = (fst out, inr L'') /\
         In review (Listing.items L'').
Proof.
  intros Hr Hcast Ho Hrid Hcast' out H201. subst out.
  destruct (review_post_stored _ _ _ _ _ _ _ Hr H201)
    as [oid' [order' [x [Hc' [Ho' [_ [_ [_ [_ He]]]]]]]]].
  rewrite Hcast in Hc'. injection Hc' as <-.
  rewrite Ho in Ho'. injection Ho' as <-. rewrite He. simpl fst. simpl snd.
  rewrite Hrid. set (review := Review.mk _ _ _ _ _ _ _ _).
  assert (Hvis : visibleReviewsOf rid (reviewStored review db)
                 = visibleReviewsOf rid db ++ [review]).
  { unfold visibleReviewsOf, reviewStored. cbv zeta. simpl DB.reviews.
    rewrite filter_snoc. simpl. now rewrite sameId_refl. }
  exists review. eexists. eexists.
  split; [reflexivity|]. rewrite !review_list_eq, Hcast'.
  split; [reflexivity|]. split; [reflexivity|]. split.
  - simpl. rewrite Hvis, length_app. simpl. lia.
  - assert (Hm : In review (sortDesc createdAt (visibleReviewsOf rid (reviewStored review db)))).
    { apply sortDesc_In. rewrite Hvis. apply in_or_app. right. now left. }
    destruct (pageOf_cover limit _ _ Hm) as [page' Hp].
    exists page'. eexists. rewrite review_list_eq, Hcast'. split; [reflexivity|exact Hp].
Qed.

End ReviewList.

Lemma cast_trattoriaId : castObjectId Sample.trattoriaId = Some Sample.trattoriaId.
Proof. vm_compute. reflexivity. Defined.

Lemma X15_new_review_listed_witness :
  let out := run (review_post Sample.alice Sample.order1 (Some 5) None "" "") Sample.db4 in
  User.role Sample.alice = customer /\
  Res.status (snd out) = 201%nat /\
  (exists L, review_list (fun _ => 0%Z) Sample.trattoriaId 1 10 Sample.db4
             = (Sample.db4, inr L)
             /\ Listing.total L = 0%nat) /\
  (exists L', review_list (fun _ => 0%Z) Sample.trattoriaId 1 10 (fst out)
              = (fst out, inr L')
              /\ Listing.total L' = 1%nat).
Proof.
  cbv zeta. split; [reflexivity|].
  assert (H201 : Res.status (snd (run (review_post Sample.alice Sample.order1 (Some 5) None
                                         "" "") Sample.db4)) = 201%nat)
    by (vm_compute; reflexivity).
  split; [exact H201|].
  destruct (X15_new_review_listed Sample.alice Sample.order1 Sample.order1 (Some 5) None
              "" "" Sample.db4 (Sample.aliceOrder "delivered" (Some Sample.danId))
              Sample.trattoriaId Sample.trattoriaId (fun _ => 0%Z) 1 10
              eq_refl cast_order1 eq_refl eq_refl cast_trattoriaId H201)
    as [review [L [L' [_ [HL [HL' [Ht _]]]]]]].
  assert (H0 : Listing.total L = 0%nat).
  { rewrite review_list_eq in HL. rewrite cast_trattoriaId in HL.
    injection HL as <-. reflexivity. }
  split; [exists L; split; [exact HL|exact H0]|].
  exists L'. split; [exact HL'|]. now rewrite Ht, H0.
Defined.

(** * Assigning a delivery agent *)

Section Assigning.
Context {rt : Runtime}.

(** What the assign handler stores and answers once it is through its
    checks. *)
Lemma order_put_assign_eq (users : list User.t) (user : User.t) (id : string)
    (deliveryAgentId : string) (db : DB.t) :
  run (order_put_assign users user id deliveryAgentId) db =
  if negb (Role_eqb (User.role user) restaurant_owner)
     && negb (Role_eqb (User.role user) admin)
  then (db, Res.mk 403 "Access denied" NoData)
  else
    match castObjectId id with
    | None => (db, Res.mk 500 "Cast to ObjectId failed" NoData)
    | Some oid =>
      match orderOf oid db with
      | None => (db, Res.mk 404 "Order not found" NoData)
      | Some order =>
        match castObjectId deliveryAgentId with
        | None => (db, Res.mk 500 "Cast to ObjectId failed" NoData)
        | Some aid =>
          match accountOf aid users with
          | None => (db, Res.mk 400 "Invalid delivery agent" NoData)
          | Some agent =>
            if negb (Role_eqb (User.role agent) delivery_agent)
            then (db, Res.mk 400 "Invalid delivery agent" NoData)
            else
              (DB.with_orders
                 (replaceFirst (byId (Order._id order)) (withAgent aid order)
                               (DB.orders db)) db,
               Res.mk 200 "Delivery agent assigned successfully"
                 (OrderDoc (withAgent aid order)))
          end
        end
      end
    end.
Proof.
  unfold order_put_assign, orderOf, accountOf, byId, run.
  destruct (negb _ && negb _); [reflexivity|].
  unfold Order_save, User_findById. hred.
  destruct (castObjectId id) as [oid|]; [|reflexivity]. simpl.
  destruct (find _ (DB.orders db)) as [order|]; [|reflexivity].
  destruct (castObjectId deliveryAgentId) as [aid|]; [|reflexivity]. simpl.
  destruct (find _ users) as [agent|]; [|reflexivity].
  destruct (negb _); reflexivity.
Qed.

Lemma may_assign (role : Role) :
  negb (Role_eqb role restaurant_owner) && negb (Role_eqb role admin) = false
  <-> role = restaurant_owner \/ role = admin.
Proof. destruct role; simpl; split; intros H; auto; try discriminate; destruct H; discriminate. Qed.

Lemma orderOf_id (id : ObjectId) (db : DB.t) (order : Order.t) :
  orderOf id db = Some order -> Order._id order = id.
Proof. intros H. apply find_some in H. now apply sameId_true. Qed.

(** X16: PUT /api/orders/:id/assign.  Only a restaurant owner or an admin
    gets past the first check (anyone else is answered 403, whether the
    order exists or not); then an order id that is not an ObjectId is
    answered 500, an id of no order 404, an agent id that is not an
    ObjectId 500, and a target account that is missing or not a delivery
    agent 400.  It succeeds in every other case, whoever owns the order's
    restaurant and whatever the order's status.  A success stores the
    order with the new agent and nothing else changed; any other answer
    leaves the store as it was. *)
Theorem X16_assign_agent (users : list User.t) (user : User.t) (id : string)
    (deliveryAgentId : string) (db : DB.t) :
  let out := run (order_put_assign users user id deliveryAgentId) db in
  let allowed := User.role user = restaurant_owner \/ User.role user = admin in
  (~ allowed -> Res.status (snd out) = 403%nat)
  /\ (allowed -> castObjectId id = None -> Res.status (snd out) = 500%nat)
  /\ (allowed -> forall oid, castObjectId id = Some oid -> orderOf oid db = None ->
      Res.status (snd out) = 404%nat)
  /\ (allowed -> forall oid, castObjectId id = Some oid -> orderOf oid db <> None ->
      castObjectId deliveryAgentId = None -> Res.status (snd out) = 500%nat)
  /\ (allowed -> forall oid aid, castObjectId id = Some oid -> orderOf oid db <> None ->
      castObjectId deliveryAgentId = Some aid ->
      (forall agent, accountOf aid users = Some agent ->
                     User.role agent <> delivery_agent) ->
      Res.status (snd out) = 400%nat)
  /\ (Res.status (snd out) = 200%nat <->
      allowed /\
      exists oid order aid agent,
        castObjectId id = Some oid /\ orderOf oid db = Some order /\
        castObjectId deliveryAgentId = Some aid /\
        accountOf aid users = Some agent /\ User.role agent = delivery_agent)
  /\ (Res.status (snd out) <> 200%nat -> fst out = db)
  /\ (Res.status (snd out) = 200%nat ->
      forall oid aid order,
        castObjectId id = Some oid -> castObjectId deliveryAgentId = Some aid ->
        orderOf oid db = Some order ->
        orderOf oid (fst out) = Some (withAgent aid order) /\
        snd out = Res.mk 200 "Delivery agent assigned successfully"
                    (OrderDoc (withAgent aid order)) /\
        DB.orders (fst out)
        = replaceFirst (byId oid) (withAgent aid order) (DB.orders db) /\
        DB.restaurants (fst out) = DB.restaurants db /\
        DB.menuItems (fst out) = DB.menuItems db /\
        DB.carts (fst out) = DB.carts db /\
        DB.reviews (fst out) = DB.reviews db).
Proof.
  cbv zeta. rewrite order_put_assign_eq.
  destruct (negb _ && negb _) eqn:Hrole.
  { assert (Hno : ~ (User.role user = restaurant_owner \/ User.role user = admin)).
    { intros H. apply may_assign in H. congruence. }
    split; [reflexivity|]. do 4 (split; [intros H; contradiction|]).
    split; [split; [discriminate|intros [H _]; contradiction]|].
    split; [reflexivity|discriminate]. }
  apply may_assign in Hrole.
  split; [intros H; contradiction|].
  destruct (castObjectId id) as [oid|] eqn:Hcast.
  2:{ split; [reflexivity|].
      split; [intros _ o E; discriminate E|].
      split; [intros _ o E; discriminate E|].
      split; [intros _ o a E; discriminate E|].
      split; [split; [discriminate|intros [_ [o [x [a [g [E _]]]]]]; discriminate E]|].
      split; [reflexivity|discriminate]. }
  split; [intros _ E; discriminate E|].
  destruct (orderOf oid db) as [order|] eqn:Ho.
  2:{ split; [reflexivity|].
      split; [intros _ o [= <-] H; now contradiction H|].
      split; [intros _ o a [= <-] H; now contradiction H|].
      split.
      { split; [discriminate|]. intros [_ [o [x [a [g [[= <-] [E _]]]]]]]. congruence. }
      split; [reflexivity|discriminate]. }
  split; [intros _ o [= <-] E; congruence|].
  destruct (castObjectId deliveryAgentId) as [aid|] eqn:Hcast'.
  2:{ split; [reflexivity|].
      split; [intros _ o a _ _ E; discriminate E|].
      split; [split; [discriminate|intros [_ [o [x [a [g [_ [_ [E _]]]]]]]]; discriminate E]|].
      split; [reflexivity|discriminate]. }
  split; [intros _ o _ _ E; discriminate E|].
  destruct (accountOf aid users) as [agent|] eqn:Ha.
  2:{ split; [reflexivity|].
      split.
      { split; [discriminate|]. intros [_ [o [x [a [g [_ [_ [[= <-] [E _]]]]]]]]]. congruence. }
      split; [reflexivity|discriminate]. }
  destruct (Role_eqb (User.role agent) delivery_agent) eqn:Hag; simpl negb; cbv iota.
  - apply Role_eqb_true in Hag.
    split; [intros _ o a _ _ [= <-] H; exfalso; now apply (H agent)|].
    split.
    { split; [|reflexivity]. intros _. split; [exact Hrole|].
      now exists oid, order, aid, agent. }
    split; [intros H; now contradiction H|].
    intros _ o a order' [= <-] [= <-] Ho'. rewrite Ho in Ho'. injection Ho' as <-.
    rewrite (orderOf_id _ _ _ Ho).
    split; [|repeat split].
    unfold orderOf in *. simpl. apply (find_replaceFirst _ order); [exact Ho|].
    unfold byId. simpl. rewrite (orderOf_id oid db order Ho). apply sameId_refl.
  - split; [reflexivity|].
    split.
    { split; [discriminate|]. intros [_ [o [x [a [g [_ [_ [[= <-] [E E']]]]]]]]].
      rewrite Ha in E. injection E as <-.
      apply Role_eqb_true in E'. congruence. }
    split; [reflexivity|discriminate].
Qed.

(** X17: an assignment hands the order over.  After PUT
    /api/orders/:id/assign has answered 200, the new agent's PUT
    /api/orders/:id/status with [delivered] succeeds, whatever the order's
    status was, and every other delivery agent, the previous one included,
    is refused. *)
Theorem X17_assign_then_deliver (users : list User.t) (user agent other : User.t)
    (id agentId : string) (db : DB.t) (now : Date) (status : string) :
  User.role agent = delivery_agent ->
  User.role other = delivery_agent ->
  User._id other <> User._id agent ->
  castObjectId agentId = Some (User._id agent) ->
  let out := run (order_put_assign users user id agentId) db in
  Res.status (snd out) = 200%nat ->
  Res.status (snd (run (order_put_status now agent id "delivered") (fst out))) = 200%nat
  /\ Res.status (snd (run (order_put_status now other id status) (fst out))) <> 200%nat.
Proof.
  intros Hag Hot Hne Hcast' out H200. subst out. revert H200.
  rewrite order_put_assign_eq.
  destruct (negb _ && negb _); [discriminate|].
  destruct (castObjectId id) as [oid|] eqn:Hcast; [|discriminate].
  destruct (orderOf oid db) as [order|] eqn:Ho; [|discriminate].
  rewrite Hcast'.
  destruct (accountOf (User._id agent) users) as [a|]; [|discriminate].
  destruct (negb _); [discriminate|]. intros _. simpl fst.
  set (db' := DB.with_orders _ db).
  assert (Ho' : orderOf oid db' = Some (withAgent (User._id agent) order)).
  { subst db'. unfold orderOf in *. simpl. rewrite (orderOf_id _ _ _ Ho).
    apply (find_replaceFirst _ order); [exact Ho|].
    unfold byId. simpl. rewrite (orderOf_id oid db order Ho). apply sameId_refl. }
  rewrite !order_put_status_eq, Hcast, Ho', Hag, Hot. simpl Order.deliveryAgent.
  split.
  - simpl. now rewrite sameId_refl.
  - destruct (negb (includes agentStatuses status)); [discriminate|].
    simpl optId_eqb. apply not_eq_sym in Hne. apply sameId_false in Hne.
    rewrite Hne. discriminate.
Qed.

End Assigning.

Lemma cast_eveId : castObjectId Sample.eveId = Some (User._id Sample.eve).
Proof. vm_compute. reflexivity. Defined.

Lemma X17_assign_then_deliver_witness :
  let out := run (order_put_assign Sample.accounts Sample.olga Sample.order1 Sample.eveId)
                 Sample.db2 in
  User.role Sample.eve = delivery_agent /\ User.role Sample.dan = delivery_agent /\
  User._id Sample.dan <> User._id Sample.eve /\
  Res.status (snd out) = 200%nat /\
  Res.status (snd (run (order_put_status 99%Z Sample.eve Sample.order1 "delivered")
                       (fst out)))
  = 200%nat /\
  Res.status (snd (run (order_put_status 99%Z Sample.dan Sample.order1 "delivered")
                       (fst out)))
  <> 200%nat.
Proof.
  cbv zeta. split; [reflexivity|]. split; [reflexivity|].
  assert (Hne : User._id Sample.dan <> User._id Sample.eve) by (simpl; discriminate).
  split; [exact Hne|].
  assert (H200 : Res.status (snd (run (order_put_assign Sample.accounts Sample.olga
                    Sample.order1 Sample.eveId) Sample.db2)) = 200%nat)
    by (vm_compute; reflexivity).
  split; [exact H200|].
  exact (X17_assign_then_deliver Sample.accounts Sample.olga Sample.eve Sample.dan
           Sample.order1 Sample.eveId Sample.db2 99%Z "delivered"
           eq_refl eq_refl Hne cast_eveId H200).
Defined.

(** * Updating a restaurant *)

Section Restaurants.
Context {rt : Runtime}.

Lemma restaurant_put_eq (user : User.t) (id : string) (body : RestaurantBody.t)
    (db : DB.t) :
  restaurant_put user id body db =
  if Role_eqb (User.role user) restaurant_owner then
    match castObjectId id with
    | None => (db, inl (Res.mk 500 "Cast to ObjectId failed" NoData))
    | Some rid =>
      match find (fun r => sameId rid (Restaurant._id r)) (DB.restaurants db) with
      | None => (db, inl (Res.mk 404 "Restaurant not found" NoData))
      | Some r =>
        if negb (sameId (Restaurant.owner r) (User._id user))
        then (db, inl (Res.mk 403 "Access denied" NoData))
        else
          match RestaurantBody.update body r with
          | None => (db, inl (Res.mk 500 "Validation failed" NoData))
          | Some r' =>
            if negb (sameId (Restaurant._id r') rid)
            then (db, inl (Res.mk 500
                   "Performing an update on the path '_id' would modify the immutable field '_id'"
                   NoData))
            else
              (DB.with_restaurants
                 (replaceFirst (fun r => sameId rid (Restaurant._id r)) r'
                               (DB.restaurants db)) db,
               inr r')
          end
      end
    end
  else (db, inl (Res.mk 403 "Access denied" NoData)).
Proof.
  unfold restaurant_put, authorize.
  destruct (User.role user); try reflexivity.
  hred.
  destruct (castObjectId id) as [rid|]; [|reflexivity]. simpl.
  destruct (find _ (DB.restaurants db)) as [r|] eqn:Hf; [|reflexivity].
  assert (Hid : Restaurant._id r = rid).
  { apply find_some in Hf. destruct Hf as [_ Hf]. symmetry. now apply sameId_true. }
  rewrite Hid.
  simpl. destruct (negb (sameId (Restaurant.owner r) _)); [reflexivity|].
  destruct (RestaurantBody.update body r) as [r'|]; [|reflexivity].
  destruct (negb _); reflexivity.
Qed.

(** X18: PUT /api/restaurants/:id.  A caller who is not a restaurant owner
    is answered 403; for a restaurant owner an id that is not an ObjectId
    is answered 500, an id of no restaurant 404, someone else's restaurant
    403, and a body that a cast or a validator refuses 500; in each of
    these cases nothing changes.  The owner's update is stored under the
    same id, and no other collection is touched. *)
Theorem X18_restaurant_put (user : User.t) (id : string) (body : RestaurantBody.t)
    (db : DB.t) :
  let out := restaurant_put user id body db in
  (User.role user <> restaurant_owner ->
   out = (db, inl (Res.mk 403 "Access denied" NoData)))
  /\ (User.role user = restaurant_owner -> castObjectId id = None ->
      out = (db, inl (Res.mk 500 "Cast to ObjectId failed" NoData)))
  /\ (User.role user = restaurant_owner ->
      forall rid, castObjectId id = Some rid ->
      let found := find (fun r => sameId rid (Restaurant._id r)) (DB.restaurants db) in
      (found = None -> out = (db, inl (Res.mk 404 "Restaurant not found" NoData)))
      /\ (forall r, found = Some r -> Restaurant.owner r <> User._id user ->
            out = (db, inl (Res.mk 403 "Access denied" NoData)))
      /\ (forall r, found = Some r -> Restaurant.owner r = User._id user ->
            RestaurantBody.update body r = None ->
            out = (db, inl (Res.mk 500 "Validation failed" NoData)))
      /\ (forall r r', found = Some r -> Restaurant.owner r = User._id user ->
            RestaurantBody.update body r = Some r' -> Restaurant._id r' <> rid ->
            fst out = db /\ exists res, snd out = inl res /\ Res.status res = 500%nat)
      /\ (forall r r', found = Some r -> Restaurant.owner r = User._id user ->
            RestaurantBody.update body r = Some r' -> Restaurant._id r' = rid ->
            snd out = inr r' /\
            find (fun r => sameId rid (Restaurant._id r)) (DB.restaurants (fst out))
            = Some r' /\
            DB.menuItems (fst out) = DB.menuItems db /\
            DB.carts (fst out) = DB.carts db /\
            DB.orders (fst out) = DB.orders db /\
            DB.reviews (fst out) = DB.reviews db)).
Proof.
  cbv zeta. rewrite restaurant_put_eq.
  destruct (Role_eqb (User.role user) restaurant_owner) eqn:Hrole.
  - apply Role_eqb_true in Hrole.
    split; [intros H; contradiction|].
    split; [intros _ ->; reflexivity|].
    intros _ rid ->.
    split; [intros ->; reflexivity|].
    split; [intros r -> Hne; apply sameId_false in Hne; now rewrite Hne|].
    split; [intros r -> Ho ->; now rewrite Ho, sameId_refl|].
    split.
    + intros r r' -> Ho -> Hne. rewrite Ho, sameId_refl. simpl negb. cbv iota.
      apply sameId_false in Hne. rewrite Hne. simpl.
      split; [reflexivity|]. eexists. split; reflexivity.
    + intros r r' Hf Ho Hu Hid. rewrite Hf, Ho, sameId_refl, Hu, Hid, sameId_refl. simpl.
      split; [reflexivity|]. split; [|now repeat split].
      apply (find_replaceFirst _ r); [exact Hf|]. rewrite Hid. apply sameId_refl.
  - assert (Hne : User.role user <> restaurant_owner).
    { intros E. apply Role_eqb_true in E. congruence. }
    split; [reflexivity|]. split; intros; contradiction.
Qed.

(** X19: the body of PUT /api/restaurants/:id is stored as sent, [owner]
    included.  Once an owner has put another account there, the restaurant
    is no longer theirs: their next update is answered 403, and so are
    their status updates on the restaurant's orders, which the new owner's
    account now gets through. *)
Theorem X19_restaurant_handover (user successor : User.t) (id : string) (rid : ObjectId)
    (body body' : RestaurantBody.t) (db : DB.t) (r r' : Restaurant.t)
    (now : Date) (orderId : string) (oid : ObjectId) (order : Order.t) (status : string) :
  User.role user = restaurant_owner ->
  User.role successor = restaurant_owner ->
  User._id successor <> User._id user ->
  castObjectId id = Some rid ->
  find (fun r => sameId rid (Restaurant._id r)) (DB.restaurants db) = Some r ->
  Restaurant.owner r = User._id user ->
  RestaurantBody.update body r = Some r' ->
  Restaurant._id r' = rid ->
  Restaurant.owner r' = User._id successor ->
  castObjectId orderId = Some oid ->
  orderOf oid db = Some order ->
  Order.restaurant order = Some rid ->
  In status restaurantStatuses ->
  let db' := fst (restaurant_put user id body db) in
  restaurant_put user id body' db' = (db', inl (Res.mk 403 "Access denied" NoData))
  /\ Res.status (snd (run (order_put_status now user orderId status) db')) = 403%nat
  /\ Res.status (snd (run (order_put_status now successor orderId status) db')) = 200%nat.
Proof.
  intros Hr Hs Hne Hcast Hf Ho Hu Hid Hown Hcast' Hord Hrest Hin db'. subst db'.
  rewrite (restaurant_put_eq user id body db), Hr. simpl Role_eqb. cbv iota.
  rewrite Hcast, Hf, Ho, sameId_refl, Hu, Hid, sameId_refl. simpl negb. cbv iota. simpl fst.
  set (db' := DB.with_restaurants _ db).
  assert (Hf' : find (fun r => sameId rid (Restaurant._id r)) (DB.restaurants db')
                = Some r').
  { subst db'. simpl. apply (find_replaceFirst _ r); [exact Hf|].
    rewrite Hid. apply sameId_refl. }
  assert (Hord' : orderOf oid db' = Some order) by exact Hord.
  assert (Hro : restaurantOf order db' = Some r').
  { unfold restaurantOf. rewrite Hrest. exact Hf'. }
  apply includes_In in Hin.
  split; [|split].
  - rewrite restaurant_put_eq, Hr. simpl Role_eqb. cbv iota. rewrite Hcast, Hf', Hown.
    apply sameId_false in Hne. now rewrite Hne.
  - rewrite order_put_status_eq, Hcast', Hord', Hr, Hin, Hro, Hown. simpl negb. cbv iota.
    apply sameId_false in Hne. now rewrite Hne.
  - rewrite order_put_status_eq, Hcast', Hord', Hs, Hin, Hro, Hown. simpl negb. cbv iota.
    now rewrite sameId_refl.
Qed.

End Restaurants.

Lemma X19_restaurant_handover_witness :
  let body := Sample.handTo Sample.omarId in
  let db' := fst (restaurant_put Sample.olga Sample.trattoriaId body Sample.db2) in
  User.role Sample.olga = restaurant_owner /\
  User._id Sample.omar <> User._id Sample.olga /\
  Res.status (snd (run (order_put_status 5%Z Sample.olga Sample.order1 "accepted")
                       Sample.db2))
  = 200%nat /\
  Res.status (snd (run (order_put_status 5%Z Sample.olga Sample.order1 "accepted") db'))
  = 403%nat /\
  Res.status (snd (run (order_put_status 5%Z Sample.omar Sample.order1 "accepted") db'))
  = 200%nat.
Proof.
  cbv zeta. split; [reflexivity|].
  assert (Hne : User._id Sample.omar <> User._id Sample.olga) by (simpl; discriminate).
  split; [exact Hne|]. split; [vm_compute; reflexivity|].
  exact (proj2 (X19_restaurant_handover Sample.olga Sample.omar Sample.trattoriaId
                  Sample.trattoriaId (Sample.handTo Sample.omarId)
                  (Sample.handTo Sample.olgaId) Sample.db2 Sample.trattoria
                  (Restaurant.mk Sample.trattoriaId Sample.omarId
                     (Restaurant.rating_average Sample.trattoria)
                     (Restaurant.rating_count Sample.trattoria))
                  5%Z Sample.order1 Sample.order1
                  (Sample.aliceOrder "placed" (Some Sample.danId)) "accepted"
                  eq_refl eq_refl Hne cast_trattoriaId eq_refl eq_refl eq_refl eq_refl
                  eq_refl cast_order1 eq_refl eq_refl (or_introl eq_refl))).
Defined.

(** * More on orders *)

Section MoreOrders.
Context {rt : Runtime}.

(** X20: GET /api/orders/:id and PUT /api/orders/:id/status look the order
    up before they look at the caller's role: whatever the role and the
    requested status, an id that is not an ObjectId is answered 500 and an
    id of no order 404, and nothing changes. *)
Theorem X20_unknown_order (user : User.t) (id : string) (now : Date) (status : string)
    (db : DB.t) :
  (castObjectId id = None ->
   run (order_get user id) db = (db, Res.mk 500 "Cast to ObjectId failed" NoData)
   /\ run (order_put_status now user id status) db
      = (db, Res.mk 500 "Cast to ObjectId failed" NoData))
  /\ (forall oid, castObjectId id = Some oid -> orderOf oid db = None ->
      run (order_get user id) db = (db, Res.mk 404 "Order not found" NoData)
      /\ run (order_put_status now user id status) db
         = (db, Res.mk 404 "Order not found" NoData)).
Proof.
  split.
  - intros Hcast. rewrite order_get_eq, order_put_status_eq, Hcast. split; reflexivity.
  - intros oid Hcast Ho. rewrite order_get_eq, order_put_status_eq, Hcast, Ho.
    split; reflexivity.
Qed.

(** X21: the status handler looks at no history.  Once its agent has
    delivered an order at [t1], the same agent's [delivered] at [t2]
    succeeds again and moves [actualDeliveryTime] to [t2]; and their
    [picked_up] succeeds too, leaving an order that is [picked_up], still
    [paid], and still stamped [t1]. *)
Theorem X21_status_replay (agent : User.t) (id : string) (oid : ObjectId) (t1 t2 : Date)
    (db : DB.t) :
  User.role agent = delivery_agent ->
  castObjectId id = Some oid ->
  let db1 := fst (run (order_put_status t1 agent id "delivered") db) in
  Res.status (snd (run (order_put_status t1 agent id "delivered") db)) = 200%nat ->
  (exists o, orderOf oid (fst (run (order_put_status t2 agent id "delivered") db1)) = Some o
             /\ Res.status (snd (run (order_put_status t2 agent id "delivered") db1))
                = 200%nat
             /\ Order.status o = "delivered"
             /\ Order.actualDeliveryTime o = Some t2)
  /\ (exists o, orderOf oid (fst (run (order_put_status t2 agent id "picked_up") db1)) = Some o
                /\ Res.status (snd (run (order_put_status t2 agent id "picked_up") db1))
                   = 200%nat
                /\ Order.status o = "picked_up"
                /\ Order.paymentStatus o = "paid"
                /\ Order.actualDeliveryTime o = Some t1).
Proof.
  intros Hr Hcast db1 H200. subst db1. revert H200.
  rewrite (order_put_status_eq t1), Hcast.
  destruct (orderOf oid db) as [order|] eqn:Ho; [|discriminate].
  rewrite Hr.
  destruct (negb (includes agentStatuses "delivered")); [discriminate|].
  destruct (optId_eqb (Order.deliveryAgent order) (User._id agent)) eqn:Ha;
    [|discriminate].
  simpl negb. cbv iota. intros _.
  pose proof (orderOf_statusSaved t1 "delivered" order oid db Ho) as Ho1.
  set (db1 := fst (statusSaved t1 "delivered" order db)) in *.
  set (o1 := setStatus t1 "delivered" order) in *.
  assert (Hagent : optId_eqb (Order.deliveryAgent o1) (User._id agent) = true)
    by exact Ha.
  split.
  - exists (setStatus t2 "delivered" o1).
    rewrite !order_put_status_eq, Hcast, Ho1, Hr, Hagent.
    change (includes agentStatuses "delivered") with true. simpl negb. cbv iota.
    split; [now apply orderOf_statusSaved|]. repeat split.
  - exists (setStatus t2 "picked_up" o1).
    rewrite !order_put_status_eq, Hcast, Ho1, Hr, Hagent.
    change (includes agentStatuses "picked_up") with true. simpl negb. cbv iota.
    split; [now apply orderOf_statusSaved|]. repeat split.
Qed.

(** * A price change between two adds *)

Lemma menu_put_item (user : User.t) (id : string) (oid : ObjectId) (body : MenuBody.t)
    (db : DB.t) (m : MenuItem.t) :
  castObjectId id = Some oid ->
  menuItemOf oid db = Some m ->
  let db' := fst (run (menu_put user id body) db) in
  DB.restaurants db' = DB.restaurants db /\
  exists m', menuItemOf oid db' = Some m' /\
             (m' = m \/ MenuBody.update body m = Some m').
Proof.
  intros Hcast Hm. cbv zeta. unfold menu_put. rewrite run_authorize.
  destruct (existsb _ _); [|split; [reflexivity|exists m; auto]].
  unfold run. hred. rewrite Hcast. simpl.
  unfold menuItemOf in Hm. rewrite Hm.
  destruct (find _ (DB.restaurants db)) as [r|]; [|split; [reflexivity|exists m; auto]].
  simpl. destruct (negb (sameId _ _)); [split; [reflexivity|exists m; auto]|].
  destruct (MenuBody.update body m) as [m'|] eqn:Hu;
    [|split; [reflexivity|exists m; auto]].
  destruct (sameId (MenuItem._id m') (MenuItem._id m)) eqn:Hid;
    [|split; [reflexivity|exists m; auto]].
  simpl. split; [reflexivity|]. exists m'. split; [|now right].
  assert (Hoid : MenuItem._id m = oid).
  { apply find_some in Hm. destruct Hm as [_ Hm]. now apply sameId_true in Hm. }
  unfold menuItemOf. simpl. rewrite Hoid in *.
  apply (find_replaceFirst _ m); [exact Hm|exact Hid].
Qed.

(** X23: a line keeps its first price.  A customer without a cart adds an
    item by its id as the store prints it; whatever PUT /api/menu/:id then
    does to the item (short of making it unavailable or moving it to
    another restaurant), adding the item again merges into the same line:
    one line, the two quantities summed, at the price of the first add. *)
Theorem X23_merge_keeps_first_price (user owner : User.t) (menuItemId : string)
    (q1 q2 : Number) (body : MenuBody.t) (db : DB.t) (m : MenuItem.t) (r : Restaurant.t) :
  User.role user = customer ->
  castObjectId menuItemId = Some menuItemId ->
  cartOf (User._id user) db = None ->
  menuItemOf menuItemId db = Some m ->
  MenuItem.isAvailable m = true ->
  find (fun x => sameId (MenuItem.restaurant m) (Restaurant._id x)) (DB.restaurants db)
    = Some r ->
  (forall m', MenuBody.update body m = Some m' ->
     MenuItem.isAvailable m' = true /\ MenuItem.restaurant m' = MenuItem.restaurant m) ->
  (1 <=? q1) = true -> (1 <=? q1 + q2) = true ->
  let db1 := fst (run (cart_post user menuItemId (Some (JNum q1))) db) in
  let db2 := fst (run (menu_put owner menuItemId body) db1) in
  let out := run (cart_post user menuItemId (Some (JNum q2))) db2 in
  Res.status (snd out) = 200%nat /\
  exists cart,
    cartOf (User._id user) (fst out) = Some cart /\
    Cart.items cart = [CartItem.mk menuItemId (q1 + q2) (MenuItem.price m)].
Proof.
  intros Hr Hcast Hc Hm Ha Hrest Hbody Hq1 Hq12. cbv zeta.
  assert (H1 : run (cart_post user menuItemId (Some (JNum q1))) db
               = saveAndAnswer true
                   (Cart.mk (User._id user) (Some (Restaurant._id r))
                      [CartItem.mk menuItemId q1 (MenuItem.price m)] 0)
                   "Item added to cart" db).
  { rewrite (cart_post_eq _ _ _ _ Hr). cbv zeta.
    now rewrite Hcast, Hm, Ha, Hrest, Hc, (castNumber_JNum _ Hq1). }
  rewrite H1. unfold saveAndAnswer at 1 2.
  set (c1 := Cart.mk _ _ [CartItem.mk menuItemId q1 (MenuItem.price m)] 0).
  assert (Hv1 : cartSchema_validate c1 = true).
  { apply validate_iff. intros item [<-|[]]. exact Hq1. }
  rewrite Hv1. simpl fst.
  set (db1 := DB.with_carts (DB.carts db ++ [savedCart c1]) db).
  assert (Hm1 : menuItemOf menuItemId db1 = Some m) by exact Hm.
  destruct (menu_put_item owner menuItemId menuItemId body db1 m Hcast Hm1)
    as [Hrs [m' [Hm' Hcase]]].
  pose proof (menu_put_carts owner menuItemId body db1) as Hcarts.
  set (db2 := fst (run (menu_put owner menuItemId body) db1)) in *.
  assert (Hkeep : MenuItem.isAvailable m' = true /\
                  MenuItem.restaurant m' = MenuItem.restaurant m).
  { destruct Hcase as [->|Hu]; [now split|now apply Hbody]. }
  destruct Hkeep as [Ha' Hr'].
  assert (Hc2 : cartOf (User._id user) db2 = Some (savedCart c1)).
  { unfold cartOf. rewrite Hcarts. subst db1. simpl.
    rewrite find_app_miss by exact Hc. simpl. unfold byUser. simpl.
    now rewrite sameId_refl. }
  rewrite (cart_post_eq _ _ _ _ Hr). cbv zeta.
  rewrite Hcast, Hm', Ha', Hr', Hrs. simpl negb. cbv iota.
  change (DB.restaurants db1) with (DB.restaurants db). rewrite Hrest, Hc2.
  simpl Cart.restaurant. cbv iota. rewrite sameId_refl. simpl negb. cbv iota.
  unfold addAndAnswer.
  assert (Hadd : addLine menuItemId (JNum q2) (MenuItem.price m') (Cart.items (savedCart c1))
                 = Some [CartItem.mk menuItemId (q1 + q2) (MenuItem.price m)]).
  { apply (addLine_merge menuItemId q2 (MenuItem.price m') []
             [] (CartItem.mk menuItemId q1 (MenuItem.price m))).
    - intros item [].
    - reflexivity.
    - exact Hq12. }
  rewrite Hadd.
  set (c2 := Cart.mk _ _ _ _).
  assert (Hv2 : cartSchema_validate c2 = true).
  { apply validate_iff. intros item [<-|[]]. exact Hq12. }
  destruct (saveAndAnswer_loaded c2 (savedCart c1) "Item added to cart" db2 (User._id user)
              Hc2 eq_refl Hv2) as [He Hcart].
  split; [now rewrite He|]. exists (savedCart c2). split; [exact Hcart|reflexivity].
Qed.

End MoreOrders.

Lemma cast_order2 : castObjectId Sample.order2 = Some Sample.order2.
Proof. vm_compute. reflexivity. Defined.

Lemma X20_unknown_order_witness :
  orderOf Sample.order2 Sample.db2 = None /\
  run (order_put_status 5%Z Sample.alice Sample.order2 "delivered") Sample.db2
  = (Sample.db2, Res.mk 404 "Order not found" NoData) /\
  castObjectId "nope" = None /\
  run (order_get Sample.alice "nope") Sample.db2
  = (Sample.db2, Res.mk 500 "Cast to ObjectId failed" NoData).
Proof.
  split; [reflexivity|]. split.
  - exact (proj2 (proj2 (X20_unknown_order Sample.alice Sample.order2 5%Z "delivered"
                           Sample.db2) Sample.order2 cast_order2 eq_refl)).
  - split; [reflexivity|].
    exact (proj1 (proj1 (X20_unknown_order Sample.alice "nope" 5%Z "delivered" Sample.db2)
                        eq_refl)).
Defined.

Lemma X21_status_replay_witness :
  let db1 := fst (run (order_put_status 10%Z Sample.dan Sample.order1 "delivered")
                      Sample.db2) in
  User.role Sample.dan = delivery_agent /\
  Res.status (snd (run (order_put_status 10%Z Sample.dan Sample.order1 "delivered")
                       Sample.db2))
  = 200%nat /\
  exists o, orderOf Sample.order1
              (fst (run (order_put_status 20%Z Sample.dan Sample.order1 "picked_up") db1))
            = Some o
            /\ Order.status o = "picked_up" /\ Order.paymentStatus o = "paid".
Proof.
  cbv zeta. split; [reflexivity|].
  assert (H200 : Res.status (snd (run (order_put_status 10%Z Sample.dan Sample.order1
                                         "delivered") Sample.db2)) = 200%nat)
    by (vm_compute; reflexivity).
  split; [exact H200|].
  destruct (proj2 (X21_status_replay Sample.dan Sample.order1 Sample.order1 10%Z 20%Z
                     Sample.db2 eq_refl cast_order1 H200))
    as [o [Ho [_ [Hs [Hp _]]]]].
  exists o. now split.
Defined.

Lemma X23_merge_keeps_first_price_witness :
  let db1 := fst (run (cart_post Sample.alice Sample.pizzaId (Some (JNum 2))) Sample.db0) in
  let db2 := fst (run (menu_put Sample.olga Sample.pizzaId (Sample.reprice 150)) db1) in
  let out := run (cart_post Sample.alice Sample.pizzaId (Some (JNum 1))) db2 in
  User.role Sample.alice = customer /\
  menuItemOf Sample.pizzaId db2
  = Some (MenuItem.mk Sample.pizzaId Sample.trattoriaId "Pizza" 150 true) /\
  Res.status (snd out) = 200%nat /\
  exists cart, cartOf Sample.aliceId (fst out) = Some cart /\
               Cart.items cart = [CartItem.mk Sample.pizzaId (2 + 1) 120].
Proof.
  cbv zeta. split; [reflexivity|]. split; [vm_compute; reflexivity|].
  apply (X23_merge_keeps_first_price Sample.alice Sample.olga Sample.pizzaId 2 1
           (Sample.reprice 150) Sample.db0 Sample.pizza Sample.trattoria
           eq_refl cast_pizzaId eq_refl eq_refl eq_refl eq_refl).
  - intros m' Hu. simpl in Hu. injection Hu as <-. split; reflexivity.
  - reflexivity.
  - reflexivity.
Defined.
